(** * openweathermap-client: the HTTP call engine, the client facade and the
      response schemas, embedded in Rocq.

    The development follows the Python sources:
    - [openweathermap_client/utils.py]       ([dt_from_timestamp]),
    - [openweathermap_client/schemas.py]     (the marshmallow schemas),
    - [openweathermap_client/exceptions.py]  (the exception classes),
    - [openweathermap_client/api_client.py]  ([OpenWeatherMapClient]).

    Third-party code the client calls ([requests], [marshmallow], [datetime],
    [urllib]) is not part of the repository.  Its behaviour is written down
    below ([Datetime], [Requests], [Marshmallow], and [urljoin] beside the
    client), each as far as the client exercises it.  Calls to the logger are
    left out: they neither change control flow nor any value the client
    returns or stores. *)

From Stdlib Require Import ZArith List String Ascii Bool Lia QArith Qabs DecimalString.
Import ListNotations.

#[local] Set Warnings "-register-all".
Local Open Scope string_scope.
Local Open Scope Z_scope.

(** ** Python values *)

Module Py.

(** [str(n)] of an [int]. *)
Definition str_of_int (z : Z) : string := NilZero.string_of_int (Z.to_int z).

(** [sep.join(parts)]. *)
Fixpoint join (sep : string) (parts : list string) : string :=
  match parts with
  | [] => ""
  | [p] => p
  | p :: rest => p ++ sep ++ join sep rest
  end.

(** A local variable of a function body: unbound until first assigned. *)
Inductive Local (A : Type) : Type :=
| Unbound
| Bound (v : A).
Arguments Unbound {A}.
Arguments Bound {A} v.

(** *** Dictionaries
    A [dict] keeps its keys in insertion order, and the engine prints the
    query parameters in that order, so a dictionary is an association list
    without repeated keys. *)
Section Dict.
Context {V : Type}.

Definition Dict := list (string * V).

Fixpoint dict_get (d : Dict) (k : string) : option V :=
  match d with
  | [] => None
  | (k', v) :: rest => if String.eqb k' k then Some v else dict_get rest k
  end.

Definition dict_mem (d : Dict) (k : string) : bool :=
  match dict_get d k with Some _ => true | None => false end.

(** [d[k] = v]: an existing key keeps its place, a new key goes last. *)
Fixpoint dict_set (d : Dict) (k : string) (v : V) : Dict :=
  match d with
  | [] => [(k, v)]
  | (k', v') :: rest =>
      if String.eqb k' k then (k, v) :: rest else (k', v') :: dict_set rest k v
  end.

(** [d.update(other)]. *)
Definition dict_update (d other : Dict) : Dict :=
  fold_left (fun acc kv => dict_set acc (fst kv) (snd kv)) other d.

(** [d.pop(k)]: the dictionary without the key, or [None] for the
    [KeyError] of an absent key. *)
Fixpoint dict_remove (d : Dict) (k : string) : Dict :=
  match d with
  | [] => []
  | (k', v') :: rest =>
      if String.eqb k' k then rest else (k', v') :: dict_remove rest k
  end.

Definition dict_pop (d : Dict) (k : string) : option (V * Dict) :=
  match dict_get d k with
  | Some v => Some (v, dict_remove d k)
  | None => None
  end.
End Dict.
Arguments Dict V : clear implicits.

(** *** Values placed in a query string
    The client only ever formats such a value ([str.format], [str]).  An
    [int] and a [str] print as themselves; a [float] is carried by its
    [repr], which is what both print for it. *)
Inductive QueryValue : Type :=
| QInt (z : Z)
| QStr (s : string)
| QFloat (repr : string).

(** ['{}'.format(v)] and [str(v)]. *)
Definition format_value (v : QueryValue) : string :=
  match v with
  | QInt z => str_of_int z
  | QStr s => s
  | QFloat r => r
  end.

End Py.
Export Py.

(** ** JSON data and deserialized records
    What [response.json()] yields and what the schemas build from it. *)

Module Values.

(** A [float], by its value. *)
Inductive pyfloat : Type :=
| Finite (q : Q)
| Infinite (negative : bool)
| NaN.

(** [datetime.timezone]: a fixed offset from UTC, in seconds. *)
Record timezone : Type := { utcoffset : Z }.

(** [datetime.datetime]; [tzinfo] is [None] for a naive one. *)
Record datetime : Type := {
  year : Z; month : Z; day : Z;
  hour : Z; minute : Z; second : Z; microsecond : Z;
  tzinfo : option timezone
}.

Inductive PyVal : Type :=
| PyNone
| PyBool (b : bool)
| PyInt (z : Z)
| PyFloat (f : pyfloat)
| PyStr (s : string)
| PyList (l : list PyVal)
| PyDict (d : list (string * PyVal))
| PyDatetime (d : datetime).

End Values.
Export Values.

(** ** Exceptions
    The classes of [exceptions.py], the [requests] and [marshmallow] exceptions
    the client handles, and the built-in ones its code paths can raise.  An
    exception keeps the data computed at run time (a status code, the text of
    the underlying cause, the collected field errors); fixed message texts are
    not carried. *)

Module Exceptions.

(** The messages of a marshmallow [ValidationError]: a list of texts for one
    field, or a dictionary from field names (and list indexes) to messages. *)
Inductive ErrKey : Type :=
| KField (name : string)
| KIndex (idx : nat).

Inductive Errors : Type :=
| Messages (msgs : list string)
| ErrDict (d : list (ErrKey * Errors)).

(** What an [OpenWeatherMapClientError] is raised with: the text of the
    transport's exception, [str(src_exc)], or the two values its message
    ['{} on GET {}'] is formatted from. *)
Inductive ClientErrorArgs : Type :=
| FromTransport (src_exc : string)
| FromResponse (error : PyVal) (last_uri_call : option string).

Inductive Exception : Type :=
(* exceptions.py *)
| OpenWeatherMapClientError (args : ClientErrorArgs)
| OWMClientKeyNotDefinedError
| OWMClientUnknownServiceNameError (service_name : string)
| OWMClientAccessLimitationError
| OWMClientValidationError (errors : Errors)
(* requests.exceptions *)
| HTTPError (status_code : Z)
| RequestException (msg : string)
(* marshmallow *)
| ValidationError (errors : Errors)
(* built-in *)
| ValueError
| TypeError
| OverflowError
| OSError
| AttributeError
| KeyError (key : string)
| UnboundLocalError (name : string).

(** How a call ends. *)
Inductive Outcome (A : Type) : Type :=
| Returned (a : A)
| Raised (e : Exception).
Arguments Returned {A} a.
Arguments Raised {A} e.

End Exceptions.
Export Exceptions.

(** ** [datetime]
    Dates are those of the proleptic Gregorian calendar, computed as CPython's
    [datetime] module does ([_ymd2ord], [_ord2ymd]).  A [float] is a binary64
    number, carried by its exact value; what an operation on floats yields is
    the exact result rounded to the nearest binary64 ([round_binary64]).  The
    limits of the platform are those of CPython 3.11 on Linux with the GNU C
    library: a [time_t] of 64 bits, and a [gmtime] that fails for a year its
    [int] cannot hold. *)

Module Datetime.

Definition MINYEAR : Z := 1.
Definition MAXYEAR : Z := 9999.

Definition _is_leap (year : Z) : bool :=
  (year mod 4 =? 0) && (negb (year mod 100 =? 0) || (year mod 400 =? 0)).

Definition _days_before_year (year : Z) : Z :=
  let y := year - 1 in
  y * 365 + y / 4 - y / 100 + y / 400.

Definition _DAYS_IN_MONTH (month : Z) : Z :=
  match month with
  | 1 => 31 | 2 => 28 | 3 => 31 | 4 => 30 | 5 => 31 | 6 => 30
  | 7 => 31 | 8 => 31 | 9 => 30 | 10 => 31 | 11 => 30 | 12 => 31
  | _ => -1
  end.

Definition _DAYS_BEFORE_MONTH (month : Z) : Z :=
  match month with
  | 1 => 0 | 2 => 31 | 3 => 59 | 4 => 90 | 5 => 120 | 6 => 151
  | 7 => 181 | 8 => 212 | 9 => 243 | 10 => 273 | 11 => 304 | 12 => 334
  | _ => -1
  end.

Definition _days_before_month (year month : Z) : Z :=
  _DAYS_BEFORE_MONTH month + (if (2 <? month) && _is_leap year then 1 else 0).

(** year, month, day -> ordinal, considering 01-Jan-0001 as day 1. *)
Definition _ymd2ord (year month day : Z) : Z :=
  _days_before_year year + _days_before_month year month + day.

Definition _DI400Y : Z := 146097.
Definition _DI100Y : Z := 36524.
Definition _DI4Y : Z := 1461.

(** ordinal -> (year, month, day); [divmod] is floor division, as [Z.div]
    and [Z.modulo] are for a positive divisor. *)
Definition _ord2ymd (n : Z) : Z * Z * Z :=
  let n := n - 1 in
  let n400 := n / _DI400Y in
  let n := n mod _DI400Y in
  let year := n400 * 400 + 1 in
  let n100 := n / _DI100Y in
  let n := n mod _DI100Y in
  let n4 := n / _DI4Y in
  let n := n mod _DI4Y in
  let n1 := n / 365 in
  let n := n mod 365 in
  let year := year + n100 * 100 + n4 * 4 + n1 in
  if (n1 =? 4) || (n100 =? 4) then (year - 1, 12, 31)
  else
    let leapyear := (n1 =? 3) && (negb (n4 =? 24) || (n100 =? 3)) in
    let month := Z.shiftr (n + 50) 5 in
    let preceding :=
      _DAYS_BEFORE_MONTH month + (if (2 <? month) && leapyear then 1 else 0) in
    if n <? preceding then
      let month := month - 1 in
      let preceding :=
        preceding
        - (_DAYS_IN_MONTH month + (if (month =? 2) && leapyear then 1 else 0)) in
      (year, month, n - preceding + 1)
    else (year, month, n - preceding + 1).

(** [datetime.timezone.utc]. *)
Definition utc : timezone := {| utcoffset := 0 |}.

(** Ordinal of 1970-01-01. *)
Definition _EPOCH_ORD : Z := 719163.

(** The civil fields of the instant [us] microseconds after the epoch, read
    on a clock [offset] seconds east of UTC. *)
Definition civil (us : Z) (offset : Z) (tz : option timezone) : datetime :=
  let local := us + offset * 1000000 in
  let secs := local / 1000000 in
  let days := secs / 86400 in
  let rem := secs mod 86400 in
  let '(y, m, d) := _ord2ymd (days + _EPOCH_ORD) in
  {| year := y; month := m; day := d;
     hour := rem / 3600; minute := (rem mod 3600) / 60; second := rem mod 60;
     microsecond := local mod 1000000;
     tzinfo := tz |}.

(** Round half to even: the nearest integer, the even one of two that are
    equally near. *)
Definition round_half_even (q : Q) : Z :=
  let n := Qnum q in
  let d := Z.pos (Qden q) in
  let fl := n / d in
  let r2 := 2 * (n mod d) in
  if r2 <? d then fl
  else if d <? r2 then fl + 1
  else if Z.even fl then fl else fl + 1.

(** *** Binary floating point *)

(** [2 ^ e <= n / d], for [n] positive. *)
Definition reaches_pow2 (n : Z) (d : positive) (e : Z) : bool :=
  if e <? 0 then Z.pos d <=? n * 2 ^ (- e) else Z.pos d * 2 ^ e <=? n.

(** The exponent of [n / d], for [n] positive: the greatest [e] with
    [2 ^ e <= n / d]. *)
Definition exponent (n : Z) (d : positive) : Z :=
  let e := Z.log2 n - Z.log2 (Z.pos d) in
  if reaches_pow2 n d e then e else e - 1.

(** [(n / d) / 2 ^ p], and [m * 2 ^ p]. *)
Definition scaled (n : Z) (d : positive) (p : Z) : Q :=
  if p <? 0 then (n * 2 ^ (- p)) # d else n # (d * Z.to_pos (2 ^ p)).

Definition unscaled (m : Z) (p : Z) : Q :=
  if p <? 0 then m # Z.to_pos (2 ^ (- p)) else inject_Z (m * 2 ^ p).

(** The binary64 nearest to [q], the one with an even significand of two
    that are equally near: a significand of 53 bits, and exponents from -1074
    on.  (No operation below has a result of magnitude [2 ^ 1024] or more,
    which has no binary64 near it.) *)
Definition round_binary64 (q : Q) : Q :=
  if Qnum q =? 0 then 0%Q
  else
    let a := Z.abs (Qnum q) in
    let p := Z.max (exponent a (Qden q) - 52) (-1074) in
    unscaled (Z.sgn (Qnum q) * round_half_even (scaled a (Qden q) p)) p.

(** [modf(d, &intpart)]: the fractional part, and the integral part, both
    with the sign of [d]. *)
Definition modf (d : Q) : Q * Z :=
  let intpart := Z.quot (Qnum d) (Z.pos (Qden d)) in
  ((d - inject_Z intpart)%Q, intpart).

(** *** [fromtimestamp] and [timestamp] *)

Definition in_year_range (d : datetime) : bool :=
  (MINYEAR <=? year d) && (year d <=? MAXYEAR).

(** The [tz] argument of [fromtimestamp]: a time zone, or [None] for naive
    local time.  With [None] goes the conversion to local time of the
    platform: what it gives for a number of seconds and of microseconds (it
    depends on the zone the process runs in, and fails for numbers of its
    own). *)
Inductive TzArg : Type :=
| TzNone (localtime : Z -> Z -> Outcome datetime)
| TzSome (tz : timezone).

(** The bounds of [time_t], and those of the seconds [gmtime] has a year
    for: from the first second of year [-2147481748] through the last of
    year [2147485547]. *)
Definition _TIME_T_MIN : Z := -9223372036854775808.
Definition _TIME_T_MAX : Z := 9223372036854775807.
Definition _GMTIME_MIN : Z := -67768040609740800.
Definition _GMTIME_MAX : Z := 67768036191676799.

(** [_PyTime_DoubleToDenominator(d, &sec, &numerator, 1000000,
    _PyTime_ROUND_HALF_EVEN)]: the seconds and the microseconds of a float.
    The product of the fractional part and [1e6] is a float, rounded as such
    before it is rounded to an integer.  The range check compares floats,
    and the float of [_TIME_T_MAX] is [2 ^ 63]. *)
Definition _PyTime_DoubleToDenominator (d : Q) : Outcome (Z * Z) :=
  let '(floatpart, intpart) := modf d in
  let floatpart := round_binary64 (floatpart * 1000000) in
  let floatpart := round_half_even floatpart in
  let '(intpart, floatpart) :=
    if 1000000 <=? floatpart then (intpart + 1, floatpart - 1000000)
    else if floatpart <? 0 then (intpart - 1, floatpart + 1000000)
    else (intpart, floatpart) in
  if (_TIME_T_MIN <=? intpart) && (intpart <=? _TIME_T_MAX + 1)
  then Returned (intpart, floatpart)
  else Raised OverflowError.

(** [_PyTime_ObjectToTimeval(timestamp, &timet, &us,
    _PyTime_ROUND_HALF_EVEN)]: the seconds and the microseconds
    [fromtimestamp] reads from its argument, a [float] or an [int];
    [TypeError] for any other object. *)
Definition _PyTime_ObjectToTimeval (timestamp : PyVal) : Outcome (Z * Z) :=
  match timestamp with
  | PyFloat (Finite d) => _PyTime_DoubleToDenominator d
  | PyFloat (Infinite _) => Raised OverflowError
  | PyFloat NaN => Raised ValueError
  | PyBool b => Returned (if b then 1 else 0, 0)
  | PyInt z =>
      if (_TIME_T_MIN <=? z) && (z <=? _TIME_T_MAX) then Returned (z, 0)
      else Raised OverflowError
  | _ => Raised TypeError
  end.

(** [datetime.fromtimestamp(timestamp, tz=tz)].  With a time zone the fields
    are those [gmtime] gives, which fails with [OSError] out of its range;
    a year outside [MINYEAR..MAXYEAR] is a [ValueError]; the datetime is
    then moved to the zone by [tz.fromutc], an [OverflowError] when that
    leaves the years of [datetime].  Without a time zone the fields are those
    of local time. *)
Definition fromtimestamp (timestamp : PyVal) (tz : TzArg) : Outcome datetime :=
  match _PyTime_ObjectToTimeval timestamp with
  | Raised e => Raised e
  | Returned (timet, us) =>
      match tz with
      | TzSome z =>
          if (_GMTIME_MIN <=? timet) && (timet <=? _GMTIME_MAX) then
            let instant := timet * 1000000 + us in
            if in_year_range (civil instant 0 (Some z)) then
              let result := civil instant (utcoffset z) (Some z) in
              if in_year_range result then Returned result else Raised OverflowError
            else Raised ValueError
          else Raised OSError
      | TzNone localtime => localtime timet us
      end
  end.

(** [d.toordinal()]. *)
Definition toordinal (d : datetime) : Z := _ymd2ord (year d) (month d) (day d).

(** [d.timestamp()] of an aware datetime:
    [(d - _EPOCH).total_seconds()], the epoch being 1970-01-01T00:00 UTC;
    the microseconds between the two, divided by [10 ** 6], as a float.
    ([None] for a naive datetime, whose timestamp goes through the
    platform's [mktime].) *)
Definition timestamp (d : datetime) : option Q :=
  match tzinfo d with
  | Some z =>
      let days := toordinal d - _EPOCH_ORD in
      let secs := second d + minute d * 60 + hour d * 3600 - utcoffset z in
      Some (round_binary64 (((days * 86400 + secs) * 1000000 + microsecond d) # 1000000))
  | None => None
  end.

End Datetime.

(** ** utils.py *)

Module Utils.
Import Datetime.

(** [dt_from_timestamp(timestamp, *, ts_tz=None)]:
    [return dt.datetime.fromtimestamp(timestamp, tz=ts_tz)]. *)
Definition dt_from_timestamp (timestamp : PyVal) (ts_tz : TzArg) : Outcome datetime :=
  fromtimestamp timestamp ts_tz.

End Utils.

(** ** [requests]
    The transport is outside the repository.  A response is reduced to what
    the client reads of it: the status code and the decoded JSON body. *)

Module Requests.

Definition codes_ok : Z := 200.
Definition codes_bad_gateway : Z := 502.

Record Response : Type := {
  status_code : Z;
  (** what [response.json()] returns; [None] when the body is not JSON and
      the call raises [ValueError] *)
  body : option PyVal
}.

(** The keyword arguments the client hands to [requests.get]. *)
Record Kwargs : Type := {
  params : option (Dict QueryValue);
  stream : bool
}.

(** What one call of [requests.get] does: it returns a response or raises.
    [ConnectionError] and [Timeout] are the two classes the engine catches;
    any other exception of the library is [OtherError]. *)
Inductive Failure : Type :=
| ConnectionError (msg : string)
| Timeout (msg : string)
| OtherError (msg : string).

Inductive GetResult : Type :=
| Responds (r : Response)
| Fails (f : Failure).

(** [response.raise_for_status()]: [HTTPError] for a client error (4xx) or a
    server error (5xx), nothing otherwise. *)
Definition raise_for_status (r : Response) : option Exception :=
  if (400 <=? status_code r) && (status_code r <? 600)
  then Some (HTTPError (status_code r))
  else None.

(** A transport: [requests.get(uri, **kwargs)] run in a state of the outside
    world, which it may change. *)
Definition Transport (World : Type) : Type :=
  string -> Kwargs -> World -> GetResult * World.

End Requests.
Export Requests.

(** ** [marshmallow] (the 2.x line the schemas are written for)
    [load_from=] and [schema.load(data)[0]] are those of marshmallow 2:
    [Schema.load] returns the pair [(data, errors)], and raises
    [ValidationError] only for a schema declared [strict].  A field is an
    object with a [_deserialize] method; the scalar fields carry theirs as a
    function.  Fields are visited in the order they are declared (the library
    visits them in the order of a [set], which no statement below depends on). *)

Module Marshmallow.

(** The two field options the schemas of the repository use.  ([required] is
    declared by none of them, so it keeps its default, [False], throughout:
    a field whose key is absent is left out of the record.) *)
Record FieldOpts : Type := {
  load_from : option string;
  allow_none : bool
}.

Definition field_opts : FieldOpts :=
  {| load_from := None; allow_none := false |}.

Definition loaded_from (key : string) : FieldOpts :=
  {| load_from := Some key; allow_none := false |}.

(** What [field.deserialize(value)] does: it returns a value, raises a
    [ValidationError] (with its messages and, for a nested field, the data it
    could build), or lets another exception escape. *)
Inductive FieldResult : Type :=
| Valid (v : PyVal)
| Invalid (messages : Errors) (data : option PyVal)
| Escapes (e : Exception).

Inductive Field : Type :=
| Scalar (_deserialize : PyVal -> FieldResult) (opts : FieldOpts)
| Nested (nested : list (string * Field)) (opts : FieldOpts)
| List_ (container : Field) (opts : FieldOpts).

Definition opts_of (f : Field) : FieldOpts :=
  match f with
  | Scalar _ o | Nested _ o | List_ _ o => o
  end.

Definition fail (msg : string) : FieldResult := Invalid (Messages [msg]) None.

(** *** Text to number, as [int(s)] and [float(s)] read it *)

Definition is_space (c : ascii) : bool :=
  let n := nat_of_ascii c in
  (Nat.eqb n 32 || (Nat.leb 9 n && Nat.leb n 13))%bool.

Fixpoint lstrip (s : string) : string :=
  match s with
  | String c rest => if is_space c then lstrip rest else s
  | EmptyString => s
  end.

Fixpoint rev_string (s acc : string) : string :=
  match s with
  | String c rest => rev_string rest (String c acc)
  | EmptyString => acc
  end.

Definition strip (s : string) : string :=
  rev_string (lstrip (rev_string (lstrip s) "")) "".

Definition digit_of (c : ascii) : option Z :=
  let n := nat_of_ascii c in
  if (Nat.leb 48 n && Nat.leb n 57)%bool then Some (Z.of_nat n - 48) else None.

(** The leading digits of [s]: their value, their number, and the rest. *)
Fixpoint read_digits (s : string) (acc : Z) (count : Z) : Z * Z * string :=
  match s with
  | String c rest =>
      match digit_of c with
      | Some d => read_digits rest (acc * 10 + d) (count + 1)
      | None => (acc, count, s)
      end
  | EmptyString => (acc, count, s)
  end.

Definition read_sign (s : string) : bool * string :=
  match s with
  | String "-" rest => (true, rest)
  | String "+" rest => (false, rest)
  | _ => (false, s)
  end.

(** [int(s)] for a decimal literal with optional sign and surrounding white
    space; [None] is [ValueError].  (The digit grouping with underscores of
    Python 3.6 is not read.) *)
Definition int_of_str (s : string) : option Z :=
  let '(neg, s) := read_sign (strip s) in
  match read_digits s 0 0 with
  | (n, count, EmptyString) =>
      if 0 <? count then Some (if neg then - n else n) else None
  | _ => None
  end.

Definition lower (c : ascii) : ascii :=
  let n := nat_of_ascii c in
  if (Nat.leb 65 n && Nat.leb n 90)%bool then ascii_of_nat (n + 32) else c.

Fixpoint lower_string (s : string) : string :=
  match s with
  | String c rest => String (lower c) (lower_string rest)
  | EmptyString => s
  end.

Definition scale10 (m e : Z) : Q :=
  if 0 <=? e then inject_Z (m * 10 ^ e) else Qmake m (Z.to_pos (10 ^ (- e))).

(** [float(s)] for a decimal literal ([digits], [digits.digits], [.digits],
    each with an optional exponent), [inf], [infinity] and [nan]; [None] is
    [ValueError]. *)
Definition float_of_str (s : string) : option pyfloat :=
  let '(neg, s) := read_sign (strip s) in
  let word := lower_string s in
  if String.eqb word "inf" || String.eqb word "infinity" then Some (Infinite neg)
  else if String.eqb word "nan" then Some NaN
  else
    let '(ip, icount, s) := read_digits s 0 0 in
    let '(m, fcount, s) :=
      match s with
      | String "." rest => read_digits rest ip 0
      | _ => (ip, 0, s)
      end in
    if 0 <? icount + fcount then
      let signed := if neg then - m else m in
      match s with
      | EmptyString => Some (Finite (scale10 signed (- fcount)))
      | String c rest =>
          if Ascii.eqb (lower c) "e" then
            let '(eneg, rest) := read_sign rest in
            match read_digits rest 0 0 with
            | (e, ecount, EmptyString) =>
                if 0 <? ecount
                then Some (Finite (scale10 signed ((if eneg then - e else e) - fcount)))
                else None
            | _ => None
            end
          else None
      end
    else None.

(** *** The scalar fields *)

(** [fields.Integer]: [int(value)]; [TypeError] and [ValueError] become the
    field's error, [OverflowError] (an infinite float) escapes. *)
Definition Integer_deserialize (value : PyVal) : FieldResult :=
  let invalid := fail "Not a valid integer." in
  match value with
  | PyBool b => Valid (PyInt (if b then 1 else 0))
  | PyInt z => Valid (PyInt z)
  | PyFloat (Finite q) => Valid (PyInt (Z.quot (Qnum q) (Z.pos (Qden q))))
  | PyFloat (Infinite _) => Escapes OverflowError
  | PyFloat NaN => invalid
  | PyStr s =>
      match int_of_str s with
      | Some z => Valid (PyInt z)
      | None => invalid
      end
  | _ => invalid
  end.

(** The largest magnitude [float(int)] converts: beyond it, [OverflowError]. *)
Definition float_int_bound : Z := 2 ^ 1024 - 2 ^ 970.

(** [fields.Float]: [float(value)]. *)
Definition Float_deserialize (value : PyVal) : FieldResult :=
  let invalid := fail "Not a valid number." in
  match value with
  | PyBool b => Valid (PyFloat (Finite (if b then 1 else 0)))
  | PyInt z =>
      if Z.abs z <? float_int_bound then Valid (PyFloat (Finite (inject_Z z)))
      else Escapes OverflowError
  | PyFloat f => Valid (PyFloat f)
  | PyStr s =>
      match float_of_str s with
      | Some f => Valid (PyFloat f)
      | None => invalid
      end
  | _ => invalid
  end.

(** [fields.String]: the value must be text. *)
Definition String_deserialize (value : PyVal) : FieldResult :=
  match value with
  | PyStr s => Valid (PyStr s)
  | _ => fail "Not a valid string."
  end.

(** [bool(value)]. *)
Definition truthy (value : PyVal) : bool :=
  match value with
  | PyNone => false
  | PyBool b => b
  | PyInt z => negb (z =? 0)
  | PyFloat (Finite q) => negb (Qnum q =? 0)
  | PyFloat _ => true
  | PyStr s => negb (String.eqb s "")
  | PyList l => match l with [] => false | _ => true end
  | PyDict d => match d with [] => false | _ => true end
  | PyDatetime _ => true
  end.

(** [fields.DateTime] in its default ISO-8601 format: a false value is not
    valid; otherwise the text goes through [utils.from_iso], here a function
    [from_iso] of the installation (it uses [dateutil] when that is
    installed); [TypeError], [AttributeError] and [ValueError] become the
    field's error. *)
Definition DateTime_deserialize (from_iso : string -> option datetime)
    (value : PyVal) : FieldResult :=
  let invalid := fail "Not a valid datetime." in
  if truthy value then
    match value with
    | PyStr s =>
        match from_iso s with
        | Some d => Valid (PyDatetime d)
        | None => invalid
        end
    | _ => invalid
    end
  else invalid.

(** [fields.Method(deserialize=name)]: the schema's method is called on the
    raw value; only a [ValidationError] it raises is the field's error. *)
Definition Method_deserialize (method : PyVal -> Outcome PyVal) (value : PyVal)
    : FieldResult :=
  match method value with
  | Returned v => Valid v
  | Raised (ValidationError messages) => Invalid messages None
  | Raised e => Escapes e
  end.

Definition Integer (opts : FieldOpts) : Field := Scalar Integer_deserialize opts.
Definition Float (opts : FieldOpts) : Field := Scalar Float_deserialize opts.
Definition String_ (opts : FieldOpts) : Field := Scalar String_deserialize opts.
Definition DateTime (from_iso : string -> option datetime)
    (opts : FieldOpts) : Field :=
  Scalar (DateTime_deserialize from_iso) opts.
Definition Method (deserialize : PyVal -> Outcome PyVal) (opts : FieldOpts) : Field :=
  Scalar (Method_deserialize deserialize) opts.

(** *** The error store of an [Unmarshaller] *)

Definition ErrorStore : Type := list (ErrKey * Errors).

Definition errkey_eqb (a b : ErrKey) : bool :=
  match a, b with
  | KField x, KField y => String.eqb x y
  | KIndex i, KIndex j => Nat.eqb i j
  | _, _ => false
  end.

Fixpoint errors_get (errors : ErrorStore) (k : ErrKey) : option Errors :=
  match errors with
  | [] => None
  | (k', v) :: rest => if errkey_eqb k' k then Some v else errors_get rest k
  end.

Fixpoint errors_set (errors : ErrorStore) (k : ErrKey) (v : Errors) : ErrorStore :=
  match errors with
  | [] => [(k, v)]
  | (k', v') :: rest =>
      if errkey_eqb k' k then (k, v) :: rest else (k', v') :: errors_set rest k v
  end.

(** [errors.setdefault(key, []).extend(msgs)]. *)
Definition extend_messages (errors : ErrorStore) (k : ErrKey) (msgs : list string)
    : ErrorStore :=
  match errors_get errors k with
  | Some (Messages old) => errors_set errors k (Messages (old ++ msgs)%list)
  | Some (ErrDict _) => errors
  | None => errors_set errors k (Messages msgs)
  end.

(** [get_errors(index)]: the store itself, or the dictionary kept under the
    index of the item being loaded (created when it is first asked for). *)
Definition errors_at (errors : ErrorStore) (index : option nat) : ErrorStore :=
  match index with
  | None => errors
  | Some i =>
      match errors_get errors (KIndex i) with
      | Some (ErrDict d) => d
      | _ => []
      end
  end.

Definition put_errors_at (errors : ErrorStore) (index : option nat)
    (sub : ErrorStore) : ErrorStore :=
  match index with
  | None => sub
  | Some i => errors_set errors (KIndex i) (ErrDict sub)
  end.

(** The store after [call_and_store] caught a [ValidationError] of the field
    loaded from [field_name]. *)
Definition store_error (errors : ErrorStore) (index : option nat)
    (field_name : string) (messages : Errors) : ErrorStore :=
  let sub := errors_at errors index in
  let k := KField field_name in
  let sub :=
    match messages with
    | ErrDict _ => errors_set sub k messages
    | Messages msgs =>
        match errors_get sub k with
        | Some (ErrDict d) =>
            errors_set sub k (ErrDict (extend_messages d (KField "_field") msgs))
        | _ => extend_messages sub k msgs
        end
    end in
  put_errors_at errors index sub.

(** *** Unmarshalling *)

(** What unmarshalling ends with: the data built and the errors stored, or an
    exception that is not a [ValidationError] and escapes. *)
Inductive Unmarshalled : Type :=
| Built (ret : PyVal) (errors : ErrorStore)
| Escaped (e : Exception).

(** The raw value of a field in the input dictionary, with the key it was
    found under: the attribute name is looked up first, then [load_from]. *)
Definition raw_value (data : list (string * PyVal)) (attr_name : string)
    (field_obj : Field) : string * option PyVal :=
  match dict_get data attr_name, load_from (opts_of field_obj) with
  | None, Some key => (key, dict_get data key)
  | found, _ => (attr_name, found)
  end.

Section Unmarshaller.
Variable deserialize : Field -> PyVal -> FieldResult.

(** The loop of [Unmarshaller.deserialize] over the fields of a schema, for
    input data that is a dictionary. *)
Fixpoint unmarshal_fields (fields : list (string * Field))
    (data : list (string * PyVal)) (index : option nat)
    (items : list (string * PyVal)) (errors : ErrorStore) : Unmarshalled :=
  match fields with
  | [] => Built (PyDict items) errors
  | (attr_name, field_obj) :: rest =>
      let '(field_name, raw) := raw_value data attr_name field_obj in
      match raw with
      | None => unmarshal_fields rest data index items errors
      | Some raw =>
          match deserialize field_obj raw with
          | Valid value =>
              unmarshal_fields rest data index (items ++ [(attr_name, value)])%list errors
          | Invalid messages err_data =>
              let errors := store_error errors index field_name messages in
              let items :=
                match err_data with
                | Some value =>
                    if truthy value then (items ++ [(attr_name, value)])%list else items
                | None => items
                end in
              unmarshal_fields rest data index items errors
          | Escapes e => Escaped e
          end
      end
  end.

(** [Unmarshaller.deserialize(data, fields, many=False, index=index)]. *)
Definition unmarshal_one (fields : list (string * Field)) (data : PyVal)
    (index : option nat) (errors : ErrorStore) : Unmarshalled :=
  match data with
  | PyNone => Built PyNone errors
  | PyDict d => unmarshal_fields fields d index [] errors
  | _ =>
      match fields with
      | [] => Built (PyDict []) errors
      | _ :: _ =>
          let errors := put_errors_at errors index (errors_at errors index) in
          Built (PyDict [])
            (extend_messages errors (KField "_schema") ["Invalid input type."])
      end
  end.

(** The same with [many=True], over the items of a list. *)
Fixpoint unmarshal_items (fields : list (string * Field)) (data : list PyVal)
    (idx : nat) (ret : list PyVal) (errors : ErrorStore) : Unmarshalled :=
  match data with
  | [] => Built (PyList ret) errors
  | d :: rest =>
      match unmarshal_one fields d (Some idx) errors with
      | Built r errors => unmarshal_items fields rest (S idx) (ret ++ [r])%list errors
      | Escaped e => Escaped e
      end
  end.

Definition unmarshal (fields : list (string * Field)) (many : bool)
    (data : PyVal) : Unmarshalled :=
  if many then
    match data with
    | PyNone => Built PyNone []
    | PyList l => unmarshal_items fields l 0 [] []
    | _ => Built (PyList []) [(KField "_schema", Messages ["Invalid input type."])]
    end
  else unmarshal_one fields data None [].

(** The loop of [fields.List._deserialize]. *)
Fixpoint deserialize_items (container : PyVal -> FieldResult) (value : list PyVal)
    (idx : nat) (result : list PyVal) (errors : ErrorStore) : FieldResult :=
  match value with
  | [] =>
      match errors with
      | [] => Valid (PyList result)
      | _ :: _ => Invalid (ErrDict errors) (Some (PyList result))
      end
  | each :: rest =>
      match container each with
      | Valid v => deserialize_items container rest (S idx) (result ++ [v])%list errors
      | Invalid messages err_data =>
          let v := match err_data with Some v => v | None => PyNone end in
          deserialize_items container rest (S idx) (result ++ [v])%list
            (errors_set errors (KIndex idx) messages)
      | Escapes e => Escapes e
      end
  end.

End Unmarshaller.

(** [field.deserialize(value)] for a value that is present: [None] is
    refused unless the field allows it; then the field's own [_deserialize].
    A nested field loads the value with its schema and raises the errors the
    load returns; a list field deserializes the items one by one. *)
Fixpoint deserialize (f : Field) (value : PyVal) {struct f} : FieldResult :=
  match value with
  | PyNone =>
      if allow_none (opts_of f) then Valid PyNone else fail "Field may not be null."
  | _ =>
      match f with
      | Scalar _deserialize _ => _deserialize value
      | Nested nested _ =>
          match unmarshal_one deserialize nested value None [] with
          | Built data [] => Valid data
          | Built data errors => Invalid (ErrDict errors) (Some data)
          | Escaped e => Escapes e
          end
      | List_ container _ =>
          match value with
          | PyList l => deserialize_items (deserialize container) l 0 [] []
          | _ => fail "Not a valid list."
          end
      end
  end.

(** A schema class: its declared fields and the [strict] option of its
    [Meta]. *)
Record Schema : Type := {
  declared_fields : list (string * Field);
  strict : bool
}.

(** [schema.load(data)] of an instance made with [many=many]: the pair
    [(data, errors)]; a [ValidationError] only when there are errors and the
    schema is strict. *)
Definition load (schema : Schema) (many : bool) (data : PyVal)
    : Outcome (PyVal * ErrorStore) :=
  match unmarshal deserialize (declared_fields schema) many data with
  | Built result errors =>
      match errors with
      | [] => Returned (result, errors)
      | _ :: _ =>
          if strict schema then Raised (ValidationError (ErrDict errors))
          else Returned (result, errors)
      end
  | Escaped e => Raised e
  end.

End Marshmallow.

(** ** schemas.py *)

Module Schemas.
Import Marshmallow Datetime Utils.

Definition schema (fields : list (string * Field)) : Schema :=
  {| declared_fields := fields; strict := false |}.

Definition nested (s : Schema) (opts : FieldOpts) : Field :=
  Nested (declared_fields s) opts.

Definition allowing_none : FieldOpts := {| load_from := None; allow_none := true |}.

(** The static method [_from_ts] of the schemas that carry timestamps:
    [return dt_from_timestamp(timestamp, ts_tz=dt.timezone.utc)]. *)
Definition _from_ts (timestamp : PyVal) : Outcome PyVal :=
  match dt_from_timestamp timestamp (TzSome utc) with
  | Returned d => Returned (PyDatetime d)
  | Raised e => Raised e
  end.

(** City geographical coordinates schema. *)
Definition CityCoordSchema : Schema :=
  schema [("latitude", Float (loaded_from "lat"));
          ("longitude", Float (loaded_from "lon"))].

(** City schema. *)
Definition CitySchema : Schema :=
  schema [("id", Integer field_opts);
          ("name", String_ field_opts);
          ("country", String_ field_opts);
          ("coord", nested CityCoordSchema field_opts)].

(** Main weather data schema.  (Its [Meta.exclude] names [temp_kf], which is
    not a declared field.) *)
Definition MainDataSchema : Schema :=
  schema [("temp", Float field_opts);
          ("temp_min", Float field_opts);
          ("temp_max", Float field_opts);
          ("humidity", Float field_opts);
          ("pressure", Float field_opts);
          ("sea_level", Float field_opts);
          ("grnd_level", Float field_opts)].

(** Wind data schema. *)
Definition WindDataSchema : Schema :=
  schema [("direction", Float (loaded_from "deg"));
          ("speed", Float field_opts)].

(** Weather data schema. *)
Definition WeatherDataSchema : Schema :=
  schema [("id", Integer field_opts);
          ("main", String_ field_opts);
          ("description", String_ field_opts);
          ("icon", String_ field_opts)].

(** Cloud data schema. *)
Definition CloudDataSchema : Schema :=
  schema [("clouds_all", Integer field_opts)].

(** Rain data schema. *)
Definition RainDataSchema : Schema :=
  schema [("rain_3h", Float field_opts)].

(** Snow data schema. *)
Definition SnowDataSchema : Schema :=
  schema [("snow_3h", Float field_opts)].

(** Forecast data schema. *)
Definition ForecastDataSchema : Schema :=
  schema [("dt_value", Method _from_ts (loaded_from "dt"));
          ("dt_timestamp", Integer (loaded_from "dt"));
          ("dt_txt", String_ field_opts);
          ("main", nested MainDataSchema field_opts);
          ("weather", List_ (nested WeatherDataSchema field_opts) field_opts);
          ("clouds", nested CloudDataSchema field_opts);
          ("wind", nested WindDataSchema field_opts);
          ("rain", nested RainDataSchema field_opts);
          ("snow", nested SnowDataSchema field_opts)].

(** Forecast response schema. *)
Definition ForecastSchema : Schema :=
  schema [("city", nested CitySchema field_opts);
          ("cnt", Integer field_opts);
          ("datas", List_ (nested ForecastDataSchema field_opts) (loaded_from "list"))].

(** Current weather sys data schema. *)
Definition CurrentWeatherSysDataSchema : Schema :=
  schema [("country", String_ field_opts);
          ("sunrise", Method _from_ts field_opts);
          ("sunset", Method _from_ts field_opts);
          ("sunrise_timestamp", Integer (loaded_from "sunrise"));
          ("sunset_timestamp", Integer (loaded_from "sunset"))].

(** Current weather response schema. *)
Definition CurrentWeatherSchema : Schema :=
  schema [("city_id", Integer (loaded_from "id"));
          ("city_name", String_ (loaded_from "name"));
          ("city_coord", nested CityCoordSchema (loaded_from "coord"));
          ("dt_value", Method _from_ts (loaded_from "dt"));
          ("dt_timestamp", Integer (loaded_from "dt"));
          ("main", nested MainDataSchema field_opts);
          ("weather", List_ (nested WeatherDataSchema field_opts) field_opts);
          ("clouds", nested CloudDataSchema field_opts);
          ("wind", nested WindDataSchema field_opts);
          ("rain", nested RainDataSchema allowing_none);
          ("snow", nested SnowDataSchema allowing_none);
          ("sys", nested CurrentWeatherSysDataSchema field_opts)].

(** Current weather response schema for within box, within circle and search
    for IDs. *)
Definition CurrentWeatherSearchSchema : Schema :=
  schema [("status_code", Integer (loaded_from "cod"));
          ("calc_time", Float field_opts);
          ("cnt", Integer field_opts);
          ("datas", List_ (nested CurrentWeatherSchema field_opts) (loaded_from "list"))].

(** The schemas with ISO-8601 dates read them through
    [ma.utils.from_iso_datetime], a function of the installation. *)
Section Iso8601.
Variable from_iso_datetime : string -> option datetime.

(** Current UV index response schema. *)
Definition UVIndexSchema : Schema :=
  schema [("latitude", Float (loaded_from "lat"));
          ("longitude", Float (loaded_from "lon"));
          ("date", DateTime from_iso_datetime (loaded_from "date_iso"));
          ("date_iso", String_ field_opts);
          ("dt_timestamp", Integer (loaded_from "date"));
          ("value", Float field_opts)].

(** Air pollution location data schema. *)
Definition AirPollutionLocationSchema : Schema :=
  schema [("latitude", Float field_opts);
          ("longitude", Float field_opts)].

(** Air pollution base response schema. *)
Definition AirPollutionBaseSchema : Schema :=
  schema [("time", DateTime from_iso_datetime field_opts);
          ("time_iso8601", String_ (loaded_from "time"));
          ("location", nested AirPollutionLocationSchema field_opts)].

(** A schema class derived from [base]: the fields of the base class, then
    its own. *)
Definition derived (base : Schema) (own : list (string * Field)) : Schema :=
  schema (declared_fields base ++ own)%list.

(** Air pollution carbon monoxyde data schema. *)
Definition AirPollutionCarbonMonoxydeDataSchema : Schema :=
  schema [("precision", Float field_opts);
          ("pressure", Float field_opts);
          ("value", Float field_opts)].

(** Air pollution carbon monoxyde response schema. *)
Definition AirPollutionCarbonMonoxydeSchema : Schema :=
  derived AirPollutionBaseSchema
    [("datas", List_ (nested AirPollutionCarbonMonoxydeDataSchema field_opts)
                 (loaded_from "data"))].

(** Air pollution ozone response schema. *)
Definition AirPollutionOzoneSchema : Schema :=
  derived AirPollutionBaseSchema [("data", Float field_opts)].

(** Air pollution sulfur dioxide data schema. *)
Definition AirPollutionSulfurDioxideDataSchema : Schema :=
  schema [("precision", Float field_opts);
          ("pressure", Float field_opts);
          ("value", Float field_opts)].

(** Air pollution sulfur dioxide response schema. *)
Definition AirPollutionSulfurDioxideSchema : Schema :=
  derived AirPollutionBaseSchema
    [("datas", List_ (nested AirPollutionSulfurDioxideDataSchema field_opts)
                 (loaded_from "data"))].

(** Air pollution nitrogen dioxide item data schema. *)
Definition AirPollutionNitrogenDioxideItemDataSchema : Schema :=
  schema [("precision", Float field_opts);
          ("value", Float field_opts)].

(** Air pollution nitrogen dioxide item schema. *)
Definition AirPollutionNitrogenDioxideItemSchema : Schema :=
  schema [("no2", nested AirPollutionNitrogenDioxideItemDataSchema field_opts);
          ("no2_strat", nested AirPollutionNitrogenDioxideItemDataSchema field_opts);
          ("no2_trop", nested AirPollutionNitrogenDioxideItemDataSchema field_opts)].

(** Air pollution nitrogen dioxide response schema. *)
Definition AirPollutionNitrogenDioxideSchema : Schema :=
  derived AirPollutionBaseSchema
    [("data", nested AirPollutionNitrogenDioxideItemSchema field_opts)].

End Iso8601.

End Schemas.

(** ** api_client.py: the client and its HTTP call engine *)

Module ApiClient.
Import Marshmallow Schemas.

Definition _API_HOST : string := "api.openweathermap.org".
Definition _API_DATA_VERSION : string := "2.5".
Definition _API_POLLUTION_VERSION : string := "v1".

(** The attributes of an [OpenWeatherMapClient] instance. *)
Record OpenWeatherMapClient : Type := {
  api_key : string;
  host : string;
  max_retries : Z;
  units : string;
  _base_uri : string;
  _base_uri_params : Dict QueryValue;
  last_uri_call : option string;
  last_uri_call_tries : Z
}.

Definition set_last_uri_call (self : OpenWeatherMapClient) (v : option string)
    : OpenWeatherMapClient :=
  {| api_key := api_key self; host := host self;
     max_retries := max_retries self; units := units self;
     _base_uri := _base_uri self; _base_uri_params := _base_uri_params self;
     last_uri_call := v;
     last_uri_call_tries := last_uri_call_tries self |}.

Definition set_last_uri_call_tries (self : OpenWeatherMapClient) (v : Z)
    : OpenWeatherMapClient :=
  {| api_key := api_key self; host := host self;
     max_retries := max_retries self; units := units self;
     _base_uri := _base_uri self; _base_uri_params := _base_uri_params self;
     last_uri_call := last_uri_call self;
     last_uri_call_tries := v |}.

(** [OpenWeatherMapClient(api_key, *, use_ssl=True, host=_API_HOST,
    max_retries=5, units='metric')].  [host or _API_HOST] takes the default
    for [None] and for the empty string. *)
Definition __init__ (api_key : option string) (use_ssl : bool)
    (host : option string) (max_retries : Z) (units : string)
    : Outcome OpenWeatherMapClient :=
  match api_key with
  | None => Raised OWMClientKeyNotDefinedError
  | Some key =>
      let host :=
        match host with
        | None | Some EmptyString => _API_HOST
        | Some h => h
        end in
      Returned
        {| api_key := key;
           host := host;
           max_retries := max_retries;
           units := units;
           _base_uri := "http" ++ (if use_ssl then "s" else "") ++ "://" ++ host;
           _base_uri_params := [("appid", QStr key); ("units", QStr units)];
           last_uri_call := None;
           last_uri_call_tries := 0 |}
  end.

(** The human readable uri with query parameters that [_get] stores:
    ['?'.join([uri, '&'.join(['{}={}'.format(k, v if k != 'appid' else 'XxX')
    for k, v in kwargs.get('params', {}).items()])])]. *)
Definition readable_param (kv : string * QueryValue) : string :=
  fst kv ++ "=" ++
    (if negb (String.eqb (fst kv) "appid") then format_value (snd kv) else "XxX").

Definition readable_uri (uri : string) (kwargs : Kwargs) : string :=
  let items := match params kwargs with Some d => d | None => [] end in
  join "?" [uri; join "&" (map readable_param items)].

Section Engine.
Context {World : Type}.
Variable requests_get : Transport World.

(** The [try] ... [except] of the loop body, once [last_uri_call_tries] is
    incremented: the request is sent; a connection error or a timeout leaves
    [response = None], and is raised as an [OpenWeatherMapClientError] on the
    last try.  Any other exception of the transport is not caught. *)
Definition send (self : OpenWeatherMapClient) (uri : string) (kwargs : Kwargs)
    (w : World) : Outcome (option Response) * World :=
  match requests_get uri kwargs w with
  | (Responds response, w') => (Returned (Some response), w')
  | (Fails (ConnectionError src_exc), w')
  | (Fails (Timeout src_exc), w') =>
      if last_uri_call_tries self >=? max_retries self
      then (Raised (OpenWeatherMapClientError (FromTransport src_exc)), w')
      else (Returned None, w')
  | (Fails (OtherError msg), w') => (Raised (RequestException msg), w')
  end.

(** The [if response is not None:] block: it raises, or leaves the new value
    of [is_success]. *)
Definition check (self : OpenWeatherMapClient) (is_success : bool)
    (response : option Response) : Outcome bool :=
  match response with
  | Some response =>
      if negb (status_code response =? codes_ok) then
        if last_uri_call_tries self >=? max_retries self then
          if status_code response =? codes_bad_gateway
          then Raised OWMClientAccessLimitationError
          else
            match raise_for_status response with
            | Some exc => Raised exc
            | None => Returned is_success
            end
        else Returned is_success
      else if last_uri_call_tries self <? max_retries self then Returned true
      else Returned is_success
  | None => Returned is_success
  end.

(** [while not is_success and self.last_uri_call_tries < self.max_retries:]
    with its body, and the [return response] that follows the loop.  [fuel]
    bounds the number of iterations; [None] says the bound was too small. *)
Fixpoint _get_loop (fuel : nat) (self : OpenWeatherMapClient) (uri : string)
    (kwargs : Kwargs) (is_success : bool)
    (response : Local (option Response)) (w : World)
    : option (Outcome (option Response) * OpenWeatherMapClient * World) :=
  if negb is_success && (last_uri_call_tries self <? max_retries self) then
    match fuel with
    | O => None
    | S fuel =>
        let self := set_last_uri_call_tries self (last_uri_call_tries self + 1) in
        match send self uri kwargs w with
        | (Returned response, w) =>
            match check self is_success response with
            | Returned is_success =>
                _get_loop fuel self uri kwargs is_success (Bound response) w
            | Raised exc => Some (Raised exc, self, w)
            end
        | (Raised exc, w) => Some (Raised exc, self, w)
        end
    end
  else
    match response with
    | Bound response => Some (Returned response, self, w)
    | Unbound => Some (Raised (UnboundLocalError "response"), self, w)
    end.

(** [_get(self, uri, **kwargs)].  Every iteration increments
    [last_uri_call_tries], so [max_retries] iterations are enough. *)
Definition _get (self : OpenWeatherMapClient) (uri : string) (kwargs : Kwargs)
    (w : World)
    : option (Outcome (option Response) * OpenWeatherMapClient * World) :=
  let self := set_last_uri_call self (Some (readable_uri uri kwargs)) in
  let self := set_last_uri_call_tries self 0 in
  _get_loop (Z.to_nat (max_retries self)) self uri kwargs false Unbound w.

(** The world after the transport was called [n] times with the same request,
    and what the [j]-th of these calls (counted from 1) does. *)
Fixpoint world_after (uri : string) (kwargs : Kwargs) (n : nat) (w : World) : World :=
  match n with
  | O => w
  | S n => world_after uri kwargs n (snd (requests_get uri kwargs w))
  end.

Definition attempt (uri : string) (kwargs : Kwargs) (j : nat) (w : World) : GetResult :=
  fst (requests_get uri kwargs (world_after uri kwargs (Nat.pred j) w)).

End Engine.

(** [_deserialize_with_schema(data_schema_info, json_data)]: the schema is
    instantiated with [many=...] only, [load] is called and the first
    component of its result returned; a [ValidationError] is re-raised as an
    [OWMClientValidationError]. *)
Record SchemaInfo : Type := {
  name : Schema;
  many : bool
}.

Definition _deserialize_with_schema (data_schema_info : SchemaInfo)
    (json_data : PyVal) : Outcome PyVal :=
  match load (name data_schema_info) (many data_schema_info) json_data with
  | Returned result => Returned (fst result)
  | Raised (ValidationError src_exc) => Raised (OWMClientValidationError src_exc)
  | Raised exc => Raised exc
  end.

(** *** [urllib.parse.urljoin]
    As CPython 3.11 has it, for text of ASCII characters.  Left out are the
    two refusals of [urlsplit], which raises [ValueError] for an authority
    with a square bracket that does not enclose an IP address, and for one
    that is not ASCII and changes under NFKC normalization. *)

Definition uses_relative : list string :=
  [""; "ftp"; "http"; "gopher"; "nntp"; "imap"; "wais"; "file"; "https"; "shttp";
   "mms"; "prospero"; "rtsp"; "rtspu"; "sftp"; "svn"; "svn+ssh"; "ws"; "wss"].

Definition uses_netloc : list string :=
  [""; "ftp"; "http"; "gopher"; "nntp"; "telnet"; "imap"; "wais"; "file"; "mms";
   "https"; "shttp"; "snews"; "prospero"; "rtsp"; "rtspu"; "rsync"; "svn";
   "svn+ssh"; "sftp"; "nfs"; "git"; "git+ssh"; "ws"; "wss"].

Definition uses_params : list string :=
  [""; "ftp"; "hdl"; "prospero"; "http"; "imap"; "https"; "shttp"; "rtsp"; "rtspu";
   "sip"; "sips"; "mms"; "sftp"; "tel"].

(** [s in names]. *)
Definition is_among (names : list string) (s : string) : bool :=
  existsb (String.eqb s) names.

(** Every character of the text is one [p] accepts. *)
Fixpoint all_chars (p : ascii -> bool) (s : string) : bool :=
  match s with
  | String c rest => p c && all_chars p rest
  | EmptyString => true
  end.

Definition is_alpha (c : ascii) : bool :=
  let n := nat_of_ascii c in
  ((Nat.leb 97 n && Nat.leb n 122) || (Nat.leb 65 n && Nat.leb n 90))%bool.

(** [scheme_chars]: letters, digits, [+], [-] and [.]. *)
Definition is_scheme_char (c : ascii) : bool :=
  let n := nat_of_ascii c in
  ((Nat.leb 97 n && Nat.leb n 122) || (Nat.leb 65 n && Nat.leb n 90)
   || (Nat.leb 48 n && Nat.leb n 57)
   || Nat.eqb n 43 || Nat.eqb n 45 || Nat.eqb n 46)%bool.

(** [_WHATWG_C0_CONTROL_OR_SPACE] and [_UNSAFE_URL_BYTES_TO_REMOVE]. *)
Definition is_c0_control_or_space (c : ascii) : bool := Nat.leb (nat_of_ascii c) 32.

Definition is_unsafe_url_byte (c : ascii) : bool :=
  let n := nat_of_ascii c in
  (Nat.eqb n 9 || Nat.eqb n 13 || Nat.eqb n 10)%bool.

(** [s.lstrip(chars)] and [s.strip(chars)]. *)
Fixpoint lstrip_chars (p : ascii -> bool) (s : string) : string :=
  match s with
  | String c rest => if p c then lstrip_chars p rest else s
  | EmptyString => s
  end.

Definition strip_chars (p : ascii -> bool) (s : string) : string :=
  rev_string (lstrip_chars p (rev_string (lstrip_chars p s) "")) "".

(** The text without the characters [p] accepts. *)
Fixpoint remove_chars (p : ascii -> bool) (s : string) : string :=
  match s with
  | String c rest => if p c then remove_chars p rest else String c (remove_chars p rest)
  | EmptyString => s
  end.

(** The text before the first character [stop] accepts, and the text from
    that character on, if there is one. *)
Fixpoint break_at (stop : ascii -> bool) (s : string) : string * option string :=
  match s with
  | String c rest =>
      if stop c then ("", Some s)
      else let '(before, from) := break_at stop rest in (String c before, from)
  | EmptyString => ("", None)
  end.

(** [s.split(c, 1)], when [c] occurs in [s]. *)
Definition split_once (c : ascii) (s : string) : string * option string :=
  match break_at (Ascii.eqb c) s with
  | (before, Some (String _ after)) => (before, Some after)
  | (before, _) => (before, None)
  end.

(** [s.split('/')]. *)
Fixpoint split_slash (s : string) : list string :=
  match s with
  | String c rest =>
      if Ascii.eqb c "/" then "" :: split_slash rest
      else
        match split_slash rest with
        | segment :: segments => String c segment :: segments
        | [] => [String c ""]
        end
  | EmptyString => [""]
  end.

(** The scheme of a url and what follows it, or the default scheme and the
    url. *)
Definition split_scheme (url scheme : string) : string * string :=
  match split_once ":" url with
  | (String first _ as prefix, Some after) =>
      if is_alpha first && all_chars is_scheme_char prefix
      then (lower_string prefix, after)
      else (scheme, url)
  | _ => (scheme, url)
  end.

Definition ends_netloc (c : ascii) : bool :=
  (Ascii.eqb c "/" || Ascii.eqb c "?" || Ascii.eqb c "#")%bool.

(** [url[2:]] when [url[:2] == '//']. *)
Definition after_slashes (url : string) : option string :=
  match url with
  | String "/" (String "/" rest) => Some rest
  | _ => None
  end.

(** [_splitnetloc(url, 2)], from the text after the two slashes. *)
Definition _splitnetloc (url : string) : string * string :=
  match break_at ends_netloc url with
  | (netloc, Some rest) => (netloc, rest)
  | (netloc, None) => (netloc, "")
  end.

(** [urlsplit(url, scheme)]. *)
Definition urlsplit (url scheme : string) : string * string * string * string * string :=
  let url := lstrip_chars is_c0_control_or_space url in
  let scheme := strip_chars is_c0_control_or_space scheme in
  let url := remove_chars is_unsafe_url_byte url in
  let scheme := remove_chars is_unsafe_url_byte scheme in
  let '(scheme, url) := split_scheme url scheme in
  let '(netloc, url) :=
    match after_slashes url with
    | Some rest => _splitnetloc rest
    | None => ("", url)
    end in
  let '(url, fragment) :=
    match split_once "#" url with
    | (url, Some fragment) => (url, fragment)
    | (url, None) => (url, "")
    end in
  let '(url, query) :=
    match split_once "?" url with
    | (url, Some query) => (url, query)
    | (url, None) => (url, "")
    end in
  (scheme, netloc, url, query, fragment).

(** The text up to and including its last slash, and what follows it. *)
Fixpoint rsplit_slash (url : string) : string * string :=
  match url with
  | String c rest =>
      let '(head, tail) := rsplit_slash rest in
      match head with
      | EmptyString => if Ascii.eqb c "/" then ("/", tail) else ("", String c tail)
      | _ => (String c head, tail)
      end
  | EmptyString => ("", "")
  end.

(** [_splitparams(url)], for a url with a semicolon: the parameters are
    those of the last segment. *)
Definition _splitparams (url : string) : string * string :=
  let '(head, tail) := rsplit_slash url in
  match split_once ";" tail with
  | (tail, Some params) => (head ++ tail, params)
  | (_, None) => (url, "")
  end.

(** [urlparse(url, scheme)]. *)
Definition urlparse (url scheme : string)
    : string * string * string * string * string * string :=
  let '(scheme, netloc, url, query, fragment) := urlsplit url scheme in
  let '(url, params) :=
    if is_among uses_params scheme then _splitparams url else (url, "") in
  (scheme, netloc, url, params, query, fragment).

Definition starts_with_slash (s : string) : bool :=
  match s with
  | String c _ => Ascii.eqb c "/"
  | EmptyString => false
  end.

Definition is_empty (s : string) : bool :=
  match s with
  | EmptyString => true
  | _ => false
  end.

(** [urlunsplit((scheme, netloc, url, query, fragment))]. *)
Definition urlunsplit (scheme netloc url query fragment : string) : string :=
  let url :=
    if negb (is_empty netloc)
       || (negb (is_empty scheme) && is_among uses_netloc scheme
           && negb (String.prefix "//" url))
    then "//" ++ netloc ++ (if negb (is_empty url) && negb (starts_with_slash url)
                            then "/" ++ url else url)
    else url in
  let url := if negb (is_empty scheme) then scheme ++ ":" ++ url else url in
  let url := if negb (is_empty query) then url ++ "?" ++ query else url in
  if negb (is_empty fragment) then url ++ "#" ++ fragment else url.

(** [urlunparse((scheme, netloc, url, params, query, fragment))]. *)
Definition urlunparse (scheme netloc url params query fragment : string) : string :=
  let url := if negb (is_empty params) then url ++ ";" ++ params else url in
  urlunsplit scheme netloc url query fragment.

(** [segments[1:-1] = filter(None, segments[1:-1])]. *)
Definition filter_inner (segments : list string) : list string :=
  match segments with
  | first :: (_ :: _) as rest =>
      (first :: filter (fun s => negb (is_empty s)) (removelast rest)
         ++ [last rest ""])%list
  | _ => segments
  end.

Definition is_dot_segment (s : string) : bool :=
  (String.eqb s "." || String.eqb s "..")%bool.

(** The loop over the segments, which drops [.] and goes up for [..]. *)
Fixpoint resolve_segments (segments resolved_path : list string) : list string :=
  match segments with
  | seg :: segments =>
      if String.eqb seg ".." then resolve_segments segments (removelast resolved_path)
      else if String.eqb seg "." then resolve_segments segments resolved_path
      else resolve_segments segments (resolved_path ++ [seg])%list
  | [] => resolved_path
  end.

(** [urljoin(base, url)]. *)
Definition urljoin (base url : string) : string :=
  if is_empty base then url
  else if is_empty url then base
  else
    let '(bscheme, bnetloc, bpath, bparams, bquery, bfragment) := urlparse base "" in
    let '(scheme, netloc, path, params, query, fragment) := urlparse url bscheme in
    if negb (String.eqb scheme bscheme) || negb (is_among uses_relative scheme) then url
    else if is_among uses_netloc scheme && negb (is_empty netloc)
    then urlunparse scheme netloc path params query fragment
    else
      let netloc := if is_among uses_netloc scheme then bnetloc else netloc in
      if is_empty path && is_empty params
      then urlunparse scheme netloc bpath bparams
             (if is_empty query then bquery else query) fragment
      else
        let base_parts := split_slash bpath in
        let base_parts :=
          if negb (is_empty (last base_parts "")) then removelast base_parts
          else base_parts in
        let segments :=
          if starts_with_slash path then split_slash path
          else filter_inner (base_parts ++ split_slash path)%list in
        let resolved_path := resolve_segments segments [] in
        let resolved_path :=
          if is_dot_segment (last segments "") then (resolved_path ++ [""])%list
          else resolved_path in
        let path := join "/" resolved_path in
        urlunparse scheme netloc (if is_empty path then "/" else path)
          params query fragment.

(** ['error' in s] for a text [s]. *)
Fixpoint is_infix (needle hay : string) : bool :=
  (String.prefix needle hay
   || match hay with
      | String _ rest => is_infix needle rest
      | EmptyString => false
      end)%bool.

Definition is_error_text (v : PyVal) : bool :=
  match v with
  | PyStr s => String.eqb s "error"
  | _ => false
  end.

Section Facade.
Context {World : Type}.
Variable requests_get : Transport World.
Variable from_iso_datetime : string -> option datetime.

Record ServiceInfo : Type := {
  uri : string;
  schema_info : SchemaInfo;
  description : string
}.

Definition service (uri : string) (name : Schema) (many : bool)
    (description : string) : ServiceInfo :=
  {| uri := uri;
     schema_info := {| name := name; many := many |};
     description := description |}.

Definition _AVAILABLE_SERVICES : Dict ServiceInfo :=
  [("city_list",
    service "http://bulk.openweathermap.org/sample/city.list.json.gz"
      CitySchema true "Cities' IDs list.");
   ("forecast_5d",
    service ("/data/" ++ _API_DATA_VERSION ++ "/forecast")
      ForecastSchema false "Forecast 5 day / 3 hour for a location.");
   ("current_weather",
    service ("/data/" ++ _API_DATA_VERSION ++ "/weather")
      CurrentWeatherSchema false "Current weather for a location.");
   ("current_weather_box",
    service ("/data/" ++ _API_DATA_VERSION ++ "/box/city")
      CurrentWeatherSearchSchema false "Current weather within a geographical box.");
   ("current_weather_circle",
    service ("/data/" ++ _API_DATA_VERSION ++ "/find")
      CurrentWeatherSearchSchema false "Current weather within a geographical circle.");
   ("current_weather_group",
    service ("/data/" ++ _API_DATA_VERSION ++ "/group")
      CurrentWeatherSearchSchema false "Current weather for a group of cities.");
   ("air_pollution_carbon_monoxyde",
    service ("/pollution/" ++ _API_POLLUTION_VERSION ++ "/co/")
      (AirPollutionCarbonMonoxydeSchema from_iso_datetime) false
      "Carbon monoxyde for a location and time.");
   ("air_pollution_ozone",
    service ("/pollution/" ++ _API_POLLUTION_VERSION ++ "/o3/")
      (AirPollutionOzoneSchema from_iso_datetime) false
      "Ozone for a location and time.");
   ("air_pollution_sulfur_dioxide",
    service ("/pollution/" ++ _API_POLLUTION_VERSION ++ "/so2/")
      (AirPollutionSulfurDioxideSchema from_iso_datetime) false
      "Sulfur dioxide for a location and time.");
   ("air_pollution_nitrogen_dioxide",
    service ("/pollution/" ++ _API_POLLUTION_VERSION ++ "/no2/")
      (AirPollutionNitrogenDioxideSchema from_iso_datetime) false
      "Nitrogen dioxide for a location and time.");
   ("uv_index_current",
    service ("/data/" ++ _API_DATA_VERSION ++ "/uvi")
      (UVIndexSchema from_iso_datetime) false "UV index for a location.");
   ("uv_index_forecast",
    service ("/data/" ++ _API_DATA_VERSION ++ "/uvi/forecast")
      (UVIndexSchema from_iso_datetime) true "Forecast UV index for a location.");
   ("uv_index_historical",
    service ("/data/" ++ _API_DATA_VERSION ++ "/uvi/history")
      (UVIndexSchema from_iso_datetime) true "Historical UV index for a location.")].

(** What [_get_data] does with the response [_get] returned: [json()], the
    test ['error' in resp_data] and the deserialization.  ([response] is
    [None] only if [_get] returned [None]; indexing a list or a text with
    ['error'] is a [TypeError], as is [in] on a value that is no container.) *)
Definition read_response (self : OpenWeatherMapClient) (service_info : ServiceInfo)
    (response : option Response) : Outcome PyVal :=
  match response with
  | None => Raised AttributeError
  | Some response =>
      match body response with
      | None => Raised ValueError
      | Some resp_data =>
          let deserialized :=
            _deserialize_with_schema (schema_info service_info) resp_data in
          match resp_data with
          | PyDict d =>
              match dict_get d "error" with
              | Some error =>
                  Raised (OpenWeatherMapClientError
                            (FromResponse error (last_uri_call self)))
              | None => deserialized
              end
          | PyList l => if existsb is_error_text l then Raised TypeError else deserialized
          | PyStr text => if is_infix "error" text then Raised TypeError else deserialized
          | _ => Raised TypeError
          end
      end
  end.

(** [_get_data(self, service_name, *, extra_uri=None, params=None,
    with_units=True)].  [params or OrderedDict()] replaces [None] and an empty
    dictionary by a new one. *)
Definition _get_data (self : OpenWeatherMapClient) (service_name : string)
    (extra_uri : option string) (params : option (Dict QueryValue))
    (with_units : bool) (w : World)
    : option (Outcome PyVal * OpenWeatherMapClient * World) :=
  match dict_get _AVAILABLE_SERVICES service_name with
  | None => Some (Raised (OWMClientUnknownServiceNameError service_name), self, w)
  | Some service_info =>
      let uri := urljoin (_base_uri self) (uri service_info) in
      let uri :=
        match extra_uri with
        | Some extra_uri => urljoin uri extra_uri
        | None => uri
        end in
      let query_params := match params with Some d => d | None => [] end in
      let query_params := dict_update query_params (_base_uri_params self) in
      let popped :=
        if negb with_units then option_map snd (dict_pop query_params "units")
        else Some query_params in
      match popped with
      | None => Some (Raised (KeyError "units"), self, w)
      | Some query_params =>
          match _get requests_get self uri
                  {| Requests.params := Some query_params; stream := false |} w with
          | Some (Returned response, self, w) =>
              Some (read_response self service_info response, self, w)
          | Some (Raised exc, self, w) => Some (Raised exc, self, w)
          | None => None
          end
      end
  end.

(** *** The operations of the facade *)

Definition search_type_params (query_params : Dict QueryValue)
    (search_type : option string) : Outcome (Dict QueryValue) :=
  match search_type with
  | None => Returned query_params
  | Some t =>
      if (String.eqb t "like" || String.eqb t "accurate")%bool
      then Returned (dict_update query_params [("type", QStr t)])
      else Raised ValueError
  end.

Definition cluster_params (query_params : Dict QueryValue)
    (cluster : option string) : Outcome (Dict QueryValue) :=
  match cluster with
  | None => Returned query_params
  | Some c =>
      if (String.eqb c "yes" || String.eqb c "no")%bool
      then Returned (dict_update query_params [("cluster", QStr c)])
      else Raised ValueError
  end.

Definition lang_params (query_params : Dict QueryValue) (lang : option string)
    : Dict QueryValue :=
  match lang with
  | Some l => dict_update query_params [("lang", QStr l)]
  | None => query_params
  end.

Definition city_name_params (city_name : QueryValue)
    (country_code : option QueryValue) : Dict QueryValue :=
  let query_params := [("q", city_name)] in
  match country_code with
  | Some country_code =>
      dict_set query_params "q"
        (QStr (format_value city_name ++ "," ++ format_value country_code))
  | None => query_params
  end.

Definition get_forecast_by_city_id (self : OpenWeatherMapClient)
    (city_id : QueryValue) (w : World) :=
  _get_data self "forecast_5d" None (Some [("id", city_id)]) true w.

Definition get_forecast_by_coord (self : OpenWeatherMapClient)
    (latitude longitude : QueryValue) (w : World) :=
  _get_data self "forecast_5d" None
    (Some [("lat", latitude); ("lon", longitude)]) true w.

Definition get_forecast_by_city_name (self : OpenWeatherMapClient)
    (city_name : QueryValue) (country_code : option QueryValue)
    (search_type : option string) (w : World) :=
  match search_type_params (city_name_params city_name country_code) search_type with
  | Returned query_params => _get_data self "forecast_5d" None (Some query_params) true w
  | Raised exc => Some (Raised exc, self, w)
  end.

Definition get_forecast_by_zip_code (self : OpenWeatherMapClient)
    (zip_code country_code : QueryValue) (w : World) :=
  _get_data self "forecast_5d" None
    (Some [("zip", QStr (format_value zip_code ++ "," ++ format_value country_code))])
    true w.

Definition get_current_weather_by_city_id (self : OpenWeatherMapClient)
    (city_id : QueryValue) (w : World) :=
  _get_data self "current_weather" None (Some [("id", city_id)]) true w.

Definition get_current_weather_by_coord (self : OpenWeatherMapClient)
    (latitude longitude : QueryValue) (w : World) :=
  _get_data self "current_weather" None
    (Some [("lat", latitude); ("lon", longitude)]) true w.

Definition get_current_weather_by_city_name (self : OpenWeatherMapClient)
    (city_name : QueryValue) (country_code : option QueryValue)
    (search_type : option string) (w : World) :=
  match search_type_params (city_name_params city_name country_code) search_type with
  | Returned query_params =>
      _get_data self "current_weather" None (Some query_params) true w
  | Raised exc => Some (Raised exc, self, w)
  end.

Definition get_current_weather_by_zip_code (self : OpenWeatherMapClient)
    (zip_code country_code : QueryValue) (w : World) :=
  _get_data self "current_weather" None
    (Some [("zip", QStr (format_value zip_code ++ "," ++ format_value country_code))])
    true w.

(** The lists a caller holds, by reference: [box] is an argument the
    operation below changes in place. *)
Definition Heap : Type := nat -> list QueryValue.

Definition heap_set (h : Heap) (ref : nat) (l : list QueryValue) : Heap :=
  fun r => if Nat.eqb r ref then l else h r.

(** [get_current_weather_within_box(self, box, zoom, *, cluster=None,
    lang=None)]; [box] is the reference of the caller's list. *)
Definition get_current_weather_within_box (self : OpenWeatherMapClient)
    (h : Heap) (box : nat) (zoom : QueryValue) (cluster lang : option string)
    (w : World) : option (Outcome PyVal * Heap * OpenWeatherMapClient * World) :=
  if negb (Nat.eqb (List.length (h box)) 4) then Some (Raised ValueError, h, self, w)
  else
    let h := heap_set h box (h box ++ [zoom])%list in
    let query_params :=
      [("bbox", QStr (join "," (map format_value (h box))))] in
    match cluster_params query_params cluster with
    | Returned query_params =>
        let query_params := lang_params query_params lang in
        match _get_data self "current_weather_box" None (Some query_params) true w with
        | Some (result, self, w) => Some (result, h, self, w)
        | None => None
        end
    | Raised exc => Some (Raised exc, h, self, w)
    end.

(** [get_current_weather_within_circle(self, latitude, longitude, *,
    cluster=None, cnt=10, lang=None)]. *)
Definition get_current_weather_within_circle (self : OpenWeatherMapClient)
    (latitude longitude : QueryValue) (cluster : option string) (cnt : Z)
    (lang : option string) (w : World) :=
  let query_params := [("lat", latitude); ("lon", longitude)] in
  let query_params := dict_set query_params "cnt" (QInt (Z.max 0 (Z.min cnt 50))) in
  match cluster_params query_params cluster with
  | Returned query_params =>
      let query_params := lang_params query_params lang in
      _get_data self "current_weather_circle" None (Some query_params) true w
  | Raised exc => Some (Raised exc, self, w)
  end.

(** [get_current_weather_group(self, city_ids)]. *)
Definition get_current_weather_group (self : OpenWeatherMapClient)
    (city_ids : list QueryValue) (w : World) :=
  if Nat.ltb 20 (List.length city_ids) then Some (Raised ValueError, self, w)
  else
    _get_data self "current_weather_group" None
      (Some [("id", QStr (join "," (map format_value city_ids)))]) true w.

(** [get_air_pollution_carbon_monoxyde(self, latitude, longitude, *,
    datetime='current')] and the three operations written like it:
    [extra_uri = '{},{}/{}.json'.format(latitude, longitude, datetime)]. *)
Definition get_air_pollution_carbon_monoxyde (self : OpenWeatherMapClient)
    (latitude longitude datetime : QueryValue) (w : World) :=
  let extra_uri :=
    format_value latitude ++ "," ++ format_value longitude ++ "/"
    ++ format_value datetime ++ ".json" in
  _get_data self "air_pollution_carbon_monoxyde" (Some extra_uri) None true w.

Definition get_air_pollution_ozone (self : OpenWeatherMapClient)
    (latitude longitude datetime : QueryValue) (w : World) :=
  let extra_uri :=
    format_value latitude ++ "," ++ format_value longitude ++ "/"
    ++ format_value datetime ++ ".json" in
  _get_data self "air_pollution_ozone" (Some extra_uri) None true w.

Definition get_air_pollution_sulfur_dioxide (self : OpenWeatherMapClient)
    (latitude longitude datetime : QueryValue) (w : World) :=
  let extra_uri :=
    format_value latitude ++ "," ++ format_value longitude ++ "/"
    ++ format_value datetime ++ ".json" in
  _get_data self "air_pollution_sulfur_dioxide" (Some extra_uri) None true w.

Definition get_air_pollution_nitrogen_dioxide (self : OpenWeatherMapClient)
    (latitude longitude datetime : QueryValue) (w : World) :=
  let extra_uri :=
    format_value latitude ++ "," ++ format_value longitude ++ "/"
    ++ format_value datetime ++ ".json" in
  _get_data self "air_pollution_nitrogen_dioxide" (Some extra_uri) None true w.

(** [get_uv_index_current(self, latitude, longitude)] and
    [get_uv_index_forecast]: the parameters are put in an [OrderedDict] one
    by one, and the call is made [with_units=False]. *)
Definition get_uv_index_current (self : OpenWeatherMapClient)
    (latitude longitude : QueryValue) (w : World) :=
  let query_params := [] in
  let query_params := dict_set query_params "lat" latitude in
  let query_params := dict_set query_params "lon" longitude in
  _get_data self "uv_index_current" None (Some query_params) false w.

Definition get_uv_index_forecast (self : OpenWeatherMapClient)
    (latitude longitude : QueryValue) (w : World) :=
  let query_params := [] in
  let query_params := dict_set query_params "lat" latitude in
  let query_params := dict_set query_params "lon" longitude in
  _get_data self "uv_index_forecast" None (Some query_params) false w.

(** [d.timestamp()] as the client calls it on an argument: the timestamp of
    an aware datetime; for a naive one that of local time, which the platform
    computes ([mktime]) and may refuse.  [float_repr] is the text a [float]
    of that value is sent as. *)
Variable local_timestamp : datetime -> Outcome Q.
Variable float_repr : Q -> string.

Definition datetime_timestamp (d : datetime) : Outcome Q :=
  match Datetime.timestamp d with
  | Some q => Returned q
  | None => local_timestamp d
  end.

(** [get_uv_index_historical(self, latitude, longitude, dt_start, dt_end)]. *)
Definition get_uv_index_historical (self : OpenWeatherMapClient)
    (latitude longitude : QueryValue) (dt_start dt_end : datetime) (w : World) :=
  let query_params := [] in
  let query_params := dict_set query_params "lat" latitude in
  let query_params := dict_set query_params "lon" longitude in
  match datetime_timestamp dt_start with
  | Raised exc => Some (Raised exc, self, w)
  | Returned start =>
      let query_params := dict_set query_params "start" (QFloat (float_repr start)) in
      match datetime_timestamp dt_end with
      | Raised exc => Some (Raised exc, self, w)
      | Returned end_ =>
          let query_params := dict_set query_params "end" (QFloat (float_repr end_)) in
          _get_data self "uv_index_historical" None (Some query_params) false w
      end
  end.

(** What the body of the city list decodes to: [zlib] decompression, UTF-8
    decoding and [json.load], functions of the installation, which raise on
    a body that is no such file. *)
Variable gunzip_json : Response -> Outcome PyVal.

(** [get_city_list(self, *, validate_with_schema=True)].  The request goes
    to [_get] directly, with [stream=True] and no [params]. *)
Definition get_city_list (self : OpenWeatherMapClient) (validate_with_schema : bool)
    (w : World) : option (Outcome PyVal * OpenWeatherMapClient * World) :=
  match dict_get _AVAILABLE_SERVICES "city_list" with
  | None => Some (Raised (KeyError "city_list"), self, w)
  | Some service_info =>
      match _get requests_get self (uri service_info)
              {| Requests.params := None; stream := true |} w with
      | Some (Returned response, self, w) =>
          match response with
          | None => Some (Raised AttributeError, self, w)
          | Some response =>
              match gunzip_json response with
              | Raised exc => Some (Raised exc, self, w)
              | Returned json_data =>
                  if negb validate_with_schema then Some (Returned json_data, self, w)
                  else
                    Some (_deserialize_with_schema (schema_info service_info) json_data,
                          self, w)
              end
          end
      | Some (Raised exc, self, w) => Some (Raised exc, self, w)
      | None => None
      end
  end.

End Facade.

End ApiClient.

(** ** Transports and inputs used in the examples *)

Module Examples.
Import ApiClient.

(** A transport that plays a script, one result per call, and refuses the
    connection once the script is over. *)
Definition scripted : Transport (list GetResult) :=
  fun _ _ script =>
    match script with
    | result :: rest => (result, rest)
    | [] => (Fails (ConnectionError "Connection refused"), [])
    end.

(** A transport that answers every call with the same status and no JSON
    body; its world counts the calls. *)
Definition always (status : Z) : Transport nat :=
  fun _ _ calls => (Responds {| status_code := status; body := None |}, S calls).

(** A transport that answers every call with status 200 and an empty JSON
    object, and records the requests it is sent. *)
Definition recording : Transport (list (string * Kwargs)) :=
  fun uri kwargs sent =>
    (Responds {| status_code := 200; body := Some (PyDict []) |},
     (sent ++ [(uri, kwargs)])%list).

(** An installation that reads no text as an ISO-8601 date. *)
Definition no_iso_dates : string -> option datetime := fun _ => None.

(** A response with an empty JSON object for a body. *)
Definition answer (status : Z) : Response :=
  {| status_code := status; body := Some (PyDict []) |}.

(** [OpenWeatherMapClient('ae0c16c7', max_retries=n)]. *)
Definition client (max_retries : Z) : OpenWeatherMapClient :=
  {| api_key := "ae0c16c7";
     host := _API_HOST;
     max_retries := max_retries;
     units := "metric";
     _base_uri := "https://api.openweathermap.org";
     _base_uri_params := [("appid", QStr "ae0c16c7"); ("units", QStr "metric")];
     last_uri_call := None;
     last_uri_call_tries := 0 |}.

(** The uri and the query of [get_forecast_by_city_id(6434841)]. *)
Definition forecast_uri : string := "https://api.openweathermap.org/data/2.5/forecast".

Definition forecast_query : Kwargs :=
  {| params := Some [("id", QInt 6434841); ("appid", QStr "ae0c16c7");
                     ("units", QStr "metric")];
     stream := false |}.

End Examples.

(** ** The vocabulary of the statements *)

Module Specs.
Import Datetime Utils Marshmallow Schemas ApiClient.

(** What [return response] yields once the loop is over. *)
Definition returns (response : Local (option Response)) : Outcome (option Response) :=
  match response with
  | Bound response => Returned response
  | Unbound => Raised (UnboundLocalError "response")
  end.

(** [self'] is [self] but for the number of tries. *)
Definition same_but_tries (self self' : OpenWeatherMapClient) : Prop :=
  set_last_uri_call_tries self' (last_uri_call_tries self) = self.

(** What the call ends with when its last try did [result]: the table of
    the [if] and [except] branches of the loop body for a last try. *)
Definition last_try_outcome (result : GetResult) : Outcome (option Response) :=
  match result with
  | Responds r =>
      if status_code r =? 200 then Returned (Some r)
      else if status_code r =? 502 then Raised OWMClientAccessLimitationError
      else
        match raise_for_status r with
        | Some exc => Raised exc
        | None => Returned (Some r)
        end
  | Fails (ConnectionError src_exc) | Fails (Timeout src_exc) =>
      Raised (OpenWeatherMapClientError (FromTransport src_exc))
  | Fails (OtherError msg) => Raised (RequestException msg)
  end.

(** The client as [_get] has it when the loop starts. *)
Definition started (uri : string) (kwargs : Kwargs) (self : OpenWeatherMapClient)
    : OpenWeatherMapClient :=
  set_last_uri_call_tries (set_last_uri_call self (Some (readable_uri uri kwargs))) 0.

(** Two dictionaries of query parameters with the same keys in the same
    order, and the same values but perhaps under [appid]. *)
Definition alike (d1 d2 : Dict QueryValue) : Prop :=
  Forall2 (fun a b => fst a = fst b /\ (fst a = "appid" \/ snd a = snd b)) d1 d2.

(** The client [_get_data] leaves, as far as its readable uri goes. *)
Definition last_uri_call_after {A World : Type}
    (result : option (Outcome A * OpenWeatherMapClient * World)) : option (option string) :=
  match result with
  | Some (_, self, _) => Some (last_uri_call self)
  | None => None
  end.

(** The query parameters every client starts from, as [__init__] sets them. *)
Definition base_params_ok (self : OpenWeatherMapClient) : Prop :=
  _base_uri_params self = [("appid", QStr (api_key self)); ("units", QStr (units self))].

(** The values [cluster] may take. *)
Definition cluster_ok (cluster : option string) : Prop :=
  cluster = None \/ cluster = Some "yes" \/ cluster = Some "no".

(** [P i] for [fuel] consecutive integers from [i] on. *)
Fixpoint all_from (P : Z -> bool) (fuel : nat) (i : Z) : bool :=
  match fuel with
  | O => true
  | S fuel => if P i then all_from P fuel (i + 1) else false
  end.

(** The month and the day of [_ord2ymd], from the day of the year (counted
    from 0) and whether the year is a leap year. *)
Definition month_day (n : Z) (leapyear : bool) : Z * Z :=
  let month := Z.shiftr (n + 50) 5 in
  let preceding :=
    _DAYS_BEFORE_MONTH month + (if (2 <? month) && leapyear then 1 else 0) in
  if n <? preceding then
    let month := month - 1 in
    let preceding :=
      preceding
      - (_DAYS_IN_MONTH month + (if (month =? 2) && leapyear then 1 else 0)) in
    (month, n - preceding + 1)
  else (month, n - preceding + 1).

(** Checked for the 400 years of a cycle, by centuries, 4-year groups and
    years: the days before the year, and which years are leap years. *)
Definition year_ok (n100 n4 n1 : Z) : bool :=
  let y := 100 * n100 + 4 * n4 + n1 + 1 in
  (_days_before_year y =? 36524 * n100 + 1461 * n4 + 365 * n1)
  && Bool.eqb (_is_leap y) ((n1 =? 3) && (negb (n4 =? 24) || (n100 =? 3))).

(** Checked for the days of a year: the month and the day found give back
    the day of the year. *)
Definition month_day_ok (leapyear : bool) (n : Z) : bool :=
  let '(m, d) := month_day n leapyear in
  (_DAYS_BEFORE_MONTH m + (if (2 <? m) && leapyear then 1 else 0) + d =? n + 1).

(** The least and the greatest timestamp [fromtimestamp] has a date for:
    0001-01-01T00:00:00Z and 9999-12-31T23:59:59Z. *)
Definition MIN_TIMESTAMP : Z := -62135596800.
Definition MAX_TIMESTAMP : Z := 253402300799.

(** What [fromtimestamp] raises for an integer it has no date for:
    [OverflowError] beyond [time_t], [OSError] where [gmtime] fails, and
    [ValueError] for a year [datetime] does not have. *)
Definition out_of_range_error (T : Z) : Exception :=
  if (T <? _TIME_T_MIN) || (_TIME_T_MAX <? T) then OverflowError
  else if (T <? _GMTIME_MIN) || (_GMTIME_MAX <? T) then OSError
  else ValueError.

(** The fields converted by [_from_ts]: the schema, the key of the raw
    mapping, the field that holds the datetime and the one that holds the
    raw integer. *)
Definition timestamp_fields : list (Schema * string * string * string) :=
  [(ForecastDataSchema, "dt", "dt_value", "dt_timestamp");
   (CurrentWeatherSchema, "dt", "dt_value", "dt_timestamp");
   (CurrentWeatherSysDataSchema, "sunrise", "sunrise", "sunrise_timestamp");
   (CurrentWeatherSysDataSchema, "sunset", "sunset", "sunset_timestamp")].

(** Both representations of the timestamp [T] found under [key] are in the
    record: exactly they when the mapping has nothing else; and in any
    record the deserialization returns for a mapping that has [key] and no
    key named after the two fields. *)
Definition keeps_both (T : Z) (d : datetime)
    (field : Schema * string * string * string) : Prop :=
  let '(s, key, target, sibling) := field in
  let info := {| name := s; many := false |} in
  _deserialize_with_schema info (PyDict [(key, PyInt T)])
  = Returned (PyDict [(target, PyDatetime d); (sibling, PyInt T)])
  /\ forall data,
       dict_get data key = Some (PyInt T) ->
       target = key \/ dict_get data target = None ->
       dict_get data sibling = None ->
       match _deserialize_with_schema info (PyDict data) with
       | Returned (PyDict record) =>
           dict_get record target = Some (PyDatetime d)
           /\ dict_get record sibling = Some (PyInt T)
       | Returned _ => False
       | Raised _ => True
       end.

(** No text occurs twice in the list. *)
Fixpoint distinct (names : list string) : bool :=
  match names with
  | [] => true
  | x :: rest => negb (existsb (String.eqb x) rest) && distinct rest
  end.

(** *** The facade as a whole *)

(** The operations of the facade that go through [_get_data], as calls with
    their arguments ([box] is the reference of the caller's list). *)
Inductive Operation : Type :=
| ForecastByCityId (city_id : QueryValue)
| ForecastByCoord (latitude longitude : QueryValue)
| ForecastByCityName (city_name : QueryValue) (country_code : option QueryValue)
    (search_type : option string)
| ForecastByZipCode (zip_code country_code : QueryValue)
| CurrentWeatherByCityId (city_id : QueryValue)
| CurrentWeatherByCoord (latitude longitude : QueryValue)
| CurrentWeatherByCityName (city_name : QueryValue) (country_code : option QueryValue)
    (search_type : option string)
| CurrentWeatherByZipCode (zip_code country_code : QueryValue)
| CurrentWeatherWithinBox (box : nat) (zoom : QueryValue) (cluster lang : option string)
| CurrentWeatherWithinCircle (latitude longitude : QueryValue) (cluster : option string)
    (cnt : Z) (lang : option string)
| CurrentWeatherGroup (city_ids : list QueryValue)
| AirPollutionCarbonMonoxyde (latitude longitude datetime : QueryValue)
| AirPollutionOzone (latitude longitude datetime : QueryValue)
| AirPollutionSulfurDioxide (latitude longitude datetime : QueryValue)
| AirPollutionNitrogenDioxide (latitude longitude datetime : QueryValue)
| UvIndexCurrent (latitude longitude : QueryValue)
| UvIndexForecast (latitude longitude : QueryValue).

(** The call [op] names, made on the client [self] with the caller's lists
    [h] in the world [w]. *)
Definition perform {World : Type} (requests_get : Transport World)
    (from_iso_datetime : string -> option datetime) (op : Operation)
    (self : OpenWeatherMapClient) (h : Heap) (w : World)
    : option (Outcome PyVal * Heap * OpenWeatherMapClient * World) :=
  let with_heap (result : option (Outcome PyVal * OpenWeatherMapClient * World)) :=
    match result with
    | Some (out, self, w) => Some (out, h, self, w)
    | None => None
    end in
  match op with
  | ForecastByCityId city_id =>
      with_heap (get_forecast_by_city_id requests_get from_iso_datetime self city_id w)
  | ForecastByCoord latitude longitude =>
      with_heap (get_forecast_by_coord requests_get from_iso_datetime self
                   latitude longitude w)
  | ForecastByCityName city_name country_code search_type =>
      with_heap (get_forecast_by_city_name requests_get from_iso_datetime self
                   city_name country_code search_type w)
  | ForecastByZipCode zip_code country_code =>
      with_heap (get_forecast_by_zip_code requests_get from_iso_datetime self
                   zip_code country_code w)
  | CurrentWeatherByCityId city_id =>
      with_heap (get_current_weather_by_city_id requests_get from_iso_datetime self
                   city_id w)
  | CurrentWeatherByCoord latitude longitude =>
      with_heap (get_current_weather_by_coord requests_get from_iso_datetime self
                   latitude longitude w)
  | CurrentWeatherByCityName city_name country_code search_type =>
      with_heap (get_current_weather_by_city_name requests_get from_iso_datetime self
                   city_name country_code search_type w)
  | CurrentWeatherByZipCode zip_code country_code =>
      with_heap (get_current_weather_by_zip_code requests_get from_iso_datetime self
                   zip_code country_code w)
  | CurrentWeatherWithinBox box zoom cluster lang =>
      get_current_weather_within_box requests_get from_iso_datetime self h box zoom
        cluster lang w
  | CurrentWeatherWithinCircle latitude longitude cluster cnt lang =>
      with_heap (get_current_weather_within_circle requests_get from_iso_datetime self
                   latitude longitude cluster cnt lang w)
  | CurrentWeatherGroup city_ids =>
      with_heap (get_current_weather_group requests_get from_iso_datetime self
                   city_ids w)
  | AirPollutionCarbonMonoxyde latitude longitude datetime =>
      with_heap (get_air_pollution_carbon_monoxyde requests_get from_iso_datetime self
                   latitude longitude datetime w)
  | AirPollutionOzone latitude longitude datetime =>
      with_heap (get_air_pollution_ozone requests_get from_iso_datetime self
                   latitude longitude datetime w)
  | AirPollutionSulfurDioxide latitude longitude datetime =>
      with_heap (get_air_pollution_sulfur_dioxide requests_get from_iso_datetime self
                   latitude longitude datetime w)
  | AirPollutionNitrogenDioxide latitude longitude datetime =>
      with_heap (get_air_pollution_nitrogen_dioxide requests_get from_iso_datetime self
                   latitude longitude datetime w)
  | UvIndexCurrent latitude longitude =>
      with_heap (get_uv_index_current requests_get from_iso_datetime self
                   latitude longitude w)
  | UvIndexForecast latitude longitude =>
      with_heap (get_uv_index_forecast requests_get from_iso_datetime self
                   latitude longitude w)
  end.

(** [self'] has the settings of [self]: all its attributes but the two
    diagnostic ones. *)
Definition same_settings (self self' : OpenWeatherMapClient) : Prop :=
  api_key self' = api_key self
  /\ host self' = host self
  /\ max_retries self' = max_retries self
  /\ units self' = units self
  /\ _base_uri self' = _base_uri self
  /\ _base_uri_params self' = _base_uri_params self.

(** The uri [_get_data] calls for a service: the uri of the service joined
    to the base uri of the client, and [extra_uri] joined to that. *)
Definition request_uri (self : OpenWeatherMapClient) (service_info : ServiceInfo)
    (extra_uri : option string) : string :=
  let uri := urljoin (_base_uri self) (uri service_info) in
  match extra_uri with
  | Some extra_uri => urljoin uri extra_uri
  | None => uri
  end.

(** The characters of a host name with its port, of a number and of an
    ISO-8601 date: letters, digits, [+], [-], [.] and [:]. *)
Definition is_host_char (c : ascii) : bool :=
  (is_scheme_char c || Ascii.eqb c ":")%bool.

(** Two calls that end alike: with the same outcome, the same lists of the
    caller and the same world, and with clients that have the same
    settings. *)
Definition same_call {World : Type}
    (result1 result2 : option (Outcome PyVal * Heap * OpenWeatherMapClient * World))
    : Prop :=
  match result1, result2 with
  | Some (out1, h1, self1, w1), Some (out2, h2, self2, w2) =>
      out1 = out2 /\ h1 = h2 /\ w1 = w2 /\ same_settings self1 self2
  | _, _ => False
  end.

(** A Python dictionary has no key twice. *)
Definition is_dict {V : Type} (d : Dict V) : Prop := NoDup (map fst d).

(** The request [_get_data] makes: its query carries the key of the client
    under [appid], its units under [units] unless the call is made without
    units, and the caller's parameters otherwise. *)
Definition carries_settings (self : OpenWeatherMapClient)
    (query : option (Dict QueryValue)) (with_units : bool) (kwargs : Kwargs) : Prop :=
  exists query_params,
    kwargs = {| params := Some query_params; stream := false |}
    /\ is_dict query_params
    /\ dict_get query_params "appid" = Some (QStr (api_key self))
    /\ dict_get query_params "units"
       = (if with_units then Some (QStr (units self)) else None)
    /\ forall k, k <> "appid" -> k <> "units" ->
         dict_get query_params k
         = dict_get (match query with Some d => d | None => [] end) k.

(** The query [_get_data] hands to the engine: the caller's parameters
    updated with the base parameters of the client, without [units] when the
    call is made without units; [None] stands for the [KeyError] of
    [pop('units')]. *)
Definition built_query (self : OpenWeatherMapClient) (query : option (Dict QueryValue))
    (with_units : bool) : option (Dict QueryValue) :=
  let query_params :=
    dict_update (match query with Some d => d | None => [] end) (_base_uri_params self) in
  if negb with_units then option_map snd (dict_pop query_params "units")
  else Some query_params.

(** The call that ended with [result] went to the transport with the request
    [uri], [kwargs], the same on every try: once per try recorded, at least
    once and at most [max_retries] times when [max_retries] is 1 or more, and
    not at all otherwise; the readable uri of that request is stored. *)
Definition sends {World : Type} (requests_get : Transport World) (uri : string)
    (kwargs : Kwargs) (self : OpenWeatherMapClient) (w : World)
    (result : option (Outcome PyVal * OpenWeatherMapClient * World)) : Prop :=
  exists out self' n,
    result = Some (out, self', world_after requests_get uri kwargs n w)
    /\ last_uri_call_tries self' = Z.of_nat n
    /\ last_uri_call self' = Some (readable_uri uri kwargs)
    /\ (max_retries self <= 0 -> n = O)
    /\ (1 <= max_retries self -> 1 <= Z.of_nat n <= max_retries self).

(** The exceptions a call of the facade ends with: the ones of the argument
    checks, of the engine, of [response.json()] and of the conversions the
    schemas make.  The classes [OWMClientValidationError],
    [OWMClientKeyNotDefinedError], [OWMClientUnknownServiceNameError],
    [AttributeError] and [KeyError] are not among them. *)
Definition facade_exception (e : Exception) : Prop :=
  match e with
  | ValueError | TypeError | OverflowError | OSError => True
  | OpenWeatherMapClientError _ | OWMClientAccessLimitationError => True
  | RequestException _ | UnboundLocalError _ => True
  | HTTPError status => 400 <= status < 600 /\ status <> 502
  | _ => False
  end.

(** The exceptions the engine ends with. *)
Definition engine_exception (e : Exception) : Prop :=
  match e with
  | OpenWeatherMapClientError (FromTransport _) | OWMClientAccessLimitationError => True
  | RequestException _ | UnboundLocalError _ => True
  | HTTPError status => 400 <= status < 600 /\ status <> 502
  | _ => False
  end.

(** The exceptions a conversion lets escape. *)
Definition conversion_exception (e : Exception) : Prop :=
  e = TypeError \/ e = ValueError \/ e = OverflowError \/ e = OSError.

(** *** Fields *)

(** Induction over a field and the fields nested in it. *)
Section FieldInduction.
Variable P : Field -> Prop.
Hypothesis scalar_case : forall _deserialize opts, P (Scalar _deserialize opts).
Hypothesis nested_case :
  forall nested opts, Forall (fun nf => P (snd nf)) nested -> P (Nested nested opts).
Hypothesis list_case : forall container opts, P container -> P (List_ container opts).

Fixpoint Field_induction (f : Field) : P f :=
  match f with
  | Scalar _deserialize opts => scalar_case _deserialize opts
  | Nested nested opts =>
      nested_case nested opts
        ((fix each (l : list (string * Field)) : Forall (fun nf => P (snd nf)) l :=
            match l with
            | [] => Forall_nil _
            | (n, g) :: rest => Forall_cons (n, g) (Field_induction g) (each rest)
            end) nested)
  | List_ container opts => list_case container opts (Field_induction container)
  end.
End FieldInduction.

(** Every scalar field in [f], nested ones included, lets only conversion
    exceptions escape. *)
Fixpoint escapes_conversions_only (f : Field) : Prop :=
  match f with
  | Scalar _deserialize _ =>
      forall value e, _deserialize value = Escapes e -> conversion_exception e
  | Nested nested _ =>
      (fix each (l : list (string * Field)) : Prop :=
         match l with
         | [] => True
         | (_, g) :: rest => escapes_conversions_only g /\ each rest
         end) nested
  | List_ container _ => escapes_conversions_only container
  end.

(** A schema that is not strict and whose fields let only conversion
    exceptions escape. *)
Definition raises_conversions_only (s : Schema) : Prop :=
  strict s = false
  /\ Forall (fun nf => escapes_conversions_only (snd nf)) (declared_fields s).

(** *** Dates *)

(** The number of days of a month. *)
Definition days_in_month (year month : Z) : Z :=
  _DAYS_IN_MONTH month + (if (month =? 2) && _is_leap year then 1 else 0).

(** The fields of a date and a time of day. *)
Definition is_valid_datetime (d : datetime) : Prop :=
  MINYEAR <= year d <= MAXYEAR
  /\ 1 <= month d <= 12
  /\ 1 <= day d <= days_in_month (year d) (month d)
  /\ 0 <= hour d < 24
  /\ 0 <= minute d < 60
  /\ 0 <= second d < 60
  /\ 0 <= microsecond d < 1000000.

(** Checked for the days of a year: the month is one of the twelve and the
    day one of that month. *)
Definition month_day_in_range (leapyear : bool) (n : Z) : bool :=
  let '(m, d) := month_day n leapyear in
  (1 <=? m) && (m <=? 12) && (1 <=? d)
  && (d <=? _DAYS_IN_MONTH m + (if (m =? 2) && leapyear then 1 else 0)).

End Specs.

(** * Properties *)

(** ** The HTTP call engine *)

Module EngineFacts.
Import ApiClient Specs.

Section Loop.
Context {World : Type}.
Variable requests_get : Transport World.
Variable uri : string.
Variable kwargs : Kwargs.

Local Abbreviation loop := (_get_loop requests_get).
Local Abbreviation after := (world_after requests_get uri kwargs).
Local Abbreviation nth_attempt := (attempt requests_get uri kwargs).

Lemma loop_exit fuel self is_success response w :
  negb is_success && (last_uri_call_tries self <? max_retries self) = false ->
  loop fuel self uri kwargs is_success response w = Some (returns response, self, w).
Proof.
  intros H. destruct fuel; simpl; rewrite H; destruct response; reflexivity.
Qed.

Lemma loop_step fuel self response w :
  last_uri_call_tries self < max_retries self ->
  loop (S fuel) self uri kwargs false response w =
    let self1 := set_last_uri_call_tries self (last_uri_call_tries self + 1) in
    match send requests_get self1 uri kwargs w with
    | (Returned response, w1) =>
        match check self1 false response with
        | Returned is_success => loop fuel self1 uri kwargs is_success (Bound response) w1
        | Raised exc => Some (Raised exc, self1, w1)
        end
    | (Raised exc, w1) => Some (Raised exc, self1, w1)
    end.
Proof.
  intros H. apply Z.ltb_lt in H. simpl. rewrite H. reflexivity.
Qed.

Lemma send_world self w :
  snd (send requests_get self uri kwargs w) = snd (requests_get uri kwargs w).
Proof.
  unfold send. destruct (requests_get uri kwargs w) as [[r | [m | m | m]] w1]; simpl;
    try reflexivity; destruct (_ >=? _); reflexivity.
Qed.

Lemma same_but_tries_refl self : same_but_tries self self.
Proof. destruct self; reflexivity. Qed.

Lemma same_but_tries_step self self' n :
  same_but_tries (set_last_uri_call_tries self n) self' -> same_but_tries self self'.
Proof.
  unfold same_but_tries. destruct self, self'; simpl. intros H.
  inversion H; subst. reflexivity.
Qed.

(** The loop ends when it is given as many steps as tries are left; it
    leaves the client as it was but for the number of tries, which counts the
    calls of the transport. *)
Lemma loop_runs fuel : forall self is_success response w,
  (Z.to_nat (max_retries self - last_uri_call_tries self) <= fuel)%nat ->
  exists out self' n,
    loop fuel self uri kwargs is_success response w = Some (out, self', after n w)
    /\ same_but_tries self self'
    /\ last_uri_call_tries self' = last_uri_call_tries self + Z.of_nat n
    /\ (is_success = true -> n = O)
    /\ ((0 < n)%nat -> last_uri_call_tries self' <= max_retries self).
Proof.
  induction fuel as [| fuel IH]; intros self is_success response w Hfuel.
  - exists (returns response), self, O. rewrite loop_exit.
    + repeat split; auto using same_but_tries_refl; lia.
    + destruct is_success; simpl; [reflexivity |]. apply Z.ltb_ge. lia.
  - destruct (negb is_success && (last_uri_call_tries self <? max_retries self)) eqn:Hc.
    + apply andb_prop in Hc as [Hs Hlt]. apply negb_true_iff in Hs. subst is_success.
      apply Z.ltb_lt in Hlt. rewrite (loop_step _ _ _ _ Hlt). cbv zeta.
      set (self1 := set_last_uri_call_tries self (last_uri_call_tries self + 1)).
      assert (Ht1 : last_uri_call_tries self1 = last_uri_call_tries self + 1) by reflexivity.
      assert (Hm1 : max_retries self1 = max_retries self) by reflexivity.
      pose proof (send_world self1 w) as Hw.
      destruct (send requests_get self1 uri kwargs w) as [[resp1 | exc] w1]; simpl in Hw; subst w1.
      * destruct (check self1 false resp1) as [s1 | exc].
        -- destruct (IH self1 s1 (Bound resp1) (snd (requests_get uri kwargs w)))
             as (out & self' & n & Hrun & Hsame & Htries & _ & Hle).
           { rewrite Ht1, Hm1. lia. }
           exists out, self', (S n). simpl. rewrite Hrun.
           repeat split; eauto using same_but_tries_step; try lia; try discriminate.
        -- exists (Raised exc), self1, 1%nat. simpl.
           repeat split; try lia; try discriminate.
           destruct self; reflexivity.
      * exists (Raised exc), self1, 1%nat. simpl.
        repeat split; try lia; try discriminate.
        destruct self; reflexivity.
    + exists (returns response), self, O. rewrite (loop_exit _ _ _ _ _ Hc).
      repeat split; auto using same_but_tries_refl; try lia.
  Qed.

Lemma attempt_first w : nth_attempt 1 w = fst (requests_get uri kwargs w).
Proof. reflexivity. Qed.

Lemma attempt_next j w :
  nth_attempt (S (S j)) w = nth_attempt (S j) (snd (requests_get uri kwargs w)).
Proof. reflexivity. Qed.

(** One iteration, by what the transport does. *)
Ltac one_iteration Hrun Hlt w :=
  rewrite (loop_step _ _ _ _ Hlt) in Hrun; cbv zeta in Hrun; unfold send in Hrun;
  destruct (requests_get uri kwargs w) as [[r1 | [m | m | m]] w1] eqn:Hget;
  cbn [fst snd] in *.

(** The number of tries never decreases. *)
Lemma loop_tries_mono fuel : forall self is_success response w out self' w',
  loop fuel self uri kwargs is_success response w = Some (out, self', w') ->
  last_uri_call_tries self <= last_uri_call_tries self'.
Proof.
  induction fuel as [| fuel IH]; intros self is_success response w out self' w' Hrun.
  - simpl in Hrun. destruct (negb is_success && _); [discriminate |].
    destruct response; inversion Hrun; subst; lia.
  - destruct (negb is_success && (last_uri_call_tries self <? max_retries self)) eqn:Hc.
    + apply andb_prop in Hc as [Hs Hlt]. apply negb_true_iff in Hs. subst is_success.
      apply Z.ltb_lt in Hlt. one_iteration Hrun Hlt w.
      * destruct (check _ false (Some r1)) as [s1 | exc].
        -- apply IH in Hrun. simpl in Hrun. lia.
        -- inversion Hrun; subst; simpl; lia.
      * destruct (_ >=? _).
        -- inversion Hrun; subst; simpl; lia.
        -- simpl in Hrun. apply IH in Hrun. simpl in Hrun. lia.
      * destruct (_ >=? _).
        -- inversion Hrun; subst; simpl; lia.
        -- simpl in Hrun. apply IH in Hrun. simpl in Hrun. lia.
      * inversion Hrun; subst; simpl; lia.
    + rewrite (loop_exit _ _ _ _ _ Hc) in Hrun. inversion Hrun; subst; lia.
Qed.

(** While tries are left and no success is recorded, one more try is made. *)
Lemma loop_progress fuel self response w out self' w' :
  loop fuel self uri kwargs false response w = Some (out, self', w') ->
  last_uri_call_tries self < max_retries self ->
  last_uri_call_tries self + 1 <= last_uri_call_tries self'.
Proof.
  intros Hrun Hlt. destruct fuel as [| fuel].
  - simpl in Hrun. apply Z.ltb_lt in Hlt. rewrite Hlt in Hrun. discriminate.
  - one_iteration Hrun Hlt w.
    + destruct (check _ false (Some r1)) as [s1 | exc].
      * apply loop_tries_mono in Hrun. simpl in Hrun. lia.
      * inversion Hrun; subst; simpl; lia.
    + destruct (_ >=? _).
      * inversion Hrun; subst; simpl; lia.
      * apply loop_tries_mono in Hrun. simpl in Hrun. lia.
    + destruct (_ >=? _).
      * inversion Hrun; subst; simpl; lia.
      * apply loop_tries_mono in Hrun. simpl in Hrun. lia.
    + inversion Hrun; subst; simpl; lia.
Qed.

(** A response with status 200 received on the [j]-th try made from here is
    what the loop returns, and that try is the last one. *)
Lemma loop_200 fuel : forall self response w out self' w',
  loop fuel self uri kwargs false response w = Some (out, self', w') ->
  forall (j : nat) r,
    (1 <= j)%nat ->
    last_uri_call_tries self + Z.of_nat j <= last_uri_call_tries self' ->
    nth_attempt j w = Responds r ->
    status_code r = 200 ->
    out = Returned (Some r)
    /\ last_uri_call_tries self' = last_uri_call_tries self + Z.of_nat j.
Proof.
  induction fuel as [| fuel IH]; intros self response w out self' w' Hrun j r Hj Hmade Hatt H200.
  - simpl in Hrun. destruct (last_uri_call_tries self <? max_retries self); [discriminate |].
    destruct response; inversion Hrun; subst; lia.
  - destruct (last_uri_call_tries self <? max_retries self) eqn:Hc.
    + apply Z.ltb_lt in Hc. destruct j as [| [| j]]; [lia | |].
      * (* the response of this very try *)
        rewrite attempt_first in Hatt. one_iteration Hrun Hc w; try discriminate.
        inversion Hatt; subst r1. unfold check in Hrun. rewrite H200 in Hrun.
        change (negb (200 =? codes_ok)) with false in Hrun. cbn iota in Hrun.
        destruct (_ <? _) eqn:Hlast in Hrun.
        -- rewrite loop_exit in Hrun by reflexivity. inversion Hrun; subst. simpl. split; [reflexivity | lia].
        -- rewrite loop_exit in Hrun by (simpl; exact Hlast).
           inversion Hrun; subst. simpl. split; [reflexivity | lia].
      * (* a later try: this one must have gone on *)
        rewrite attempt_next in Hatt.
        assert (Hgo : forall self1 is_success resp1,
                   last_uri_call_tries self1 = last_uri_call_tries self + 1 ->
                   loop fuel self1 uri kwargs is_success resp1
                     (snd (requests_get uri kwargs w)) = Some (out, self', w') ->
                   out = Returned (Some r)
                   /\ last_uri_call_tries self' = last_uri_call_tries self + Z.of_nat (S (S j))).
        { intros self1 is_success resp1 Ht1 Hrun1. destruct is_success.
          - rewrite loop_exit in Hrun1 by reflexivity. inversion Hrun1; subst. lia.
          - destruct (IH _ _ _ _ _ _ Hrun1 (S j) r) as [Ho Ht]; try assumption; try lia.
            split; [exact Ho | lia]. }
        one_iteration Hrun Hc w.
        -- destruct (check _ false (Some r1)) as [s1 | exc].
           ++ eapply Hgo; [| exact Hrun]. reflexivity.
           ++ inversion Hrun; subst. simpl in Hmade. lia.
        -- destruct (_ >=? _).
           ++ inversion Hrun; subst. simpl in Hmade. lia.
           ++ eapply Hgo; [| exact Hrun]. reflexivity.
        -- destruct (_ >=? _).
           ++ inversion Hrun; subst. simpl in Hmade. lia.
           ++ eapply Hgo; [| exact Hrun]. reflexivity.
        -- inversion Hrun; subst. simpl in Hmade. lia.
    + rewrite loop_exit in Hrun by (simpl; exact Hc). inversion Hrun; subst. lia.
Qed.

(** A response with another status received on a try that is not the last
    allowed one raises nothing: the loop goes on to a further try. *)
Lemma loop_retries fuel : forall self response w out self' w',
  loop fuel self uri kwargs false response w = Some (out, self', w') ->
  forall (j : nat) r,
    (1 <= j)%nat ->
    last_uri_call_tries self + Z.of_nat j <= last_uri_call_tries self' ->
    last_uri_call_tries self + Z.of_nat j < max_retries self ->
    nth_attempt j w = Responds r ->
    status_code r <> 200 ->
    last_uri_call_tries self + Z.of_nat j < last_uri_call_tries self'.
Proof.
  induction fuel as [| fuel IH]; intros self response w out self' w' Hrun j r Hj Hmade Hnotlast Hatt H200.
  - simpl in Hrun. destruct (last_uri_call_tries self <? max_retries self); [discriminate |].
    destruct response; inversion Hrun; subst; lia.
  - assert (Hc : last_uri_call_tries self < max_retries self) by lia.
    destruct j as [| [| j]]; [lia | |].
    + rewrite attempt_first in Hatt. one_iteration Hrun Hc w; try discriminate.
      inversion Hatt; subst r1. unfold check in Hrun.
      apply Z.eqb_neq in H200. unfold codes_ok in Hrun. rewrite H200 in Hrun.
      cbn [negb] in Hrun. cbn iota in Hrun.
      destruct (_ >=? _) eqn:Hlast in Hrun.
      * simpl in Hlast. apply Z.geb_le in Hlast. lia.
      * apply loop_progress in Hrun; simpl in *; lia.
    + rewrite attempt_next in Hatt.
      assert (Hgo : forall self1 is_success resp1,
                 last_uri_call_tries self1 = last_uri_call_tries self + 1 ->
                 max_retries self1 = max_retries self ->
                 loop fuel self1 uri kwargs is_success resp1
                   (snd (requests_get uri kwargs w)) = Some (out, self', w') ->
                 last_uri_call_tries self + Z.of_nat (S (S j)) < last_uri_call_tries self').
      { intros self1 is_success resp1 Ht1 Hm1 Hrun1. destruct is_success.
        - rewrite loop_exit in Hrun1 by reflexivity. inversion Hrun1; subst. lia.
        - assert (Ht : last_uri_call_tries self1 + Z.of_nat (S j) < last_uri_call_tries self')
            by (apply (IH _ _ _ _ _ _ Hrun1 (S j) r); try assumption; lia).
          lia. }
      one_iteration Hrun Hc w.
      * destruct (check _ false (Some r1)) as [s1 | exc].
        -- eapply Hgo; [| | exact Hrun]; reflexivity.
        -- inversion Hrun; subst. simpl in Hmade. lia.
      * destruct (_ >=? _).
        -- inversion Hrun; subst. simpl in Hmade. lia.
        -- eapply Hgo; [| | exact Hrun]; reflexivity.
      * destruct (_ >=? _).
        -- inversion Hrun; subst. simpl in Hmade. lia.
        -- eapply Hgo; [| | exact Hrun]; reflexivity.
      * inversion Hrun; subst. simpl in Hmade. lia.
Qed.

(** The last try made decides how the loop ends. *)
Lemma loop_last fuel : forall self response w out self' w',
  loop fuel self uri kwargs false response w = Some (out, self', w') ->
  forall j : nat,
    (1 <= j)%nat ->
    last_uri_call_tries self' = last_uri_call_tries self + Z.of_nat j ->
    out = last_try_outcome (nth_attempt j w).
Proof.
  induction fuel as [| fuel IH]; intros self response w out self' w' Hrun j Hj Hlast.
  - simpl in Hrun. destruct (last_uri_call_tries self <? max_retries self); [discriminate |].
    destruct response; inversion Hrun; subst; lia.
  - destruct (last_uri_call_tries self <? max_retries self) eqn:Hc.
    2:{ rewrite loop_exit in Hrun by (simpl; exact Hc). inversion Hrun; subst. lia. }
    apply Z.ltb_lt in Hc.
    (* what a further iteration does *)
    assert (Hgo : forall self1 is_success r,
               last_uri_call_tries self1 = last_uri_call_tries self + 1 ->
               max_retries self1 = max_retries self ->
               (is_success = false -> last_uri_call_tries self1 < max_retries self1 ->
                (j = 1)%nat -> False) ->
               ((j = 1)%nat -> out = Returned r -> out = last_try_outcome (nth_attempt 1 w)) ->
               loop fuel self1 uri kwargs is_success (Bound r)
                 (snd (requests_get uri kwargs w)) = Some (out, self', w') ->
               out = last_try_outcome (nth_attempt j w)).
    { intros self1 is_success r Ht1 Hm1 Hmore Hone Hrun1.
      destruct j as [| [| j]]; [lia | |].
      - destruct (negb is_success && (last_uri_call_tries self1 <? max_retries self1)) eqn:Hc1.
        + apply andb_prop in Hc1 as [Hs Hlt1]. apply negb_true_iff in Hs.
          apply Z.ltb_lt in Hlt1. exfalso. apply Hmore; auto.
        + rewrite loop_exit in Hrun1 by exact Hc1. inversion Hrun1; subst.
          apply Hone; reflexivity.
      - destruct is_success.
        + rewrite loop_exit in Hrun1 by reflexivity. inversion Hrun1; subst. lia.
        + rewrite attempt_next. apply (IH _ _ _ _ _ _ Hrun1); lia. }
    assert (Hend : forall exc self1,
               last_uri_call_tries self1 = last_uri_call_tries self + 1 ->
               Some (Raised exc, self1, snd (requests_get uri kwargs w)) = Some (out, self', w') ->
               Raised exc = last_try_outcome (nth_attempt 1 w) ->
               out = last_try_outcome (nth_attempt j w)).
    { intros exc self1 Ht1 Heq Hexc. inversion Heq; subst.
      assert (j = 1)%nat by lia. subst j. exact Hexc. }
    pose proof (attempt_first w) as Hfirst.
    one_iteration Hrun Hc w.
    + (* a response *)
      unfold check in Hrun. unfold last_try_outcome in *. rewrite Hfirst in *.
      unfold codes_ok, codes_bad_gateway in Hrun.
      destruct (status_code r1 =? 200) eqn:H200; cbn [negb] in Hrun.
      * destruct (_ <? _) eqn:Hlt in Hrun.
        -- eapply Hgo; [| | | | exact Hrun]; try reflexivity; try discriminate. auto.
        -- eapply Hgo; [| | | | exact Hrun]; try reflexivity; auto.
           intros _ Hlt1 _. apply Z.ltb_ge in Hlt. lia.
      * destruct (_ >=? _) eqn:Hge in Hrun.
        -- destruct (status_code r1 =? 502).
           ++ eapply Hend; [| exact Hrun |]; reflexivity.
           ++ destruct (raise_for_status r1).
              ** eapply Hend; [| exact Hrun |]; reflexivity.
              ** eapply Hgo; [| | | | exact Hrun]; try reflexivity; auto.
                 intros _ Hlt1 _. rewrite Z.geb_leb in Hge. apply Z.leb_le in Hge. lia.
        -- eapply Hgo; [| | | | exact Hrun]; try reflexivity.
           ++ intros _ _ ->. apply loop_progress in Hrun; [simpl in Hrun; lia |].
              rewrite Z.geb_leb in Hge. apply Z.leb_gt in Hge. exact Hge.
           ++ intros ->. exfalso. apply loop_progress in Hrun; [simpl in Hrun; lia |].
              rewrite Z.geb_leb in Hge. apply Z.leb_gt in Hge. exact Hge.
    + destruct (_ >=? _) eqn:Hge in Hrun.
      * eapply Hend; [| exact Hrun |]; [reflexivity |].
        rewrite Hfirst. reflexivity.
      * rewrite Z.geb_leb in Hge. apply Z.leb_gt in Hge. cbn [check] in Hrun.
        destruct j as [| [| j]]; [lia | |].
        -- exfalso. apply loop_progress in Hrun; [simpl in Hrun; lia | exact Hge].
        -- rewrite attempt_next, Hget. cbn [snd].
           apply (IH _ _ _ _ _ _ Hrun); simpl; lia.
    + destruct (_ >=? _) eqn:Hge in Hrun.
      * eapply Hend; [| exact Hrun |]; [reflexivity |].
        rewrite Hfirst. reflexivity.
      * rewrite Z.geb_leb in Hge. apply Z.leb_gt in Hge. cbn [check] in Hrun.
        destruct j as [| [| j]]; [lia | |].
        -- exfalso. apply loop_progress in Hrun; [simpl in Hrun; lia | exact Hge].
        -- rewrite attempt_next, Hget. cbn [snd].
           apply (IH _ _ _ _ _ _ Hrun); simpl; lia.
    + eapply Hend; [| exact Hrun |]; [reflexivity |].
      rewrite Hfirst. reflexivity.
Qed.

(** A connection error or a timeout on a try that is not the last allowed
    one raises nothing: the loop goes on to a further try. *)
Lemma loop_retries_failure fuel : forall self response w out self' w',
  loop fuel self uri kwargs false response w = Some (out, self', w') ->
  forall (j : nat) msg,
    (1 <= j)%nat ->
    last_uri_call_tries self + Z.of_nat j <= last_uri_call_tries self' ->
    last_uri_call_tries self + Z.of_nat j < max_retries self ->
    nth_attempt j w = Fails (ConnectionError msg)
    \/ nth_attempt j w = Fails (Timeout msg) ->
    last_uri_call_tries self + Z.of_nat j < last_uri_call_tries self'.
Proof.
  induction fuel as [| fuel IH]; intros self response w out self' w' Hrun j msg Hj Hmade Hnotlast Hatt.
  - simpl in Hrun. destruct (last_uri_call_tries self <? max_retries self); [discriminate |].
    destruct response; inversion Hrun; subst; lia.
  - assert (Hc : last_uri_call_tries self < max_retries self) by lia.
    destruct j as [| [| j]]; [lia | |].
    + rewrite attempt_first in Hatt. one_iteration Hrun Hc w;
        try (destruct Hatt; discriminate).
      * destruct (_ >=? _) eqn:Hlast in Hrun.
        -- simpl in Hlast. apply Z.geb_le in Hlast. lia.
        -- cbn [check] in Hrun. apply loop_progress in Hrun; simpl in *; lia.
      * destruct (_ >=? _) eqn:Hlast in Hrun.
        -- simpl in Hlast. apply Z.geb_le in Hlast. lia.
        -- cbn [check] in Hrun. apply loop_progress in Hrun; simpl in *; lia.
    + rewrite attempt_next in Hatt.
      assert (Hgo : forall self1 is_success resp1,
                 last_uri_call_tries self1 = last_uri_call_tries self + 1 ->
                 max_retries self1 = max_retries self ->
                 loop fuel self1 uri kwargs is_success resp1
                   (snd (requests_get uri kwargs w)) = Some (out, self', w') ->
                 last_uri_call_tries self + Z.of_nat (S (S j)) < last_uri_call_tries self').
      { intros self1 is_success resp1 Ht1 Hm1 Hrun1. destruct is_success.
        - rewrite loop_exit in Hrun1 by reflexivity. inversion Hrun1; subst. lia.
        - assert (Ht : last_uri_call_tries self1 + Z.of_nat (S j) < last_uri_call_tries self')
            by (apply (IH _ _ _ _ _ _ Hrun1 (S j) msg); try assumption; lia).
          lia. }
      one_iteration Hrun Hc w.
      * destruct (check _ false (Some r1)) as [s1 | exc].
        -- eapply Hgo; [| | exact Hrun]; reflexivity.
        -- inversion Hrun; subst. simpl in Hmade. lia.
      * destruct (_ >=? _).
        -- inversion Hrun; subst. simpl in Hmade. lia.
        -- eapply Hgo; [| | exact Hrun]; reflexivity.
      * destruct (_ >=? _).
        -- inversion Hrun; subst. simpl in Hmade. lia.
        -- eapply Hgo; [| | exact Hrun]; reflexivity.
      * inversion Hrun; subst. simpl in Hmade. lia.
Qed.

(** An exception of the transport that is neither a connection error nor a
    timeout ends the call on the try it occurs on. *)
Lemma loop_other_error fuel : forall self response w out self' w',
  loop fuel self uri kwargs false response w = Some (out, self', w') ->
  forall (j : nat) msg,
    (1 <= j)%nat ->
    last_uri_call_tries self + Z.of_nat j <= last_uri_call_tries self' ->
    nth_attempt j w = Fails (OtherError msg) ->
    out = Raised (RequestException msg)
    /\ last_uri_call_tries self' = last_uri_call_tries self + Z.of_nat j.
Proof.
  induction fuel as [| fuel IH]; intros self response w out self' w' Hrun j msg Hj Hmade Hatt.
  - simpl in Hrun. destruct (last_uri_call_tries self <? max_retries self); [discriminate |].
    destruct response; inversion Hrun; subst; lia.
  - destruct (last_uri_call_tries self <? max_retries self) eqn:Hc.
    + apply Z.ltb_lt in Hc. destruct j as [| [| j]]; [lia | |].
      * rewrite attempt_first in Hatt. one_iteration Hrun Hc w; try discriminate.
        inversion Hatt; subst m. inversion Hrun; subst. simpl. split; [reflexivity | lia].
      * rewrite attempt_next in Hatt.
        assert (Hgo : forall self1 is_success resp1,
                   last_uri_call_tries self1 = last_uri_call_tries self + 1 ->
                   loop fuel self1 uri kwargs is_success resp1
                     (snd (requests_get uri kwargs w)) = Some (out, self', w') ->
                   out = Raised (RequestException msg)
                   /\ last_uri_call_tries self' = last_uri_call_tries self + Z.of_nat (S (S j))).
        { intros self1 is_success resp1 Ht1 Hrun1. destruct is_success.
          - rewrite loop_exit in Hrun1 by reflexivity. inversion Hrun1; subst. lia.
          - destruct (IH _ _ _ _ _ _ Hrun1 (S j) msg) as [Ho Ht]; try assumption; try lia.
            split; [exact Ho | lia]. }
        one_iteration Hrun Hc w.
        -- destruct (check _ false (Some r1)) as [s1 | exc].
           ++ eapply Hgo; [| exact Hrun]. reflexivity.
           ++ inversion Hrun; subst. simpl in Hmade. lia.
        -- destruct (_ >=? _).
           ++ inversion Hrun; subst. simpl in Hmade. lia.
           ++ eapply Hgo; [| exact Hrun]. reflexivity.
        -- destruct (_ >=? _).
           ++ inversion Hrun; subst. simpl in Hmade. lia.
           ++ eapply Hgo; [| exact Hrun]. reflexivity.
        -- inversion Hrun; subst. simpl in Hmade. lia.
    + rewrite loop_exit in Hrun by (simpl; exact Hc). inversion Hrun; subst. lia.
Qed.

(** What the loop ends with: a response, never [None], or one of the
    exceptions of the engine.  ([response] is [None] after a failure of the
    transport that is to be retried, and then a further try is made.) *)
Lemma loop_ends fuel : forall self is_success response w out self' w',
  loop fuel self uri kwargs is_success response w = Some (out, self', w') ->
  (response = Bound None ->
   is_success = false /\ last_uri_call_tries self < max_retries self) ->
  match out with
  | Returned r => r <> None
  | Raised e => engine_exception e
  end.
Proof.
  induction fuel as [| fuel IH]; intros self is_success response w out self' w' Hrun Hresp.
  - simpl in Hrun.
    destruct (negb is_success && (last_uri_call_tries self <? max_retries self)) eqn:Hc;
      [discriminate |].
    destruct response as [| r]; inversion Hrun; subst; [exact I |].
    intros ->. destruct (Hresp eq_refl) as [-> Hlt]. apply Z.ltb_lt in Hlt.
    simpl in Hc. congruence.
  - cbn [_get_loop] in Hrun.
    destruct (negb is_success && (last_uri_call_tries self <? max_retries self)) eqn:Hc.
    + apply andb_prop in Hc as [Hs _]. apply negb_true_iff in Hs. subst is_success.
      unfold send in Hrun.
      destruct (requests_get uri kwargs w) as [[r1 | [m | m | m]] w1].
      * assert (Hgo : forall s1 is_success,
                   _get_loop requests_get fuel s1 uri kwargs is_success (Bound (Some r1)) w1
                   = Some (out, self', w') ->
                   match out with
                   | Returned r => r <> None
                   | Raised e => engine_exception e
                   end).
        { intros s1 is_success Hrun1. apply (IH _ _ _ _ _ _ _ Hrun1). discriminate. }
        unfold check in Hrun.
        destruct (negb (status_code r1 =? codes_ok)) eqn:H200.
        -- destruct (_ >=? _).
           ++ destruct (status_code r1 =? codes_bad_gateway) eqn:H502.
              ** inversion Hrun; subst. exact I.
              ** unfold raise_for_status in Hrun.
                 destruct ((400 <=? status_code r1) && (status_code r1 <? 600)) eqn:Hclass.
                 --- inversion Hrun; subst. simpl.
                     apply andb_prop in Hclass as [Ha Hb].
                     apply Z.leb_le in Ha. apply Z.ltb_lt in Hb.
                     apply Z.eqb_neq in H502. unfold codes_bad_gateway in H502. lia.
                 --- exact (Hgo _ _ Hrun).
           ++ exact (Hgo _ _ Hrun).
        -- destruct (_ <? _); exact (Hgo _ _ Hrun).
      * destruct (_ >=? _) eqn:Hge.
        -- inversion Hrun; subst. exact I.
        -- cbn [check] in Hrun. apply (IH _ _ _ _ _ _ _ Hrun). intros _.
           split; [reflexivity |]. rewrite Z.geb_leb in Hge. apply Z.leb_gt in Hge.
           exact Hge.
      * destruct (_ >=? _) eqn:Hge.
        -- inversion Hrun; subst. exact I.
        -- cbn [check] in Hrun. apply (IH _ _ _ _ _ _ _ Hrun). intros _.
           split; [reflexivity |]. rewrite Z.geb_leb in Hge. apply Z.leb_gt in Hge.
           exact Hge.
      * inversion Hrun; subst. exact I.
    + destruct response as [| r]; inversion Hrun; subst; [exact I |].
      intros ->. destruct (Hresp eq_refl) as [-> Hlt]. apply Z.ltb_lt in Hlt.
      simpl in Hc. congruence.
Qed.

End Loop.
End EngineFacts.

(** ** [_get]: the claims about the retry loop *)

Module GetFacts.
Import ApiClient Specs EngineFacts Examples.

(** The client of the examples is the one [__init__] makes. *)
Lemma client_is_constructed (n : Z) :
  __init__ (Some "ae0c16c7") true None n "metric" = Returned (client n).
Proof. reflexivity. Qed.

Section Get.
Context {World : Type}.
Variable requests_get : Transport World.
Variable uri : string.
Variable kwargs : Kwargs.

Local Abbreviation after := (world_after requests_get uri kwargs).
Local Abbreviation nth_attempt := (attempt requests_get uri kwargs).

(** [_get] always ends: it returns or raises.  The number of tries it
    records is the number of calls made to the transport, and but for the two
    diagnostic attributes the client is left as it was. *)
Lemma get_runs (self : OpenWeatherMapClient) (w : World) :
  exists out self' n,
    _get requests_get self uri kwargs w = Some (out, self', after n w)
    /\ last_uri_call_tries self' = Z.of_nat n
    /\ self' = set_last_uri_call_tries (started uri kwargs self) (Z.of_nat n)
    /\ ((0 < n)%nat -> Z.of_nat n <= max_retries self).
Proof.
  unfold _get. fold (started uri kwargs self).
  destruct (loop_runs requests_get uri kwargs (Z.to_nat (max_retries (started uri kwargs self)))
              (started uri kwargs self) false Unbound w)
    as (out & self' & n & Hrun & Hsame & Htries & _ & Hle).
  { simpl. lia. }
  exists out, self', n. simpl in Htries. repeat split; try assumption.
  - unfold same_but_tries in Hsame. rewrite <- Hsame.
    destruct self'; simpl in *. rewrite Htries. reflexivity.
  - intros Hn. rewrite <- Htries. exact (Hle Hn).
Qed.

End Get.

(** C1: whenever a try of the call engine receives a response with status
    200, that response is what the call returns, and no further try is made;
    this holds for every value of [max_retries], every transport and every
    try, the last allowed one included.  (The call always ends, and the tries
    it made are those its counter [last_uri_call_tries] records.) *)
Theorem get_returns_every_200 :
  forall (World : Type) (requests_get : Transport World)
         (self : OpenWeatherMapClient) (uri : string) (kwargs : Kwargs) (w : World),
  exists out self' w',
    _get requests_get self uri kwargs w = Some (out, self', w')
    /\ w' = world_after requests_get uri kwargs (Z.to_nat (last_uri_call_tries self')) w
    /\ forall (j : nat) (r : Response),
         (1 <= j)%nat ->
         Z.of_nat j <= last_uri_call_tries self' ->
         attempt requests_get uri kwargs j w = Responds r ->
         status_code r = 200 ->
         out = Returned (Some r) /\ last_uri_call_tries self' = Z.of_nat j.
Proof.
  intros World requests_get self uri kwargs w.
  destruct (get_runs requests_get uri kwargs self w) as (out & self' & n & Hget & Htries & _ & _).
  exists out, self', (world_after requests_get uri kwargs n w).
  split; [exact Hget |]. split; [rewrite Htries, Nat2Z.id; reflexivity |].
  intros j r Hj Hmade Hatt H200. unfold _get in Hget.
  destruct (loop_200 requests_get uri kwargs _ _ _ _ _ _ _ Hget j r Hj) as [Ho Ht];
    try assumption; simpl in *; auto.
Qed.

(** The case the specification singles out: [max_retries=3], a transport that
    raises a connection error twice and then answers 200.  The call returns
    that response and has counted 3 tries. *)
Lemma get_returns_every_200_witness :
  _get scripted (client 3) forecast_uri forecast_query
    [Fails (ConnectionError "reset"); Fails (ConnectionError "reset");
     Responds (answer 200)]
  = Some (Returned (Some (answer 200)),
          set_last_uri_call_tries
            (set_last_uri_call (client 3)
               (Some "https://api.openweathermap.org/data/2.5/forecast?id=6434841&appid=XxX&units=metric"))
            3,
          []).
Proof.
  destruct (get_returns_every_200 (list GetResult) scripted (client 3) forecast_uri
              forecast_query
              [Fails (ConnectionError "reset"); Fails (ConnectionError "reset");
               Responds (answer 200)])
    as (out & self' & w' & Hget & Hw & H200).
  assert (Hrun : _get scripted (client 3) forecast_uri forecast_query
            [Fails (ConnectionError "reset"); Fails (ConnectionError "reset");
             Responds (answer 200)]
          = Some (Returned (Some (answer 200)),
                  set_last_uri_call_tries
                    (set_last_uri_call (client 3)
                       (Some "https://api.openweathermap.org/data/2.5/forecast?id=6434841&appid=XxX&units=metric"))
                    3,
                  [])) by reflexivity.
  assert (Hmade : Z.of_nat 3 <= last_uri_call_tries self').
  { rewrite Hget in Hrun. injection Hrun as _ Hself _. subst self'. simpl. lia. }
  destruct (H200 3%nat (answer 200)) as [Ho Ht];
    [ lia | exact Hmade | reflexivity | reflexivity | ].
  rewrite Hget in Hrun |- *. injection Hrun as _ Hself Hw'.
  rewrite Ho, Hself, Hw'. reflexivity.
Defined.

Section AlwaysBadGateway.
Context {World : Type}.
Variable requests_get : Transport World.
Variable uri : string.
Variable kwargs : Kwargs.
Hypothesis always_502 :
  forall w, exists r, fst (requests_get uri kwargs w) = Responds r /\ status_code r = 502.

Lemma set_tries_twice self a b :
  set_last_uri_call_tries (set_last_uri_call_tries self a) b
  = set_last_uri_call_tries self b.
Proof. reflexivity. Qed.

(** With [S n] tries left, a transport that always answers 502 is called
    [S n] times, and the last of these calls raises. *)
Lemma loop_502 (n : nat) : forall fuel self response w,
  max_retries self - last_uri_call_tries self = Z.of_nat (S n) ->
  (S n <= fuel)%nat ->
  _get_loop requests_get fuel self uri kwargs false response w
  = Some (Raised OWMClientAccessLimitationError,
          set_last_uri_call_tries self (max_retries self),
          world_after requests_get uri kwargs (S n) w).
Proof.
  induction n as [| n IH]; intros fuel self response w Hleft Hfuel;
    (destruct fuel as [| fuel]; [lia |]);
    rewrite loop_step by lia; cbv zeta; unfold send;
    destruct (always_502 w) as (r & Hr & H502);
    destruct (requests_get uri kwargs w) as [res w1] eqn:Hget; simpl in Hr; subst res;
    unfold check; rewrite H502;
    change (negb (502 =? codes_ok)) with true; cbn iota;
    change (502 =? codes_bad_gateway) with true; cbn iota.
  - replace (last_uri_call_tries _ >=? max_retries _) with true
      by (symmetry; apply Z.geb_le; simpl; lia).
    simpl. rewrite Hget. simpl.
    replace (last_uri_call_tries self + 1) with (max_retries self) by lia. reflexivity.
  - replace (last_uri_call_tries _ >=? max_retries _) with false
      by (symmetry; rewrite Z.geb_leb; apply Z.leb_gt; simpl; lia).
    rewrite IH by (simpl; lia). rewrite set_tries_twice.
    simpl. rewrite Hget. reflexivity.
Qed.

End AlwaysBadGateway.

(** C2: with [max_retries = N >= 1] and a transport that answers 502 on every
    try, the call raises [OWMClientAccessLimitationError], and it does so
    after exactly [N] tries: the counter reads [N] and the transport was
    called [N] times (a 502 on an earlier try raises nothing). *)
Theorem always_502_raises_after_max_retries :
  forall (World : Type) (requests_get : Transport World)
         (self : OpenWeatherMapClient) (uri : string) (kwargs : Kwargs) (w : World),
    1 <= max_retries self ->
    (forall w, exists r,
        fst (requests_get uri kwargs w) = Responds r /\ status_code r = 502) ->
    exists self',
      _get requests_get self uri kwargs w
      = Some (Raised OWMClientAccessLimitationError, self',
              world_after requests_get uri kwargs (Z.to_nat (max_retries self)) w)
      /\ last_uri_call_tries self' = max_retries self.
Proof.
  intros World requests_get self uri kwargs w HN H502.
  exists (set_last_uri_call_tries (started uri kwargs self) (max_retries self)).
  split; [| reflexivity]. unfold _get. fold (started uri kwargs self).
  destruct (Z.to_nat (max_retries self)) as [| n] eqn:Hn; [lia |].
  change (max_retries (started uri kwargs self)) with (max_retries self).
  rewrite Hn.
  rewrite (loop_502 requests_get uri kwargs H502 n); simpl; try lia.
  reflexivity.
Qed.

(** [max_retries=3] and the transport that always answers 502: three calls
    are made, then the error is raised. *)
Lemma always_502_raises_after_max_retries_witness :
  1 <= max_retries (client 3)
  /\ _get (always 502) (client 3) forecast_uri forecast_query O
     = Some (Raised OWMClientAccessLimitationError,
             set_last_uri_call_tries
               (set_last_uri_call (client 3)
                  (Some "https://api.openweathermap.org/data/2.5/forecast?id=6434841&appid=XxX&units=metric"))
               3,
             3%nat).
Proof.
  split; [simpl; lia |].
  destruct (always_502_raises_after_max_retries nat (always 502) (client 3)
              forecast_uri forecast_query O) as (self' & Hget & Htries).
  - simpl; lia.
  - intros w. eexists. split; reflexivity.
  - rewrite Hget. assert (Hrun : _get (always 502) (client 3) forecast_uri forecast_query O
       = Some (Raised OWMClientAccessLimitationError,
             set_last_uri_call_tries
               (set_last_uri_call (client 3)
                  (Some "https://api.openweathermap.org/data/2.5/forecast?id=6434841&appid=XxX&units=metric"))
               3,
             3%nat)) by reflexivity.
    rewrite Hget in Hrun. exact Hrun.
Defined.

(** With no try allowed the loop is not entered, and [return response]
    finds [response] unbound. *)
Lemma get_without_tries (World : Type) (requests_get : Transport World)
    (self : OpenWeatherMapClient) (uri : string) (kwargs : Kwargs) (w : World) :
  max_retries self <= 0 ->
  _get requests_get self uri kwargs w
  = Some (Raised (UnboundLocalError "response"), started uri kwargs self, w).
Proof.
  intros H. unfold _get. fold (started uri kwargs self).
  apply loop_exit. simpl. apply Z.ltb_ge. exact H.
Qed.

(** The tries [_get] makes, and the one that decides. *)
Lemma get_last_try :
  forall (World : Type) (requests_get : Transport World)
         (self : OpenWeatherMapClient) (uri : string) (kwargs : Kwargs) (w : World),
  exists out self' w',
    _get requests_get self uri kwargs w = Some (out, self', w')
    /\ 0 <= last_uri_call_tries self'
    /\ (1 <= max_retries self ->
        1 <= last_uri_call_tries self' <= max_retries self
        /\ out = last_try_outcome
                   (attempt requests_get uri kwargs
                      (Z.to_nat (last_uri_call_tries self')) w)).
Proof.
  intros World requests_get self uri kwargs w.
  destruct (get_runs requests_get uri kwargs self w)
    as (out & self' & n & Hget & Htries & _ & Hle).
  exists out, self', (world_after requests_get uri kwargs n w).
  split; [exact Hget |]. split; [lia |]. intros Hmax.
  unfold _get in Hget.
  pose proof (loop_progress requests_get uri kwargs _ _ _ _ _ _ _ Hget) as Hone.
  simpl in Hone. specialize (Hone ltac:(lia)).
  split; [split; [lia | rewrite Htries; apply Hle; lia] |].
  apply (loop_last requests_get uri kwargs _ _ _ _ _ _ _ Hget); simpl; lia.
Qed.

(** C3, as the code has it: a response with a status other than 200 (502 or
    not) received on a try that is not the last allowed one does not fail the
    call.  Nothing is raised for it: the same request goes to the transport
    again (the transport is called once per try counted, and more tries are
    counted than that one), and the call ends as its last try decides.  An
    error for a status, [HTTPError] or [OWMClientAccessLimitationError], is
    raised on the last allowed try only, for the response of that try. *)
Theorem non_200_before_last_try_is_retried :
  forall (World : Type) (requests_get : Transport World)
         (self : OpenWeatherMapClient) (uri : string) (kwargs : Kwargs) (w : World),
  exists out self' w',
    _get requests_get self uri kwargs w = Some (out, self', w')
    /\ w' = world_after requests_get uri kwargs (Z.to_nat (last_uri_call_tries self')) w
    /\ (forall (j : nat) (r : Response),
          (1 <= j)%nat ->
          Z.of_nat j <= last_uri_call_tries self' ->
          Z.of_nat j < max_retries self ->
          attempt requests_get uri kwargs j w = Responds r ->
          status_code r <> 200 ->
          Z.of_nat j < last_uri_call_tries self'
          /\ out = last_try_outcome
                     (attempt requests_get uri kwargs
                        (Z.to_nat (last_uri_call_tries self')) w))
    /\ (forall status : Z,
          out = Raised (HTTPError status) \/ (out = Raised OWMClientAccessLimitationError
                                              /\ status = 502) ->
          last_uri_call_tries self' = max_retries self
          /\ exists r,
               attempt requests_get uri kwargs (Z.to_nat (max_retries self)) w = Responds r
               /\ status_code r = status).
Proof.
  intros World requests_get self uri kwargs w.
  destruct (get_runs requests_get uri kwargs self w)
    as (out & self' & n & Hget & Htries & _ & _).
  destruct (get_last_try World requests_get self uri kwargs w)
    as (out2 & self2 & w2 & Hget2 & Hpos & Hlast).
  rewrite Hget in Hget2. injection Hget2 as <- <- <-.
  exists out, self', (world_after requests_get uri kwargs n w).
  split; [exact Hget |]. split; [rewrite Htries, Nat2Z.id; reflexivity |].
  assert (Hretry : forall (j : nat) (r : Response),
             (1 <= j)%nat -> Z.of_nat j <= last_uri_call_tries self' ->
             Z.of_nat j < max_retries self ->
             attempt requests_get uri kwargs j w = Responds r ->
             status_code r <> 200 ->
             Z.of_nat j < last_uri_call_tries self').
  { intros j r Hj Hmade Hnotlast Hatt H200. unfold _get in Hget.
    apply (loop_retries requests_get uri kwargs _ _ _ _ _ _ _ Hget j r Hj);
      simpl; assumption. }
  split.
  - intros j r Hj Hmade Hnotlast Hatt H200.
    split; [exact (Hretry j r Hj Hmade Hnotlast Hatt H200) |].
    apply Hlast. lia.
  - intros status Hout.
    destruct (Z_lt_le_dec (max_retries self) 1) as [Hnone | Hmax].
    { exfalso. rewrite (get_without_tries World requests_get self uri kwargs w) in Hget
        by lia.
      injection Hget as <- _ _. destruct Hout as [Hout | [Hout _]]; discriminate Hout. }
    destruct (Hlast Hmax) as [Hbounds Hdecides].
    destruct (attempt requests_get uri kwargs (Z.to_nat (last_uri_call_tries self')) w)
      as [r | failure] eqn:Hatt.
    + assert (Hstatus : status_code r = status /\ status_code r <> 200).
      { unfold last_try_outcome, raise_for_status in Hdecides.
        destruct (status_code r =? 200) eqn:H200;
          [rewrite Hdecides in Hout; destruct Hout as [Hout | [Hout _]]; discriminate Hout |].
        apply Z.eqb_neq in H200. split; [| exact H200].
        destruct (status_code r =? 502) eqn:H502.
        - apply Z.eqb_eq in H502. rewrite Hdecides in Hout.
          destruct Hout as [Hout | [_ ->]]; [discriminate Hout | exact H502].
        - destruct ((400 <=? status_code r) && (status_code r <? 600));
            rewrite Hdecides in Hout; destruct Hout as [Hout | [Hout _]];
            try discriminate Hout.
          injection Hout as Hout. exact Hout. }
      destruct Hstatus as [Hstatus H200].
      assert (Hall : last_uri_call_tries self' = max_retries self).
      { destruct (Z_lt_le_dec (last_uri_call_tries self') (max_retries self))
          as [Hlt | Hge]; [| lia].
        exfalso.
        pose proof (Hretry (Z.to_nat (last_uri_call_tries self')) r) as Hmore.
        rewrite Z2Nat.id in Hmore by lia.
        specialize (Hmore ltac:(lia) ltac:(lia) Hlt Hatt H200). lia. }
      split; [exact Hall |]. exists r. rewrite <- Hall. split; [exact Hatt | exact Hstatus].
    + exfalso. unfold last_try_outcome in Hdecides.
      destruct failure; rewrite Hdecides in Hout;
        destruct Hout as [Hout | [Hout _]]; discriminate Hout.
Qed.

(** The claim as it was stated fails: with [max_retries=2], a 404 on the
    first try is followed by a second try, whose 200 response the call
    returns; no HTTP error is raised. *)
Lemma non_200_before_last_try_counterexample :
  attempt scripted forecast_uri forecast_query 1
    [Responds (answer 404); Responds (answer 200)] = Responds (answer 404)
  /\ 1 < max_retries (client 2)
  /\ _get scripted (client 2) forecast_uri forecast_query
       [Responds (answer 404); Responds (answer 200)]
     = Some (Returned (Some (answer 200)),
             set_last_uri_call_tries
               (set_last_uri_call (client 2)
                  (Some "https://api.openweathermap.org/data/2.5/forecast?id=6434841&appid=XxX&units=metric"))
               2,
             []).
Proof. repeat split. Qed.

(** The same call, through the amended statement: the 404 of the first try
    is followed by a second try, whose 200 response the call returns. *)
Lemma non_200_before_last_try_is_retried_witness :
  exists self',
    _get scripted (client 2) forecast_uri forecast_query
      [Responds (answer 404); Responds (answer 200)]
    = Some (Returned (Some (answer 200)), self', [])
    /\ 1 < last_uri_call_tries self'.
Proof.
  destruct (non_200_before_last_try_is_retried (list GetResult) scripted (client 2)
              forecast_uri forecast_query [Responds (answer 404); Responds (answer 200)])
    as (out & self' & w' & Hget & Hw & Hretry & _).
  assert (Hrun : _get scripted (client 2) forecast_uri forecast_query
            [Responds (answer 404); Responds (answer 200)]
          = Some (Returned (Some (answer 200)),
                  set_last_uri_call_tries (started forecast_uri forecast_query (client 2)) 2,
                  [])) by reflexivity.
  assert (Hself : self'
                  = set_last_uri_call_tries
                      (started forecast_uri forecast_query (client 2)) 2).
  { rewrite Hget in Hrun. injection Hrun as _ Hself _. exact Hself. }
  destruct (Hretry 1%nat (answer 404)) as [Hmore Hout].
  - lia.
  - rewrite Hself. simpl. lia.
  - simpl. lia.
  - reflexivity.
  - simpl. lia.
  - exists self'. split; [| exact Hmore].
    rewrite Hget, Hout, Hw, Hself. reflexivity.
Defined.

(** C4, what the code does: [__init__] stores [max_retries] as it is given,
    so a client can be made with [max_retries] 0 or -1; a call of such a
    client makes no try at all and ends in [UnboundLocalError] at
    [return response], not in one of the errors the engine raises. *)
Theorem init_keeps_max_retries_below_1 :
  forall (World : Type) (requests_get : Transport World)
         (key uri : string) (kwargs : Kwargs) (w : World) (n : Z),
    In n [0; -1] ->
    exists self,
      __init__ (Some key) true None n "metric" = Returned self
      /\ max_retries self = n
      /\ _get requests_get self uri kwargs w
         = Some (Raised (UnboundLocalError "response"), started uri kwargs self, w)
      /\ last_uri_call_tries (started uri kwargs self) = 0.
Proof.
  intros World requests_get key uri kwargs w n Hn.
  eexists. split; [reflexivity |]. split; [reflexivity |]. split; [| reflexivity].
  apply get_without_tries. simpl in *. intuition lia.
Qed.

(** [OpenWeatherMapClient('ae0c16c7', max_retries=-1)], as in the tests. *)
Lemma init_keeps_max_retries_below_1_witness :
  In (-1) [0; -1]
  /\ exists self,
       __init__ (Some "ae0c16c7") true None (-1) "metric" = Returned self
       /\ max_retries self = -1
       /\ _get scripted self forecast_uri forecast_query [Responds (answer 200)]
          = Some (Raised (UnboundLocalError "response"),
                  started forecast_uri forecast_query self, [Responds (answer 200)])
       /\ last_uri_call_tries (started forecast_uri forecast_query self) = 0.
Proof.
  split; [simpl; auto |].
  apply (init_keeps_max_retries_below_1 (list GetResult) scripted).
  simpl; auto.
Defined.

(** C5, what the code does: on the last allowed try a status that is neither
    200, nor 502, nor in the classes 4xx and 5xx raises nothing
    ([raise_for_status] is silent for it); the response is returned. *)
Theorem last_try_201_204_304_is_returned :
  forall status, In status [201; 204; 304] ->
    _get (always status) (client 1) forecast_uri forecast_query O
    = Some (Returned (Some {| status_code := status; body := None |}),
            set_last_uri_call_tries (started forecast_uri forecast_query (client 1)) 1,
            1%nat).
Proof.
  intros status H. simpl in H.
  destruct H as [<- | [<- | [<- | []]]]; reflexivity.
Qed.

(** Status 204 on the only try allowed. *)
Lemma last_try_201_204_304_is_returned_witness :
  In 204 [201; 204; 304]
  /\ _get (always 204) (client 1) forecast_uri forecast_query O
     = Some (Returned (Some {| status_code := 204; body := None |}),
             set_last_uri_call_tries (started forecast_uri forecast_query (client 1)) 1,
             1%nat).
Proof.
  split; [simpl; auto |]. apply last_try_201_204_304_is_returned. simpl; auto.
Defined.

(** X1: how every call ends: [_get] returns or raises, and the transport is
    called once per try counted.  With [max_retries] below 1 no try is made
    and the call ends in [UnboundLocalError]; otherwise it makes at least one
    try and [max_retries] tries at most, and the last try it made decides how
    it ends: its 200 response is returned; its 502 raises
    [OWMClientAccessLimitationError]; its 4xx or 5xx raises [HTTPError]; a
    connection error or a timeout raises [OpenWeatherMapClientError]. *)
Theorem get_ends_as_its_last_try :
  forall (World : Type) (requests_get : Transport World)
         (self : OpenWeatherMapClient) (uri : string) (kwargs : Kwargs) (w : World),
  exists out self' w',
    _get requests_get self uri kwargs w = Some (out, self', w')
    /\ w' = world_after requests_get uri kwargs (Z.to_nat (last_uri_call_tries self')) w
    /\ (max_retries self < 1 ->
        last_uri_call_tries self' = 0 /\ w' = w
        /\ out = Raised (UnboundLocalError "response"))
    /\ (1 <= max_retries self ->
        1 <= last_uri_call_tries self' <= max_retries self
        /\ out = last_try_outcome
                   (attempt requests_get uri kwargs
                      (Z.to_nat (last_uri_call_tries self')) w)).
Proof.
  intros World requests_get self uri kwargs w.
  destruct (get_runs requests_get uri kwargs self w)
    as (out & self' & n & Hget & Htries & _ & _).
  destruct (get_last_try World requests_get self uri kwargs w)
    as (out2 & self2 & w2 & Hget2 & Hpos & Hlast).
  rewrite Hget in Hget2. injection Hget2 as <- <- <-.
  exists out, self', (world_after requests_get uri kwargs n w).
  split; [exact Hget |]. split; [rewrite Htries, Nat2Z.id; reflexivity |].
  split; [| exact Hlast].
  intros Hnone.
  rewrite (get_without_tries World requests_get self uri kwargs w) in Hget by lia.
  injection Hget as <- <- <-. repeat split; reflexivity.
Qed.

(** X2: on the last try made, a status of the classes 4xx and 5xx other than 502
    raises [HTTPError] with that status. *)
Theorem last_try_4xx_5xx_raises_http_error :
  forall (World : Type) (requests_get : Transport World)
         (self : OpenWeatherMapClient) (uri : string) (kwargs : Kwargs) (w : World)
         (r : Response),
    1 <= max_retries self ->
    400 <= status_code r < 600 ->
    status_code r <> 502 ->
    exists out self' w',
      _get requests_get self uri kwargs w = Some (out, self', w')
      /\ (attempt requests_get uri kwargs (Z.to_nat (last_uri_call_tries self')) w
          = Responds r ->
          out = Raised (HTTPError (status_code r))
          /\ last_uri_call_tries self' = max_retries self).
Proof.
  intros World requests_get self uri kwargs w r Hmax Hclass H502.
  destruct (get_last_try World requests_get self uri kwargs w)
    as (out & self' & w' & Hget & _ & Hlast).
  destruct (Hlast Hmax) as [Hbounds Hout].
  exists out, self', w'. split; [exact Hget |]. intros Hatt.
  rewrite Hatt in Hout. unfold last_try_outcome, raise_for_status in Hout.
  replace (status_code r =? 200) with false in Hout by (symmetry; apply Z.eqb_neq; lia).
  replace (status_code r =? 502) with false in Hout by (symmetry; apply Z.eqb_neq; lia).
  replace ((400 <=? status_code r) && (status_code r <? 600)) with true in Hout
    by (symmetry; apply andb_true_intro; split; [apply Z.leb_le | apply Z.ltb_lt]; lia).
  split; [exact Hout |].
  destruct (Z_lt_le_dec (last_uri_call_tries self') (max_retries self)) as [Hlt | Hge];
    [| lia].
  exfalso. unfold _get in Hget.
  assert (Hmore : 0 + Z.of_nat (Z.to_nat (last_uri_call_tries self'))
                  < last_uri_call_tries self').
  { apply (loop_retries requests_get uri kwargs _ _ _ _ _ _ _ Hget _ r);
      simpl; rewrite ?Z2Nat.id; try assumption; lia. }
  rewrite Z2Nat.id in Hmore; lia.
Qed.

(** [max_retries=2], a 503 and then a 404: the call raises [HTTPError] with
    status 404 after its second try. *)
Lemma last_try_4xx_5xx_raises_http_error_witness :
  _get scripted (client 2) forecast_uri forecast_query
    [Responds (answer 503); Responds (answer 404)]
  = Some (Raised (HTTPError 404),
          set_last_uri_call_tries (started forecast_uri forecast_query (client 2)) 2,
          []).
Proof.
  destruct (last_try_4xx_5xx_raises_http_error (list GetResult) scripted (client 2)
              forecast_uri forecast_query
              [Responds (answer 503); Responds (answer 404)] (answer 404))
    as (out & self' & w' & Hget & Hlast); [simpl; lia | simpl; lia | simpl; lia |].
  assert (Hrun : _get scripted (client 2) forecast_uri forecast_query
                   [Responds (answer 503); Responds (answer 404)]
                 = Some (Raised (HTTPError 404),
                         set_last_uri_call_tries
                           (started forecast_uri forecast_query (client 2)) 2,
                         [])) by reflexivity.
  rewrite Hget in Hrun |- *. injection Hrun as _ Hself Hw.
  destruct Hlast as [Hout _]; [rewrite Hself; reflexivity |].
  rewrite Hout, Hself, Hw. reflexivity.
Defined.

(** X3: a connection error or a timeout on the last try made raises
    [OpenWeatherMapClientError] with the text of the cause, and that try is
    the last allowed one: earlier failures of the transport are retried. *)
Theorem last_try_connection_error_raises :
  forall (World : Type) (requests_get : Transport World)
         (self : OpenWeatherMapClient) (uri : string) (kwargs : Kwargs) (w : World)
         (src_exc : string),
    1 <= max_retries self ->
    exists out self' w',
      _get requests_get self uri kwargs w = Some (out, self', w')
      /\ (attempt requests_get uri kwargs (Z.to_nat (last_uri_call_tries self')) w
          = Fails (ConnectionError src_exc)
          \/ attempt requests_get uri kwargs (Z.to_nat (last_uri_call_tries self')) w
             = Fails (Timeout src_exc) ->
          out = Raised (OpenWeatherMapClientError (FromTransport src_exc))
          /\ last_uri_call_tries self' = max_retries self).
Proof.
  intros World requests_get self uri kwargs w src_exc Hmax.
  destruct (get_last_try World requests_get self uri kwargs w)
    as (out & self' & w' & Hget & _ & Hlast).
  destruct (Hlast Hmax) as [Hbounds Hout].
  exists out, self', w'. split; [exact Hget |].
  intros Hatt. split; [destruct Hatt as [Hatt | Hatt]; rewrite Hatt in Hout; exact Hout |].
  destruct (Z_lt_le_dec (last_uri_call_tries self') (max_retries self)) as [Hlt | Hge];
    [| lia].
  exfalso. unfold _get in Hget.
  assert (Hmore : 0 + Z.of_nat (Z.to_nat (last_uri_call_tries self'))
                  < last_uri_call_tries self').
  { apply (loop_retries_failure requests_get uri kwargs _ _ _ _ _ _ _ Hget _ src_exc);
      simpl; rewrite ?Z2Nat.id; try assumption; lia. }
  rewrite Z2Nat.id in Hmore; lia.
Qed.

(** [max_retries=2] and a transport that is reset twice. *)
Lemma last_try_connection_error_raises_witness :
  _get scripted (client 2) forecast_uri forecast_query
    [Fails (ConnectionError "reset"); Fails (Timeout "timed out")]
  = Some (Raised (OpenWeatherMapClientError (FromTransport "timed out")),
          set_last_uri_call_tries (started forecast_uri forecast_query (client 2)) 2,
          []).
Proof.
  destruct (last_try_connection_error_raises (list GetResult) scripted (client 2)
              forecast_uri forecast_query
              [Fails (ConnectionError "reset"); Fails (Timeout "timed out")] "timed out")
    as (out & self' & w' & Hget & Hlast); [simpl; lia |].
  assert (Hrun : _get scripted (client 2) forecast_uri forecast_query
                   [Fails (ConnectionError "reset"); Fails (Timeout "timed out")]
                 = Some (Raised (OpenWeatherMapClientError (FromTransport "timed out")),
                         set_last_uri_call_tries
                           (started forecast_uri forecast_query (client 2)) 2,
                         [])) by reflexivity.
  rewrite Hget in Hrun |- *. injection Hrun as _ Hself Hw.
  destruct Hlast as [Hout _]; [right; rewrite Hself; reflexivity |].
  rewrite Hout, Hself, Hw. reflexivity.
Defined.

End GetFacts.

(** ** The diagnostic uri and the facade *)

Module FacadeFacts.
Import ApiClient Specs EngineFacts GetFacts Examples.

Lemma alike_refl d : alike d d.
Proof. induction d; constructor; auto. Qed.

Lemma alike_set d1 d2 k v1 v2 :
  alike d1 d2 -> k = "appid" \/ v1 = v2 ->
  alike (dict_set d1 k v1) (dict_set d2 k v2).
Proof.
  intros H Hv. induction H as [| [k1 x1] [k2 x2] d1 d2 [Hk Hx] Hrest IH]; simpl in *.
  - constructor; [simpl; auto | constructor].
  - subst k2. destruct (String.eqb k1 k).
    + constructor; [simpl; auto | exact Hrest].
    + constructor; [simpl; auto | exact IH].
Qed.

Lemma alike_update d1 d2 o1 o2 :
  alike d1 d2 -> alike o1 o2 -> alike (dict_update d1 o1) (dict_update d2 o2).
Proof.
  intros Hd Ho. revert d1 d2 Hd. unfold dict_update.
  induction Ho as [| [k1 x1] [k2 x2] o1 o2 [Hk Hx] _ IH]; intros d1 d2 Hd; simpl in *.
  - exact Hd.
  - subst k2. apply IH. apply alike_set; assumption.
Qed.

Lemma alike_get d1 d2 k :
  alike d1 d2 -> dict_get d1 k = None <-> dict_get d2 k = None.
Proof.
  intros H. induction H as [| [k1 x1] [k2 x2] d1 d2 [Hk Hx] Hrest IH]; simpl in *.
  - tauto.
  - subst k2. destruct (String.eqb k1 k); [split; discriminate | exact IH].
Qed.

Lemma alike_remove d1 d2 k :
  alike d1 d2 -> alike (dict_remove d1 k) (dict_remove d2 k).
Proof.
  intros H. induction H as [| [k1 x1] [k2 x2] d1 d2 [Hk Hx] Hrest IH]; simpl in *.
  - constructor.
  - subst k2. destruct (String.eqb k1 k); [exact Hrest |].
    constructor; [simpl; auto | exact IH].
Qed.

(** The readable uri prints the same text for dictionaries that are alike. *)
Lemma readable_uri_alike uri d1 d2 stream1 stream2 :
  alike d1 d2 ->
  readable_uri uri {| params := Some d1; stream := stream1 |}
  = readable_uri uri {| params := Some d2; stream := stream2 |}.
Proof.
  intros H. unfold readable_uri. simpl. do 3 f_equal.
  induction H as [| [k1 x1] [k2 x2] d1 d2 [Hk Hx] _ IH]; simpl in *; [reflexivity |].
  subst k2. rewrite IH. f_equal. unfold readable_param. simpl.
  destruct Hx as [-> | ->]; reflexivity.
Qed.

(** [_get] stores the readable uri, whatever the transport does. *)
Lemma get_last_uri_call {World : Type} (requests_get : Transport World)
    self uri kwargs w :
  exists out self' w',
    _get requests_get self uri kwargs w = Some (out, self', w')
    /\ last_uri_call self' = Some (readable_uri uri kwargs).
Proof.
  destruct (get_runs requests_get uri kwargs self w) as (out & self' & n & Hget & _ & Hself & _).
  exists out, self', (world_after requests_get uri kwargs n w).
  split; [exact Hget |]. subst self'. reflexivity.
Qed.

Lemma get_data_last_uri_call {World : Type} (requests_get : Transport World)
    from_iso_datetime self service_name extra_uri query with_units w :
  last_uri_call_after
    (_get_data requests_get from_iso_datetime self service_name extra_uri query
       with_units w)
  = Some
      match dict_get (_AVAILABLE_SERVICES from_iso_datetime) service_name with
      | None => last_uri_call self
      | Some service_info =>
          let uri := urljoin (_base_uri self) (ApiClient.uri service_info) in
          let uri := match extra_uri with Some e => urljoin uri e | None => uri end in
          let query_params :=
            dict_update (match query with Some d => d | None => [] end)
              (_base_uri_params self) in
          let popped :=
            if negb with_units then option_map snd (dict_pop query_params "units")
            else Some query_params in
          match popped with
          | None => last_uri_call self
          | Some query_params =>
              Some (readable_uri uri {| params := Some query_params; stream := false |})
          end
      end.
Proof.
  unfold _get_data.
  destruct (dict_get (_AVAILABLE_SERVICES from_iso_datetime) service_name) as [info |];
    [| reflexivity].
  cbv zeta.
  destruct (if negb with_units then _ else _) as [query_params |]; [| reflexivity].
  match goal with
  | |- context [_get requests_get self ?u ?k w] =>
      destruct (get_last_uri_call requests_get self u k w) as (out & self' & w' & Hget & Hlast);
      rewrite Hget
  end.
  destruct out; simpl; rewrite Hlast; reflexivity.
Qed.

(** C9: every call of the engine stores a readable uri that lists every
    query parameter in order as [key=value], with the fixed text [XxX] in
    place of the value of [appid]; so what is stored does not depend on the
    api key: two clients made alike but for the key end the same call with
    the same readable uri, whatever their transports answer. *)
Theorem last_uri_call_masks_the_api_key :
  (forall (World : Type) (requests_get : Transport World) self uri kwargs w,
      exists out self' w',
        _get requests_get self uri kwargs w = Some (out, self', w')
        /\ last_uri_call self'
           = Some (uri ++ "?"
                   ++ join "&"
                        (map (fun kv =>
                                fst kv ++ "="
                                ++ (if String.eqb (fst kv) "appid" then "XxX"
                                    else format_value (snd kv)))
                             (match params kwargs with Some d => d | None => [] end))))
  /\ (forall (World1 World2 : Type) (get1 : Transport World1) (get2 : Transport World2)
             from_iso_datetime (key1 key2 : string) use_ssl api_host retries unit_system
             service_name extra_uri query with_units w1 w2,
         exists self1 self2,
           __init__ (Some key1) use_ssl api_host retries unit_system = Returned self1
           /\ __init__ (Some key2) use_ssl api_host retries unit_system = Returned self2
           /\ last_uri_call_after
                (_get_data get1 from_iso_datetime self1 service_name extra_uri query
                   with_units w1)
              = last_uri_call_after
                  (_get_data get2 from_iso_datetime self2 service_name extra_uri query
                     with_units w2)
           /\ last_uri_call_after
                (_get_data get1 from_iso_datetime self1 service_name extra_uri query
                   with_units w1) <> None).
Proof.
  split.
  - intros World requests_get self uri kwargs w.
    destruct (get_last_uri_call requests_get self uri kwargs w)
      as (out & self' & w' & Hget & Hlast).
    exists out, self', w'. split; [exact Hget |]. rewrite Hlast.
    unfold readable_uri. simpl. do 3 f_equal. f_equal. apply map_ext. intros [k v].
    unfold readable_param. simpl. destruct (String.eqb k "appid"); reflexivity.
  - intros World1 World2 get1 get2 from_iso_datetime key1 key2 use_ssl api_host
      retries unit_system service_name extra_uri query with_units w1 w2.
    eexists. eexists. split; [reflexivity |]. split; [reflexivity |].
    rewrite !get_data_last_uri_call. split; [| discriminate].
    f_equal.
    destruct (dict_get (_AVAILABLE_SERVICES from_iso_datetime) service_name);
      [| reflexivity].
    cbv zeta. cbn [_base_uri _base_uri_params].
    assert (Hu : alike
                   (dict_update (match query with Some d => d | None => [] end)
                      [("appid", QStr key1); ("units", QStr unit_system)])
                   (dict_update (match query with Some d => d | None => [] end)
                      [("appid", QStr key2); ("units", QStr unit_system)])).
    { apply alike_update; [apply alike_refl |].
      constructor; [simpl; auto |]. constructor; [simpl; auto | constructor]. }
    destruct (negb with_units).
    + unfold dict_pop. pose proof (alike_get _ _ "units" Hu) as Hunits.
      destruct (dict_get (dict_update _ [("appid", QStr key1); _]) "units"),
               (dict_get (dict_update _ [("appid", QStr key2); _]) "units");
        cbn [option_map snd]; try reflexivity.
      * f_equal. apply readable_uri_alike, alike_remove, Hu.
      * exfalso. assert (Some q = None) by (apply Hunits; reflexivity). discriminate.
      * exfalso. assert (Some q = None) by (apply Hunits; reflexivity). discriminate.
    + f_equal. apply readable_uri_alike, Hu.
Qed.

(** [_get_data] always ends. *)
Lemma get_data_runs {World : Type} (requests_get : Transport World)
    from_iso_datetime self service_name extra_uri query with_units w :
  exists result self' w',
    _get_data requests_get from_iso_datetime self service_name extra_uri query
      with_units w = Some (result, self', w').
Proof.
  pose proof (get_data_last_uri_call requests_get from_iso_datetime self service_name
                extra_uri query with_units w) as H.
  destruct (_get_data requests_get from_iso_datetime self service_name extra_uri query
              with_units w) as [[[result self'] w'] |]; [| discriminate].
  exists result, self', w'. reflexivity.
Qed.

(** The engine asks the transport about its own request only: two transports
    that do the same on that request make the same call. *)
Lemma get_loop_ext {World : Type} (get1 get2 : Transport World) uri kwargs :
  (forall w, get1 uri kwargs w = get2 uri kwargs w) ->
  forall fuel self is_success response w,
    _get_loop get1 fuel self uri kwargs is_success response w
    = _get_loop get2 fuel self uri kwargs is_success response w.
Proof.
  intros Hsame. induction fuel as [| fuel IH]; intros self is_success response w;
    cbn [_get_loop].
  - reflexivity.
  - destruct (negb is_success && _); [| reflexivity].
    assert (Hsend : forall self1, send get1 self1 uri kwargs w = send get2 self1 uri kwargs w)
      by (intros self1; unfold send; rewrite Hsame; reflexivity).
    rewrite Hsend.
    destruct (send get2 _ uri kwargs w) as [[resp | exc] w1]; [| reflexivity].
    destruct (check _ _ _); [apply IH | reflexivity].
Qed.

Lemma get_ext {World : Type} (get1 get2 : Transport World) self uri kwargs w :
  (forall w, get1 uri kwargs w = get2 uri kwargs w) ->
  _get get1 self uri kwargs w = _get get2 self uri kwargs w.
Proof. intros Hsame. unfold _get. apply get_loop_ext. exact Hsame. Qed.

Lemma cluster_params_ok d cluster :
  cluster_ok cluster ->
  cluster_params d cluster
  = Returned match cluster with
             | Some c => dict_update d [("cluster", QStr c)]
             | None => d
             end.
Proof. intros [-> | [-> | ->]]; reflexivity. Qed.

Lemma cluster_params_not_ok d cluster :
  ~ cluster_ok cluster -> cluster_params d cluster = Raised ValueError.
Proof.
  unfold cluster_ok, cluster_params. intros H. destruct cluster as [c |].
  - destruct (String.eqb c "yes") eqn:Hy.
    + apply String.eqb_eq in Hy. subst c. tauto.
    + destruct (String.eqb c "no") eqn:Hn; [| reflexivity].
      apply String.eqb_eq in Hn. subst c. tauto.
  - tauto.
Qed.

(** C8: the circle search sends [max(0, min(cnt, 50))] as its [cnt]
    parameter, a value of the interval [0, 50] that is [cnt] itself when
    [cnt] lies in it, 0 for -5 and 50 for 1000.  No value of [cnt] stops the
    call: with a [cluster] that is allowed the call goes to the engine with
    that parameter, and the transport is only ever asked about requests that
    carry it; with another [cluster] the call is refused whatever [cnt] is. *)
Theorem circle_cnt_is_clamped :
  forall (World : Type) (get1 get2 : Transport World) from_iso_datetime
         (self : OpenWeatherMapClient) (latitude longitude : QueryValue)
         (cluster : option string) (cnt : Z) (lang : option string) (w : World),
    base_params_ok self ->
    (forall uri kwargs w,
        (exists d, params kwargs = Some d
                   /\ dict_get d "cnt" = Some (QInt (Z.max 0 (Z.min cnt 50)))) ->
        get1 uri kwargs w = get2 uri kwargs w) ->
    (0 <= Z.max 0 (Z.min cnt 50) <= 50)
    /\ (0 <= cnt <= 50 -> Z.max 0 (Z.min cnt 50) = cnt)
    /\ (cnt = -5 -> Z.max 0 (Z.min cnt 50) = 0)
    /\ (cnt = 1000 -> Z.max 0 (Z.min cnt 50) = 50)
    /\ (cluster_ok cluster ->
        exists query_params,
          dict_get query_params "cnt" = Some (QInt (Z.max 0 (Z.min cnt 50)))
          /\ get_current_weather_within_circle get1 from_iso_datetime self
               latitude longitude cluster cnt lang w
             = _get_data get1 from_iso_datetime self "current_weather_circle" None
                 (Some query_params) true w)
    /\ (~ cluster_ok cluster ->
        forall cnt',
          get_current_weather_within_circle get1 from_iso_datetime self
            latitude longitude cluster cnt' lang w
          = Some (Raised ValueError, self, w))
    /\ get_current_weather_within_circle get1 from_iso_datetime self
         latitude longitude cluster cnt lang w
       = get_current_weather_within_circle get2 from_iso_datetime self
           latitude longitude cluster cnt lang w.
Proof.
  intros World get1 get2 from_iso_datetime self latitude longitude cluster cnt lang w
    Hbase Hsame.
  repeat split; try lia.
  - intros Hok. unfold get_current_weather_within_circle. cbv zeta.
    rewrite (cluster_params_ok _ _ Hok).
    eexists. split; [| reflexivity].
    destruct Hok as [-> | [-> | ->]], lang; reflexivity.
  - intros Hbad cnt'. unfold get_current_weather_within_circle. cbv zeta.
    rewrite (cluster_params_not_ok _ _ Hbad). reflexivity.
  - unfold get_current_weather_within_circle. cbv zeta.
    destruct (cluster_params _ cluster) as [query_params |] eqn:Hcluster;
      [| reflexivity].
    unfold _get_data. cbn [dict_get _AVAILABLE_SERVICES String.eqb Ascii.eqb Bool.eqb].
    cbv zeta. cbn [negb]. rewrite Hbase.
    erewrite get_ext; [reflexivity |].
    intros w0. apply Hsame. eexists. split; [reflexivity |].
    unfold cluster_params in Hcluster. destruct cluster as [c |].
    + destruct (_ || _)%bool; [| discriminate].
      injection Hcluster as <-. destruct lang; reflexivity.
    + injection Hcluster as <-. destruct lang; reflexivity.
Qed.

(** [cnt=-5] against the recording transport: the one request sent carries
    [cnt=0], and so does the readable uri. *)
Lemma circle_cnt_is_clamped_witness :
  base_params_ok (client 5)
  /\ Z.max 0 (Z.min (-5) 50) = 0
  /\ get_current_weather_within_circle recording no_iso_dates (client 5)
       (QFloat "44.333328") (QFloat "1.21667") None (-5) None []
     = Some (Returned (PyDict []),
             set_last_uri_call_tries
               (set_last_uri_call (client 5)
                  (Some "https://api.openweathermap.org/data/2.5/find?lat=44.333328&lon=1.21667&cnt=0&appid=XxX&units=metric"))
               1,
             [("https://api.openweathermap.org/data/2.5/find",
               {| params := Some [("lat", QFloat "44.333328"); ("lon", QFloat "1.21667");
                                  ("cnt", QInt 0); ("appid", QStr "ae0c16c7");
                                  ("units", QStr "metric")];
                  stream := false |})]).
Proof.
  split; [reflexivity |].
  destruct (circle_cnt_is_clamped _ recording recording no_iso_dates (client 5)
              (QFloat "44.333328") (QFloat "1.21667") None (-5) None [])
    as (_ & _ & H5 & _ & _ & _ & _).
  - reflexivity.
  - reflexivity.
  - split; [apply H5; reflexivity | reflexivity].
Defined.

(** C10: the box search appends [zoom] to the list it is given (the
    caller's own list, reached by reference): a list of 4 coordinates has 5
    elements after the call, whether the call returns or raises, and no
    other list is touched. *)
Theorem box_argument_is_extended :
  forall (World : Type) (requests_get : Transport World) from_iso_datetime
         (self : OpenWeatherMapClient) (h : Heap) (box : nat) (zoom : QueryValue)
         (cluster lang : option string) (w : World),
    List.length (h box) = 4%nat ->
    exists out h' self' w',
      get_current_weather_within_box requests_get from_iso_datetime self h box zoom
        cluster lang w = Some (out, h', self', w')
      /\ h' box = (h box ++ [zoom])%list
      /\ List.length (h' box) = 5%nat
      /\ forall other, other <> box -> h' other = h other.
Proof.
  intros World requests_get from_iso_datetime self h box zoom cluster lang w Hlen.
  assert (Hbox : heap_set h box (h box ++ [zoom])%list box = (h box ++ [zoom])%list).
  { unfold heap_set. rewrite Nat.eqb_refl. reflexivity. }
  assert (Hlen' : List.length (heap_set h box (h box ++ [zoom])%list box) = 5%nat).
  { rewrite Hbox, length_app, Hlen. reflexivity. }
  assert (Hother : forall other, other <> box ->
                     heap_set h box (h box ++ [zoom])%list other = h other).
  { intros other Hne. unfold heap_set. apply Nat.eqb_neq in Hne. rewrite Hne. reflexivity. }
  unfold get_current_weather_within_box. rewrite Hlen. cbn [Nat.eqb negb]. cbv zeta.
  destruct (cluster_params _ cluster) as [query_params | exc].
  - destruct (get_data_runs requests_get from_iso_datetime self "current_weather_box"
                None (Some (lang_params query_params lang)) true w)
      as (result & self' & w' & ->).
    exists result, (heap_set h box (h box ++ [zoom])%list), self', w'. auto.
  - exists (Raised exc), (heap_set h box (h box ++ [zoom])%list), self, w. auto.
Qed.

(** The box of the test suite, [[12, 32, 15, 37]] with zoom 10, held at
    reference 0: after the call the caller's list is [[12, 32, 15, 37, 10]]. *)
Lemma box_argument_is_extended_witness :
  exists out h' self' w',
    get_current_weather_within_box recording no_iso_dates (client 5)
      (fun _ => [QInt 12; QInt 32; QInt 15; QInt 37]) 0 (QInt 10) None None []
    = Some (out, h', self', w')
    /\ h' O = [QInt 12; QInt 32; QInt 15; QInt 37; QInt 10].
Proof.
  destruct (box_argument_is_extended _ recording no_iso_dates (client 5)
              (fun _ => [QInt 12; QInt 32; QInt 15; QInt 37]) 0 (QInt 10) None None [])
    as (out & h' & self' & w' & Hcall & Hbox & _).
  - reflexivity.
  - exists out, h', self', w'. split; [exact Hcall | exact Hbox].
Defined.

End FacadeFacts.

(** ** Timestamps *)

Module DatetimeFacts.
Import Datetime Utils Specs.

Lemma all_from_spec P fuel : forall i,
  all_from P fuel i = true ->
  forall k, i <= k < i + Z.of_nat fuel -> P k = true.
Proof.
  induction fuel as [| fuel IH]; intros i H k Hk; [lia |].
  simpl in H. destruct (P i) eqn:Hi; [| discriminate].
  destruct (Z.eq_dec k i) as [-> | Hne]; [exact Hi |].
  apply (IH (i + 1) H). lia.
Qed.

(** The checks, run. *)
Lemma years_checked :
  all_from (fun n100 => all_from (fun n4 => all_from (year_ok n100 n4) 4 0) 25 0) 4 0
  = true.
Proof. vm_compute. reflexivity. Qed.

Lemma year_checked n100 n4 n1 :
  0 <= n100 <= 3 -> 0 <= n4 <= 24 -> 0 <= n1 <= 3 -> year_ok n100 n4 n1 = true.
Proof.
  intros H100 H4 H1.
  pose proof (all_from_spec _ _ _ years_checked n100) as Ha. cbv beta in Ha.
  pose proof (all_from_spec _ _ _ (Ha ltac:(simpl; lia)) n4) as Hb. cbv beta in Hb.
  apply (all_from_spec _ _ _ (Hb ltac:(simpl; lia)) n1). simpl. lia.
Qed.

Lemma days_checked :
  all_from (month_day_ok false) 365 0 = true /\ all_from (month_day_ok true) 365 0 = true.
Proof. split; vm_compute; reflexivity. Qed.

Lemma day_checked leapyear n :
  0 <= n <= 364 -> month_day_ok leapyear n = true.
Proof.
  intros Hn. destruct days_checked as [Hf Ht].
  destruct leapyear; [apply (all_from_spec _ _ _ Ht) | apply (all_from_spec _ _ _ Hf)];
    simpl; lia.
Qed.

(** [_ord2ymd], by its parts. *)
Lemma ord2ymd_parts n :
  _ord2ymd n =
    let r := (n - 1) mod 146097 in
    let n100 := r / 36524 in
    let n4 := r mod 36524 / 1461 in
    let n1 := r mod 36524 mod 1461 / 365 in
    let doy := r mod 36524 mod 1461 mod 365 in
    let year := (n - 1) / 146097 * 400 + 1 + n100 * 100 + n4 * 4 + n1 in
    if (n1 =? 4) || (n100 =? 4) then (year - 1, 12, 31)
    else
      let '(m, d) := month_day doy ((n1 =? 3) && (negb (n4 =? 24) || (n100 =? 3))) in
      (year, m, d).
Proof.
  unfold _ord2ymd, month_day, _DI400Y, _DI100Y, _DI4Y. cbv zeta.
  destruct (_ || _); [reflexivity |]. destruct (_ <? _); reflexivity.
Qed.

(** Over one cycle of 400 years: the date of day [r + 1] has that ordinal,
    and its year, between 1 and 400, is 400 exactly for the last 366 days. *)
Lemma cycle_day r :
  0 <= r < 146097 ->
  exists y m d,
    _ord2ymd (r + 1) = (y, m, d)
    /\ _ymd2ord y m d = r + 1 /\ 1 <= y <= 400 /\ (y <= 399 <-> r < 145731).
Proof.
  intros Hr. rewrite ord2ymd_parts.
  replace (r + 1 - 1) with r by lia.
  rewrite (Z.mod_small r 146097), (Z.div_small r 146097) by lia. cbv zeta.
  pose proof (Z.div_mod r 36524 ltac:(lia)) as E100.
  pose proof (Z.mod_pos_bound r 36524 ltac:(lia)) as B100.
  set (n100 := r / 36524) in *. set (r1 := r mod 36524) in *.
  pose proof (Z.div_mod r1 1461 ltac:(lia)) as E4.
  pose proof (Z.mod_pos_bound r1 1461 ltac:(lia)) as B4.
  set (n4 := r1 / 1461) in *. set (r2 := r1 mod 1461) in *.
  pose proof (Z.div_mod r2 365 ltac:(lia)) as E1.
  pose proof (Z.mod_pos_bound r2 365 ltac:(lia)) as B1.
  set (n1 := r2 / 365) in *. set (doy := r2 mod 365) in *.
  clearbody n100 r1 n4 r2 n1 doy.
  assert (H100 : 0 <= n100 <= 4) by lia.
  assert (H4 : 0 <= n4 <= 24) by lia.
  assert (H1 : 0 <= n1 <= 4) by lia.
  destruct (Z.eq_dec n100 4) as [-> | Hn100].
  - (* the last day of the cycle *)
    replace ((n1 =? 4) || (4 =? 4)) with true by (rewrite orb_true_r; reflexivity).
    assert (Hn4 : n4 = 0) by lia. assert (Hn1 : n1 = 0) by lia.
    assert (Hlast : r = 146096) by lia. rewrite Hn4, Hn1, Hlast.
    exists 400, 12, 31. repeat split; try lia; reflexivity.
  - destruct (Z.eq_dec n1 4) as [-> | Hn1].
    + (* the last day of a leap year *)
      cbn [Z.eqb Pos.eqb orb].
      assert (Hn4 : n4 <= 23) by lia.
      pose proof (year_checked n100 n4 3 ltac:(lia) ltac:(lia) ltac:(lia)) as Hy.
      unfold year_ok in Hy. cbv zeta in Hy. apply andb_prop in Hy as [Hdays Hleap].
      apply Z.eqb_eq in Hdays. apply Bool.eqb_prop in Hleap.
      replace (n4 =? 24) with false in Hleap by (symmetry; apply Z.eqb_neq; lia).
      cbn [Z.eqb Pos.eqb andb negb orb] in Hleap.
      eexists. eexists. eexists. split; [reflexivity |].
      replace (0 * 400 + 1 + n100 * 100 + n4 * 4 + 4 - 1)
        with (100 * n100 + 4 * n4 + 3 + 1) by lia.
      unfold _ymd2ord, _days_before_month. rewrite Hdays, Hleap.
      cbn [_DAYS_BEFORE_MONTH Z.ltb Z.compare Pos.compare Pos.compare_cont andb].
      repeat split; lia.
    + (* any other day *)
      replace ((n1 =? 4) || (n100 =? 4)) with false
        by (symmetry; apply orb_false_intro; apply Z.eqb_neq; assumption).
      pose proof (year_checked n100 n4 n1 ltac:(lia) ltac:(lia) ltac:(lia)) as Hy.
      unfold year_ok in Hy. cbv zeta in Hy. apply andb_prop in Hy as [Hdays Hleap].
      apply Z.eqb_eq in Hdays. apply Bool.eqb_prop in Hleap.
      set (leapyear := (n1 =? 3) && (negb (n4 =? 24) || (n100 =? 3))) in *.
      pose proof (day_checked leapyear doy ltac:(lia)) as Hd.
      unfold month_day_ok in Hd.
      destruct (month_day doy leapyear) as [m d].
      apply Z.eqb_eq in Hd.
      exists (0 * 400 + 1 + n100 * 100 + n4 * 4 + n1), m, d.
      split; [reflexivity |].
      replace (0 * 400 + 1 + n100 * 100 + n4 * 4 + n1)
        with (100 * n100 + 4 * n4 + n1 + 1) by lia.
      unfold _ymd2ord, _days_before_month. rewrite Hdays, Hleap.
      repeat split; lia.
Qed.

(** The calendar repeats every 400 years, that is every 146097 days. *)
Lemma ord2ymd_cycle n :
  _ord2ymd n =
    let '(y, m, d) := _ord2ymd ((n - 1) mod 146097 + 1) in
    (y + 400 * ((n - 1) / 146097), m, d).
Proof.
  unfold _ord2ymd, _DI400Y. 
  replace ((n - 1) mod 146097 + 1 - 1) with ((n - 1) mod 146097) by lia.
  rewrite Z.mod_mod by lia.
  rewrite (Z.div_small ((n - 1) mod 146097) 146097) by (apply Z.mod_pos_bound; lia).
  cbv zeta.
  set (r := (n - 1) mod 146097). set (q := (n - 1) / 146097).
  destruct ((r mod _DI100Y mod _DI4Y / 365 =? 4) || (r / _DI100Y =? 4)).
  - f_equal. f_equal. lia.
  - destruct (_ <? _); f_equal; f_equal; lia.
Qed.

Lemma is_leap_cycle y q : _is_leap (y + 400 * q) = _is_leap y.
Proof.
  unfold _is_leap.
  replace ((y + 400 * q) mod 4) with (y mod 4)
    by (rewrite <- (Z.mod_add y (100 * q) 4) by lia; f_equal; lia).
  replace ((y + 400 * q) mod 100) with (y mod 100)
    by (rewrite <- (Z.mod_add y (4 * q) 100) by lia; f_equal; lia).
  replace ((y + 400 * q) mod 400) with (y mod 400)
    by (rewrite <- (Z.mod_add y q 400) by lia; f_equal; lia).
  reflexivity.
Qed.

Lemma ymd2ord_cycle y m d q :
  _ymd2ord (y + 400 * q) m d = _ymd2ord y m d + 146097 * q.
Proof.
  unfold _ymd2ord, _days_before_month, _days_before_year. rewrite is_leap_cycle.
  cbv zeta.
  replace ((y + 400 * q - 1) / 4) with ((y - 1) / 4 + 100 * q)
    by (rewrite <- Z.div_add by lia; f_equal; lia).
  replace ((y + 400 * q - 1) / 100) with ((y - 1) / 100 + 4 * q)
    by (rewrite <- Z.div_add by lia; f_equal; lia).
  replace ((y + 400 * q - 1) / 400) with ((y - 1) / 400 + q)
    by (rewrite <- Z.div_add by lia; f_equal; lia).
  lia.
Qed.

(** [_ymd2ord] undoes [_ord2ymd], for every day; the year is in
    [MINYEAR..MAXYEAR] exactly for the ordinals 1 to 3652059. *)
Lemma ord_round_trip n :
  exists y m d,
    _ord2ymd n = (y, m, d) /\ _ymd2ord y m d = n
    /\ (1 <= y <= 9999 <-> 1 <= n <= 3652059).
Proof.
  rewrite ord2ymd_cycle.
  destruct (cycle_day ((n - 1) mod 146097)) as (y & m & d & Hymd & Hord & Hy & Hy399).
  { apply Z.mod_pos_bound. lia. }
  rewrite Hymd. exists (y + 400 * ((n - 1) / 146097)), m, d.
  split; [reflexivity |]. split.
  - rewrite ymd2ord_cycle, Hord.
    pose proof (Z.div_mod (n - 1) 146097). lia.
  - pose proof (Z.div_mod (n - 1) 146097).
    pose proof (Z.mod_pos_bound (n - 1) 146097).
    lia.
Qed.

(** Rounding half to even leaves an integer as it is, and stays between
    integer bounds. *)
Lemma round_half_even_exact (x : Q) (k : Z) :
  (x == inject_Z k)%Q -> round_half_even x = k.
Proof.
  unfold Qeq, inject_Z. cbn [Qnum Qden]. intros H.
  unfold round_half_even. cbv zeta.
  replace (Qnum x) with (k * Z.pos (Qden x)) by lia.
  rewrite Z.div_mul, Z.mod_mul by lia.
  replace (2 * 0 <? Z.pos (Qden x)) with true by (symmetry; apply Z.ltb_lt; lia).
  reflexivity.
Qed.

Lemma round_half_even_range (x : Q) (a b : Z) :
  (inject_Z a <= x)%Q -> (x <= inject_Z b)%Q -> a <= round_half_even x <= b.
Proof.
  unfold Qle, inject_Z. cbn [Qnum Qden]. intros Ha Hb.
  unfold round_half_even. cbv zeta.
  pose proof (Z.div_mod (Qnum x) (Z.pos (Qden x)) ltac:(lia)) as Hdiv.
  pose proof (Z.mod_pos_bound (Qnum x) (Z.pos (Qden x)) ltac:(lia)) as Hmod.
  set (n := Qnum x) in *. set (d := Z.pos (Qden x)) in *.
  set (fl := n / d) in *. set (r := n mod d) in *. clearbody fl r.
  assert (Hd : 0 < d) by (unfold d; lia).
  assert (Hfl : a <= fl) by nia.
  assert (Hfl' : fl <= b) by nia.
  assert (Hup : 0 < r -> fl + 1 <= b) by nia.
  destruct (2 * r <? d) eqn:Hlow; [lia |]. apply Z.ltb_ge in Hlow.
  destruct (d <? 2 * r); [lia |]. destruct (Z.even fl); lia.
Qed.

(** [2 ^ e <= n / d] at the exponent. *)
Lemma exponent_reached (n : Z) (d : positive) :
  0 < n -> reaches_pow2 n d (exponent n d) = true.
Proof.
  intros Hn. unfold exponent. cbv zeta.
  destruct (reaches_pow2 n d (Z.log2 n - Z.log2 (Z.pos d))) eqn:H0; [exact H0 |].
  clear H0.
  destruct (Z.log2_spec n Hn) as [Hn1 Hn2].
  destruct (Z.log2_spec (Z.pos d) ltac:(lia)) as [Hd1 Hd2].
  pose proof (Z.log2_nonneg n) as Hln. pose proof (Z.log2_nonneg (Z.pos d)) as Hld.
  set (ln := Z.log2 n) in *. set (ld := Z.log2 (Z.pos d)) in *. clearbody ln ld.
  unfold reaches_pow2.
  destruct (ln - ld - 1 <? 0) eqn:Hneg.
  - apply Z.ltb_lt in Hneg. apply Z.leb_le.
    replace (- (ln - ld - 1)) with (ld + 1 - ln) by lia.
    assert (Hp : 2 ^ Z.succ ld = 2 ^ ln * 2 ^ (ld + 1 - ln)).
    { rewrite <- Z.pow_add_r by lia. f_equal. lia. }
    assert (0 < 2 ^ (ld + 1 - ln)) by (apply Z.pow_pos_nonneg; lia).
    nia.
  - apply Z.ltb_ge in Hneg. apply Z.leb_le.
    assert (Hp : 2 ^ ln = 2 ^ Z.succ ld * 2 ^ (ln - ld - 1)).
    { rewrite <- Z.pow_add_r by lia. f_equal. lia. }
    assert (0 < 2 ^ (ln - ld - 1)) by (apply Z.pow_pos_nonneg; lia).
    nia.
Qed.

(** A number below [2 ^ k] has an exponent below [k]. *)
Lemma exponent_below (n : Z) (d : positive) (k : Z) :
  0 < n -> 0 <= k -> n < 2 ^ k * Z.pos d -> exponent n d < k.
Proof.
  intros Hn Hk Hlt.
  pose proof (exponent_reached n d Hn) as H. unfold reaches_pow2 in H.
  set (e := exponent n d) in *. clearbody e.
  destruct (Z_lt_le_dec e k) as [|Hge]; [assumption | exfalso].
  destruct (e <? 0) eqn:Hneg; [apply Z.ltb_lt in Hneg; lia |].
  apply Z.leb_le in H.
  assert (2 ^ k <= 2 ^ e) by (apply Z.pow_le_mono_r; lia).
  nia.
Qed.

(** An integer below [2 ^ 53] in magnitude is a binary64. *)
Lemma round_binary64_int (q : Q) (T : Z) :
  (q == inject_Z T)%Q -> Z.abs T < 2 ^ 53 -> (round_binary64 q == inject_Z T)%Q.
Proof.
  intros Hq HT. unfold round_binary64.
  assert (Hn : Qnum q = T * Z.pos (Qden q)).
  { revert Hq. unfold Qeq, inject_Z. cbn [Qnum Qden]. lia. }
  destruct (Qnum q =? 0) eqn:Hzero.
  - apply Z.eqb_eq in Hzero. assert (T = 0) by nia. subst T. reflexivity.
  - apply Z.eqb_neq in Hzero. cbv zeta.
    assert (HT0 : T <> 0) by (intros ->; lia).
    assert (Ha : Z.abs (Qnum q) = Z.abs T * Z.pos (Qden q))
      by (rewrite Hn, Z.abs_mul; f_equal; lia).
    assert (Hsgn : Z.sgn (Qnum q) = Z.sgn T)
      by (rewrite Hn, Z.sgn_mul; change (Z.sgn (Z.pos (Qden q))) with 1; lia).
    rewrite Hsgn.
    pose proof (exponent_below (Z.abs (Qnum q)) (Qden q) 53 ltac:(lia) ltac:(lia)
                  ltac:(rewrite Ha; nia)) as He.
    set (e := exponent (Z.abs (Qnum q)) (Qden q)) in *. clearbody e.
    set (p := Z.max (e - 52) (-1074)).
    assert (Hp : p <= 0) by (unfold p; lia).
    assert (Hround : round_half_even (scaled (Z.abs (Qnum q)) (Qden q) p)
                     = Z.abs T * 2 ^ (- p)).
    { apply round_half_even_exact. unfold scaled.
      destruct (p <? 0) eqn:Hneg.
      - unfold Qeq, inject_Z. cbn [Qnum Qden]. rewrite Ha. lia.
      - apply Z.ltb_ge in Hneg. assert (p = 0) by lia.
        replace p with 0 by lia. unfold Qeq, inject_Z. cbn [Qnum Qden].
        rewrite Ha. change (Z.to_pos (2 ^ 0)) with 1%positive.
        rewrite Pos.mul_1_r. change (2 ^ (- 0)) with 1. lia. }
    rewrite Hround. unfold unscaled.
    assert (Hpow : 0 < 2 ^ (- p)) by (apply Z.pow_pos_nonneg; lia).
    destruct (p <? 0) eqn:Hneg.
    + unfold Qeq, inject_Z. cbn [Qnum Qden]. rewrite Z2Pos.id by lia.
      replace (Z.sgn T * (Z.abs T * 2 ^ (- p))) with (Z.abs T * Z.sgn T * 2 ^ (- p)) by ring.
      rewrite Z.abs_sgn. ring.
    + apply Z.ltb_ge in Hneg. assert (Hp0 : p = 0) by lia. rewrite Hp0.
      change (2 ^ (- 0)) with 1. change (2 ^ 0) with 1.
      unfold Qeq, inject_Z. cbn [Qnum Qden].
      replace (Z.sgn T * (Z.abs T * 1) * 1 * 1) with (Z.abs T * Z.sgn T) by ring.
      rewrite Z.abs_sgn. ring.
Qed.

(** Rounding to a binary64 does not pass an integer below [2 ^ 53]. *)
Lemma round_binary64_bound (x : Q) (K : Z) :
  0 <= K < 2 ^ 53 ->
  (inject_Z (- K) <= x)%Q -> (x <= inject_Z K)%Q ->
  (inject_Z (- K) <= round_binary64 x)%Q /\ (round_binary64 x <= inject_Z K)%Q.
Proof.
  intros HK Hlow Hhigh. unfold round_binary64.
  destruct (Qnum x =? 0) eqn:Hzero.
  - unfold Qle, inject_Z. cbn [Qnum Qden]. lia.
  - apply Z.eqb_neq in Hzero. cbv zeta.
    assert (Ha : Z.abs (Qnum x) <= K * Z.pos (Qden x)).
    { revert Hlow Hhigh. unfold Qle, inject_Z. cbn [Qnum Qden]. lia. }
    pose proof (exponent_below (Z.abs (Qnum x)) (Qden x) 53 ltac:(lia) ltac:(lia)
                  ltac:(nia)) as He.
    set (e := exponent (Z.abs (Qnum x)) (Qden x)) in *. clearbody e.
    set (p := Z.max (e - 52) (-1074)).
    assert (Hp : p <= 0) by (unfold p; lia).
    assert (Hpow : 0 < 2 ^ (- p)) by (apply Z.pow_pos_nonneg; lia).
    assert (Hm : 0 <= round_half_even (scaled (Z.abs (Qnum x)) (Qden x) p)
                 <= K * 2 ^ (- p)).
    { apply round_half_even_range; unfold scaled; destruct (p <? 0) eqn:Hneg;
        unfold Qle, inject_Z; cbn [Qnum Qden];
        try (apply Z.ltb_ge in Hneg; assert (Hp0 : p = 0) by lia; rewrite Hp0;
             change (2 ^ (- 0)) with 1; change (Z.to_pos (2 ^ 0)) with 1%positive;
             rewrite ?Pos.mul_1_r);
        nia. }
    set (m := round_half_even (scaled (Z.abs (Qnum x)) (Qden x) p)) in *. clearbody m.
    assert (Hs : - (K * 2 ^ (- p)) <= Z.sgn (Qnum x) * m <= K * 2 ^ (- p)).
    { destruct (Z.sgn_spec (Qnum x)) as [[? ->] | [[? ->] | [? ->]]]; lia. }
    unfold unscaled. destruct (p <? 0) eqn:Hneg.
    + unfold Qle, inject_Z. cbn [Qnum Qden]. rewrite Z2Pos.id by lia. lia.
    + apply Z.ltb_ge in Hneg. assert (Hp0 : p = 0) by lia. rewrite Hp0 in *.
      change (2 ^ (- 0)) with 1 in Hs. change (2 ^ 0) with 1.
      unfold Qle, inject_Z. cbn [Qnum Qden]. lia.
Qed.

(** The fractional part is less than 1 in magnitude, and the integral part
    the number without it. *)
Lemma modf_spec (d : Q) :
  let '(floatpart, intpart) := modf d in
  Z.abs (Qnum floatpart) < Z.pos (Qden floatpart)
  /\ Qnum d = intpart * Z.pos (Qden d) + Qnum floatpart
  /\ Qden floatpart = Qden d.
Proof.
  unfold modf. cbv zeta. unfold Qminus, Qplus, Qopp, inject_Z. cbn [Qnum Qden].
  rewrite Pos.mul_1_r.
  pose proof (Z.quot_rem' (Qnum d) (Z.pos (Qden d))) as Hqr.
  pose proof (Z.rem_bound_abs (Qnum d) (Z.pos (Qden d)) ltac:(lia)) as Hrem.
  set (i := Qnum d ÷ Z.pos (Qden d)) in *.
  set (r := Z.rem (Qnum d) (Z.pos (Qden d))) in *. clearbody i r.
  repeat split; lia.
Qed.

(** The microseconds [fromtimestamp] reads are those of a second. *)
Lemma timeval_microseconds (timestamp : PyVal) (timet us : Z) :
  _PyTime_ObjectToTimeval timestamp = Returned (timet, us) -> 0 <= us < 1000000.
Proof.
  destruct timestamp as [| b | z | [d | neg |] | s | l | d | d]; cbn [_PyTime_ObjectToTimeval];
    try discriminate.
  - intros H. injection H as _ <-. lia.
  - destruct (_ && _); [| discriminate]. intros H. injection H as _ <-. lia.
  - unfold _PyTime_DoubleToDenominator.
    pose proof (modf_spec d) as Hmodf.
    destruct (modf d) as [floatpart intpart]. destruct Hmodf as (Hfrac & _ & _).
    destruct (round_binary64_bound (floatpart * 1000000) 1000000 ltac:(lia)) as [Hlow Hhigh].
    { unfold Qle, inject_Z. cbn [Qnum Qden Qmult]. lia. }
    { unfold Qle, inject_Z. cbn [Qnum Qden Qmult]. lia. }
    pose proof (round_half_even_range _ _ _ Hlow Hhigh) as Hus.
    set (rounded := round_half_even (round_binary64 (floatpart * 1000000))) in *.
    clearbody rounded. cbv zeta.
    destruct (1000000 <=? rounded) eqn:Hup;
      [apply Z.leb_le in Hup | apply Z.leb_gt in Hup;
       destruct (rounded <? 0) eqn:Hdown;
         [apply Z.ltb_lt in Hdown | apply Z.ltb_ge in Hdown] ];
      (destruct (_ && _); [| discriminate]); intros H; injection H as _ <-; lia.
Qed.

(** A float that is a whole number is read as the integer it is. *)
Lemma timeval_whole (d : Q) (T : Z) :
  (d == inject_Z T)%Q ->
  _PyTime_ObjectToTimeval (PyFloat (Finite d))
  = if (_TIME_T_MIN <=? T) && (T <=? _TIME_T_MAX + 1) then Returned (T, 0)
    else Raised OverflowError.
Proof.
  intros Hd. cbn [_PyTime_ObjectToTimeval]. unfold _PyTime_DoubleToDenominator, modf.
  assert (Hn : Qnum d = T * Z.pos (Qden d)).
  { revert Hd. unfold Qeq, inject_Z. cbn [Qnum Qden]. lia. }
  assert (Hquot : Qnum d ÷ Z.pos (Qden d) = T) by (rewrite Hn; apply Z.quot_mul; lia).
  rewrite Hquot.
  assert (Hfrac : round_binary64 ((d - inject_Z T) * 1000000) = 0%Q).
  { unfold round_binary64.
    replace (Qnum ((d - inject_Z T) * 1000000)) with 0; [reflexivity |].
    unfold Qminus, Qplus, Qopp, Qmult, inject_Z. cbn [Qnum Qden]. lia. }
  rewrite Hfrac. reflexivity.
Qed.

Lemma civil_utc (T : Z) :
  civil (T * 1000000 + 0) 0 (Some utc) =
    let '(y, m, d) := _ord2ymd (T / 86400 + _EPOCH_ORD) in
    {| year := y; month := m; day := d;
       hour := T mod 86400 / 3600;
       minute := (T mod 86400) mod 3600 / 60;
       second := (T mod 86400) mod 60;
       microsecond := 0;
       tzinfo := Some utc |}.
Proof.
  unfold civil. replace (T * 1000000 + 0 + 0 * 1000000) with (T * 1000000) by lia.
  rewrite Z.div_mul, Z.mod_mul by lia. reflexivity.
Qed.

(** The converter on an integer timestamp, with UTC: within the range of
    [datetime] it returns an aware datetime whose [timestamp()] is the integer
    it was given; outside it raises: [ValueError] where [gmtime] still has a
    year, [OSError] beyond, [OverflowError] beyond [time_t]. *)
Lemma dt_from_timestamp_utc (T : Z) :
  (MIN_TIMESTAMP <= T <= MAX_TIMESTAMP ->
   exists d q,
     dt_from_timestamp (PyInt T) (TzSome utc) = Returned d
     /\ tzinfo d = Some utc
     /\ timestamp d = Some q
     /\ (q == inject_Z T)%Q)
  /\ (~ MIN_TIMESTAMP <= T <= MAX_TIMESTAMP ->
      dt_from_timestamp (PyInt T) (TzSome utc) = Raised (out_of_range_error T)).
Proof.
  unfold dt_from_timestamp, fromtimestamp, out_of_range_error, MIN_TIMESTAMP, MAX_TIMESTAMP.
  cbn [_PyTime_ObjectToTimeval].
  unfold _TIME_T_MIN, _TIME_T_MAX, _GMTIME_MIN, _GMTIME_MAX.
  split.
  - intros HT.
    replace ((-9223372036854775808 <=? T) && (T <=? 9223372036854775807)) with true
      by (symmetry; apply andb_true_intro; split; apply Z.leb_le; lia).
    replace ((-67768040609740800 <=? T) && (T <=? 67768036191676799)) with true
      by (symmetry; apply andb_true_intro; split; apply Z.leb_le; lia).
    cbv zeta. cbn [utcoffset utc]. fold utc. rewrite civil_utc.
    destruct (ord_round_trip (T / 86400 + _EPOCH_ORD))
      as (y & m & d & Hymd & Hord & Hrange).
    rewrite Hymd. unfold in_year_range, MINYEAR, MAXYEAR. cbn [year].
    unfold _EPOCH_ORD in *.
    pose proof (Z.div_mod T 86400). pose proof (Z.mod_pos_bound T 86400).
    assert (Hy : 1 <= y <= 9999) by (apply Hrange; lia).
    replace ((1 <=? y) && (y <=? 9999)) with true
      by (symmetry; apply andb_true_intro; split; apply Z.leb_le; lia).
    eexists. eexists. split; [reflexivity |]. split; [reflexivity |].
    split; [reflexivity |].
    apply round_binary64_int; [| change (2 ^ 53) with 9007199254740992; lia].
    unfold toordinal. cbn [year month day hour minute second microsecond utcoffset utc].
    rewrite Hord. unfold Qeq, inject_Z. cbn [Qnum Qden].
    set (rem := T mod 86400) in *. clearbody rem. clear Hrange Hymd Hord.
    unfold _EPOCH_ORD. Z.div_mod_to_equations. lia.
  - intros HT.
    destruct ((T <? -9223372036854775808) || (9223372036854775807 <? T)) eqn:Htime.
    { replace ((-9223372036854775808 <=? T) && (T <=? 9223372036854775807)) with false;
        [reflexivity |].
      symmetry. apply orb_true_iff in Htime. apply andb_false_iff.
      destruct Htime as [Hlt | Hlt]; apply Z.ltb_lt in Hlt;
        [left | right]; apply Z.leb_gt; lia. }
    apply orb_false_iff in Htime. destruct Htime as [Hlow Hhigh].
    apply Z.ltb_ge in Hlow, Hhigh.
    replace ((-9223372036854775808 <=? T) && (T <=? 9223372036854775807)) with true
      by (symmetry; apply andb_true_intro; split; apply Z.leb_le; lia).
    destruct ((T <? -67768040609740800) || (67768036191676799 <? T)) eqn:Hgm.
    { replace ((-67768040609740800 <=? T) && (T <=? 67768036191676799)) with false;
        [reflexivity |].
      symmetry. apply orb_true_iff in Hgm. apply andb_false_iff.
      destruct Hgm as [Hlt | Hlt]; apply Z.ltb_lt in Hlt;
        [left | right]; apply Z.leb_gt; lia. }
    apply orb_false_iff in Hgm. destruct Hgm as [Hlow' Hhigh'].
    apply Z.ltb_ge in Hlow', Hhigh'.
    replace ((-67768040609740800 <=? T) && (T <=? 67768036191676799)) with true
      by (symmetry; apply andb_true_intro; split; apply Z.leb_le; lia).
    cbv zeta. cbn [utcoffset utc]. fold utc. rewrite civil_utc.
    destruct (ord_round_trip (T / 86400 + _EPOCH_ORD))
      as (y & m & d & Hymd & Hord & Hrange).
    rewrite Hymd. unfold in_year_range, MINYEAR, MAXYEAR. cbn [year].
    unfold _EPOCH_ORD in *.
    pose proof (Z.div_mod T 86400). pose proof (Z.mod_pos_bound T 86400).
    replace ((1 <=? y) && (y <=? 9999)) with false; [reflexivity |].
    symmetry. apply andb_false_iff.
    destruct (Z_le_gt_dec 1 y) as [H1 | H1]; [| left; apply Z.leb_gt; lia].
    destruct (Z_le_gt_dec y 9999) as [H2 | H2]; [| right; apply Z.leb_gt; lia].
    exfalso. apply HT. assert (1 <= T / 86400 + 719163 <= 3652059) by (apply Hrange; lia).
    lia.
Qed.

End DatetimeFacts.

(** ** Deserialization *)

Module SchemaFacts.
Import Marshmallow Schemas ApiClient Datetime Utils Specs DatetimeFacts.

Lemma dict_get_app {V : Type} (items : Dict V) (a : string) (v : V) (k : string) :
  dict_get (items ++ [(a, v)])%list k =
    match dict_get items k with
    | Some x => Some x
    | None => if String.eqb a k then Some v else None
    end.
Proof.
  induction items as [| [k' x] items IH]; simpl.
  - reflexivity.
  - destruct (String.eqb k' k); [reflexivity | exact IH].
Qed.

Section Fields.
Variable deserialize : Field -> PyVal -> FieldResult.

(** Unmarshalling builds a dictionary, and keeps what is already in it. *)
Lemma unmarshal_fields_keeps fields : forall data index items errors ret errors',
  unmarshal_fields deserialize fields data index items errors = Built ret errors' ->
  exists items',
    ret = PyDict items'
    /\ forall a v, dict_get items a = Some v -> dict_get items' a = Some v.
Proof.
  induction fields as [| [attr_name field_obj] fields IH];
    intros data index items errors ret errors' H; simpl in H.
  - inversion H; subst. exists items. auto.
  - destruct (raw_value data attr_name field_obj) as [field_name [raw |]].
    + destruct (deserialize field_obj raw) as [value | messages err_data | e];
        [| | discriminate].
      * apply IH in H. destruct H as (items' & -> & Hkeep).
        exists items'. split; [reflexivity |]. intros a v Ha. apply Hkeep.
        rewrite dict_get_app, Ha. reflexivity.
      * apply IH in H. destruct H as (items' & -> & Hkeep).
        exists items'. split; [reflexivity |]. intros a v Ha. apply Hkeep.
        destruct err_data as [value |]; [| exact Ha].
        destruct (truthy value); [| exact Ha].
        rewrite dict_get_app, Ha. reflexivity.
    + eapply IH. exact H.
Qed.

(** A declared field whose raw value is present and valid is in the record
    that is built, under its attribute name. *)
Lemma unmarshal_fields_valid fields : forall data index items errors ret errors' a f raw v,
  unmarshal_fields deserialize fields data index items errors = Built ret errors' ->
  NoDup (map fst fields) ->
  In (a, f) fields ->
  snd (raw_value data a f) = Some raw ->
  deserialize f raw = Valid v ->
  dict_get items a = None ->
  exists items', ret = PyDict items' /\ dict_get items' a = Some v.
Proof.
  induction fields as [| [attr_name field_obj] fields IH];
    intros data index items errors ret errors' a f raw v H Hnodup Hin Hraw Hvalid Hfresh;
    [destruct Hin |].
  simpl in H. inversion Hnodup as [| ? ? Hnotin Hnodup']; subst.
  destruct Hin as [Heq | Hin].
  - inversion Heq; subst attr_name field_obj.
    destruct (raw_value data a f) as [field_name raw']. simpl in Hraw. subst raw'.
    rewrite Hvalid in H. apply unmarshal_fields_keeps in H.
    destruct H as (items' & -> & Hkeep). exists items'. split; [reflexivity |].
    apply Hkeep. rewrite dict_get_app, Hfresh, String.eqb_refl. reflexivity.
  - assert (Hne : String.eqb attr_name a = false).
    { apply String.eqb_neq. intros ->. apply Hnotin.
      change a with (fst (a, f)). apply in_map. exact Hin. }
    assert (Hfresh' : forall x, dict_get (items ++ [(attr_name, x)])%list a = None).
    { intros x. rewrite dict_get_app, Hfresh, Hne. reflexivity. }
    destruct (raw_value data attr_name field_obj) as [field_name [raw0 |]].
    + destruct (deserialize field_obj raw0) as [value | messages err_data | e];
        [| | discriminate].
      * eapply IH; eauto.
      * eapply IH; eauto.
        destruct err_data as [value |]; [| exact Hfresh].
        destruct (truthy value); [apply Hfresh' | exact Hfresh].
    + eapply IH; eauto.
Qed.

End Fields.

(** Loading a dictionary with a schema that is not strict: the load returns
    (with the record built and the errors found), or an exception that is
    not a [ValidationError] escapes from a field. *)
Lemma load_dict_cases (s : Schema) (data : list (string * PyVal)) :
  strict s = false ->
  (exists items errors,
      load s false (PyDict data) = Returned (PyDict items, errors)
      /\ unmarshal_fields deserialize (declared_fields s) data None [] []
         = Built (PyDict items) errors)
  \/ (exists e,
         load s false (PyDict data) = Raised e
         /\ unmarshal_fields deserialize (declared_fields s) data None [] [] = Escaped e).
Proof.
  intros Hstrict. unfold load, unmarshal, unmarshal_one. rewrite Hstrict.
  destruct (unmarshal_fields deserialize (declared_fields s) data None [] [])
    as [ret errors | e] eqn:Hrun.
  - left. destruct (unmarshal_fields_keeps _ _ _ _ _ _ _ _ Hrun) as (items & -> & _).
    exists items, errors. split; [| reflexivity]. destruct errors; reflexivity.
  - right. exists e. split; reflexivity.
Qed.

Lemma from_ts_valid (T : Z) (d : datetime) opts :
  dt_from_timestamp (PyInt T) (TzSome utc) = Returned d ->
  deserialize (Method _from_ts opts) (PyInt T) = Valid (PyDatetime d).
Proof.
  intros H. unfold Method. cbn [deserialize]. unfold Method_deserialize, _from_ts.
  rewrite H. reflexivity.
Qed.

Lemma integer_valid (T : Z) opts :
  deserialize (Integer opts) (PyInt T) = Valid (PyInt T).
Proof. reflexivity. Qed.

Lemma nodup_names (names : list string) :
  distinct names = true -> NoDup names.
Proof.
  induction names as [| x rest IH]; intros H; constructor.
  - apply andb_prop in H as [H _]. apply negb_true_iff in H.
    intros Hin. assert (existsb (String.eqb x) rest = true); [| congruence].
    apply existsb_exists. exists x. split; [exact Hin | apply String.eqb_refl].
  - apply IH. apply andb_prop in H as [_ H]. exact H.
Qed.

(** The general half of [keeps_both], from the two fields of the schema. *)
Lemma keeps_both_in_any_record (s : Schema) (key target sibling : string)
    (T : Z) (d : datetime) opts1 opts2 :
  strict s = false ->
  NoDup (map fst (declared_fields s)) ->
  In (target, Method _from_ts opts1) (declared_fields s) ->
  In (sibling, Integer opts2) (declared_fields s) ->
  (target = key /\ load_from opts1 = None \/ load_from opts1 = Some key) ->
  load_from opts2 = Some key ->
  dt_from_timestamp (PyInt T) (TzSome utc) = Returned d ->
  forall data,
    dict_get data key = Some (PyInt T) ->
    target = key \/ dict_get data target = None ->
    dict_get data sibling = None ->
    match _deserialize_with_schema {| name := s; many := false |} (PyDict data) with
    | Returned (PyDict record) =>
        dict_get record target = Some (PyDatetime d)
        /\ dict_get record sibling = Some (PyInt T)
    | Returned _ => False
    | Raised _ => True
    end.
Proof.
  intros Hstrict Hnodup Hin1 Hin2 Hfrom1 Hfrom2 Hd data Hkey Htarget Hsibling.
  unfold _deserialize_with_schema. cbn [name many].
  destruct (load_dict_cases s data Hstrict)
    as [(items & errors & -> & Hrun) | (e & -> & _)];
    [| destruct e; exact I].
  cbn [fst].
  assert (Hraw1 : snd (raw_value data target (Method _from_ts opts1)) = Some (PyInt T)).
  { unfold raw_value. cbn [opts_of Method].
    destruct Htarget as [-> | Hnone].
    - rewrite Hkey. reflexivity.
    - rewrite Hnone. destruct Hfrom1 as [[-> _] | ->].
      + rewrite Hkey in Hnone. discriminate.
      + exact Hkey. }
  assert (Hraw2 : snd (raw_value data sibling (Integer opts2)) = Some (PyInt T)).
  { unfold raw_value. cbn [opts_of Integer]. rewrite Hsibling, Hfrom2. exact Hkey. }
  destruct (unmarshal_fields_valid deserialize _ _ _ _ _ _ _ _ _ _ _ Hrun Hnodup Hin1 Hraw1
              (from_ts_valid T d opts1 Hd) eq_refl) as (items1 & Heq1 & Hget1).
  destruct (unmarshal_fields_valid deserialize _ _ _ _ _ _ _ _ _ _ _ Hrun Hnodup Hin2 Hraw2
              (integer_valid T opts2) eq_refl) as (items2 & Heq2 & Hget2).
  inversion Heq1; subst items1. inversion Heq2; subst items2. auto.
Qed.

Lemma keeps_both_everywhere (T : Z) (d : datetime) :
  dt_from_timestamp (PyInt T) (TzSome utc) = Returned d ->
  Forall (keeps_both T d) timestamp_fields.
Proof.
  intros Hd.
  assert (Hts : _from_ts (PyInt T) = Returned (PyDatetime d))
    by (unfold _from_ts; rewrite Hd; reflexivity).
  unfold timestamp_fields.
  repeat (apply Forall_cons; [| try apply Forall_nil]); unfold keeps_both;
    (split;
     [ unfold _deserialize_with_schema, load, unmarshal, unmarshal_one;
       cbn -[_from_ts]; unfold Method_deserialize; rewrite Hts; reflexivity
     | eapply keeps_both_in_any_record;
       [ reflexivity
       | apply nodup_names; reflexivity
       | cbn; auto 20
       | cbn; auto 20
       | cbn; auto
       | reflexivity
       | exact Hd ] ]).
Qed.

(** C7, as the code has it: for every integer timestamp [T] that
    [datetime] has a date for, from 0001-01-01T00:00:00Z
    ([MIN_TIMESTAMP]) to 9999-12-31T23:59:59Z ([MAX_TIMESTAMP]), the
    converter returns a datetime in UTC whose [timestamp()] is [T], and each
    field converted by it ([dt_value], [sunrise], [sunset]) comes with a
    sibling field that holds the raw integer read from the same key, in any
    record made from a mapping that has no key named after the two fields.
    For every other integer the converter raises: [ValueError] within the
    range of [gmtime], [OSError] beyond it, [OverflowError] beyond
    [time_t]. *)
Theorem timestamp_round_trip_in_range :
  forall T : Z,
    (MIN_TIMESTAMP <= T <= MAX_TIMESTAMP ->
     exists d q,
       dt_from_timestamp (PyInt T) (TzSome utc) = Returned d
       /\ tzinfo d = Some utc
       /\ timestamp d = Some q
       /\ (q == inject_Z T)%Q
       /\ Forall (keeps_both T d) timestamp_fields)
    /\ (~ MIN_TIMESTAMP <= T <= MAX_TIMESTAMP ->
        dt_from_timestamp (PyInt T) (TzSome utc) = Raised (out_of_range_error T)
        /\ (out_of_range_error T = ValueError
            \/ out_of_range_error T = OSError
            \/ out_of_range_error T = OverflowError)).
Proof.
  intros T. destruct (dt_from_timestamp_utc T) as [Hin Hout]. split.
  - intros HT. destruct (Hin HT) as (d & q & Hd & Htz & Hq & Heq).
    exists d, q. repeat split; try assumption.
    apply keeps_both_everywhere. exact Hd.
  - intros HT. split; [exact (Hout HT) |].
    unfold out_of_range_error. destruct (_ || _); [auto |]. destruct (_ || _); auto.
Qed.

(** The claim as it was stated, for every integer and every mapping, fails
    twice.  One second after the last instant of year 9999 the converter
    raises and returns no datetime.  And a key of the raw mapping named
    after a field is read before the key the field is loaded from: with a key
    [dt_timestamp] beside [dt] the record does not hold the raw integer of
    [dt]; with a key [dt_value] it does not hold the instant of [dt]. *)
Lemma timestamp_round_trip_counterexample :
  dt_from_timestamp (PyInt 253402300800) (TzSome utc) = Raised ValueError
  /\ MAX_TIMESTAMP + 1 = 253402300800
  /\ _deserialize_with_schema {| name := ForecastDataSchema; many := false |}
       (PyDict [("dt", PyInt 1500000000); ("dt_timestamp", PyInt 7)])
     = Returned
         (PyDict [("dt_value",
                   PyDatetime {| year := 2017; month := 7; day := 14;
                                 hour := 2; minute := 40; second := 0; microsecond := 0;
                                 tzinfo := Some utc |});
                  ("dt_timestamp", PyInt 7)])
  /\ _deserialize_with_schema {| name := ForecastDataSchema; many := false |}
       (PyDict [("dt", PyInt 1500000000); ("dt_value", PyInt 0)])
     = Returned
         (PyDict [("dt_value",
                   PyDatetime {| year := 1970; month := 1; day := 1;
                                 hour := 0; minute := 0; second := 0; microsecond := 0;
                                 tzinfo := Some utc |});
                  ("dt_timestamp", PyInt 1500000000)]).
Proof. repeat split. Qed.

(** The timestamp of the tests' era, 1500000000: 2017-07-14T02:40:00Z; and
    the first integer [gmtime] has no year for. *)
Lemma timestamp_round_trip_in_range_witness :
  (exists d q,
      dt_from_timestamp (PyInt 1500000000) (TzSome utc) = Returned d
      /\ d = {| year := 2017; month := 7; day := 14;
                hour := 2; minute := 40; second := 0; microsecond := 0;
                tzinfo := Some utc |}
      /\ timestamp d = Some q
      /\ (q == inject_Z 1500000000)%Q
      /\ Forall (keeps_both 1500000000 d) timestamp_fields)
  /\ dt_from_timestamp (PyInt 67768036191676800) (TzSome utc) = Raised OSError.
Proof.
  split.
  - destruct (timestamp_round_trip_in_range 1500000000) as [Hin _].
    destruct Hin as (d & q & Hd & Htz & Hq & Heq & Hboth);
      [unfold MIN_TIMESTAMP, MAX_TIMESTAMP; lia |].
    exists d, q. repeat split; try assumption.
    assert (Hrun : dt_from_timestamp (PyInt 1500000000) (TzSome utc)
                   = Returned {| year := 2017; month := 7; day := 14;
                                 hour := 2; minute := 40; second := 0; microsecond := 0;
                                 tzinfo := Some utc |}) by reflexivity.
    rewrite Hd in Hrun. injection Hrun as Hrun. exact Hrun.
  - destruct (timestamp_round_trip_in_range 67768036191676800) as [_ Hout].
    destruct Hout as [Hraised _]; [unfold MIN_TIMESTAMP, MAX_TIMESTAMP; lia |].
    exact Hraised.
Defined.

(** C6, what the code does: the schemas are not strict, so [load] returns
    the errors it collected beside the data, and
    [_deserialize_with_schema], which keeps the first component only, returns
    a record without the invalid fields and raises nothing.  Here a city
    whose [id] is no integer and whose [coord] is no mapping. *)
Theorem invalid_fields_are_dropped_silently :
  let json_data :=
    PyDict [("id", PyStr "abc"); ("name", PyStr "Paris"); ("coord", PyInt 5)] in
  strict CitySchema = false
  /\ load CitySchema false json_data
     = Returned (PyDict [("name", PyStr "Paris")],
                 [(KField "id", Messages ["Not a valid integer."]);
                  (KField "coord",
                   ErrDict [(KField "_schema", Messages ["Invalid input type."])])])
  /\ _deserialize_with_schema {| name := CitySchema; many := false |} json_data
     = Returned (PyDict [("name", PyStr "Paris")]).
Proof. repeat split. Qed.

End SchemaFacts.

(** ** Dictionaries *)

Module DictFacts.
Import Specs.

Section Dict.
Context {V : Type}.
Implicit Types (d other : Dict V) (k : string) (v : V).

Lemma dict_get_set_same d k v : dict_get (dict_set d k v) k = Some v.
Proof.
  induction d as [| [k' v'] d IH]; simpl.
  - rewrite String.eqb_refl. reflexivity.
  - destruct (String.eqb k' k) eqn:E; simpl.
    + rewrite String.eqb_refl. reflexivity.
    + rewrite E. exact IH.
Qed.

Lemma dict_get_set_other d k k' v :
  k' <> k -> dict_get (dict_set d k v) k' = dict_get d k'.
Proof.
  intros Hne. induction d as [| [k0 v0] d IH]; simpl.
  - replace (String.eqb k k') with false; [reflexivity |].
    symmetry. apply String.eqb_neq. congruence.
  - destruct (String.eqb k0 k) eqn:E; simpl.
    + apply String.eqb_eq in E. subst k0.
      replace (String.eqb k k') with false; [reflexivity |].
      symmetry. apply String.eqb_neq. congruence.
    + rewrite IH. reflexivity.
Qed.

Lemma dict_get_none d k : dict_get d k = None <-> ~ In k (map fst d).
Proof.
  induction d as [| [k' v'] d IH]; simpl.
  - tauto.
  - destruct (String.eqb k' k) eqn:E.
    + apply String.eqb_eq in E. split; [discriminate | tauto].
    + apply String.eqb_neq in E. tauto.
Qed.

Lemma dict_set_keys d k v x :
  In x (map fst (dict_set d k v)) <-> x = k \/ In x (map fst d).
Proof.
  induction d as [| [k' v'] d IH]; simpl.
  - intuition congruence.
  - destruct (String.eqb k' k) eqn:E; simpl.
    + apply String.eqb_eq in E. subst k'. intuition congruence.
    + rewrite IH. tauto.
Qed.

Lemma is_dict_set d k v : is_dict d -> is_dict (dict_set d k v).
Proof.
  unfold is_dict. induction d as [| [k' v'] d IH]; simpl; intros H.
  - constructor; [simpl; tauto | constructor].
  - inversion H as [| ? ? Hnotin Hrest]; subst.
    destruct (String.eqb k' k) eqn:E; simpl.
    + apply String.eqb_eq in E. subst k'. constructor; assumption.
    + apply String.eqb_neq in E. constructor; [| apply IH; exact Hrest].
      rewrite dict_set_keys. intuition congruence.
Qed.

Lemma is_dict_update d other : is_dict d -> is_dict (dict_update d other).
Proof.
  unfold dict_update. revert d.
  induction other as [| [k v] other IH]; intros d H; simpl; [exact H |].
  apply IH, is_dict_set, H.
Qed.

Lemma dict_remove_keys d k x :
  In x (map fst (dict_remove d k)) -> In x (map fst d).
Proof.
  induction d as [| [k' v'] d IH]; simpl; [tauto |].
  destruct (String.eqb k' k); simpl; tauto.
Qed.

Lemma is_dict_remove d k : is_dict d -> is_dict (dict_remove d k).
Proof.
  unfold is_dict. induction d as [| [k' v'] d IH]; simpl; intros H; [constructor |].
  inversion H as [| ? ? Hnotin Hrest]; subst.
  destruct (String.eqb k' k); simpl; [exact Hrest |].
  constructor; [| apply IH; exact Hrest].
  intros Hin. apply Hnotin. eapply dict_remove_keys. exact Hin.
Qed.

Lemma dict_get_remove_same d k : is_dict d -> dict_get (dict_remove d k) k = None.
Proof.
  unfold is_dict. induction d as [| [k' v'] d IH]; simpl; intros H; [reflexivity |].
  inversion H as [| ? ? Hnotin Hrest]; subst.
  destruct (String.eqb k' k) eqn:E; simpl.
  - apply String.eqb_eq in E. subst k'. apply dict_get_none. exact Hnotin.
  - rewrite E. apply IH. exact Hrest.
Qed.

Lemma dict_get_remove_other d k k' :
  k' <> k -> dict_get (dict_remove d k) k' = dict_get d k'.
Proof.
  intros Hne. induction d as [| [k0 v0] d IH]; simpl; [reflexivity |].
  destruct (String.eqb k0 k) eqn:E; simpl.
  - apply String.eqb_eq in E. subst k0.
    replace (String.eqb k k') with false; [reflexivity |].
    symmetry. apply String.eqb_neq. congruence.
  - rewrite IH. reflexivity.
Qed.

End Dict.

(** The query [_get_data] builds from the caller's parameters and the
    settings of a client made by [__init__]. *)
Lemma query_carries_settings (self : ApiClient.OpenWeatherMapClient)
    (query : option (Dict QueryValue)) (with_units : bool) :
  base_params_ok self ->
  is_dict (match query with Some d => d | None => [] end) ->
  exists query_params,
    (if negb with_units
     then option_map snd
            (dict_pop (dict_update (match query with Some d => d | None => [] end)
                         (ApiClient._base_uri_params self)) "units")
     else Some (dict_update (match query with Some d => d | None => [] end)
                  (ApiClient._base_uri_params self)))
    = Some query_params
    /\ carries_settings self query with_units
         {| params := Some query_params; stream := false |}.
Proof.
  intros Hbase Hdict. rewrite Hbase. set (d := match query with Some d => d | None => [] end) in *.
  unfold dict_update. cbn [fold_left fst snd].
  set (q := dict_set (dict_set d "appid" (QStr (ApiClient.api_key self))) "units"
              (QStr (ApiClient.units self))).
  assert (Hq : is_dict q) by (apply is_dict_set, is_dict_set, Hdict).
  assert (Hunits : dict_get q "units" = Some (QStr (ApiClient.units self)))
    by apply dict_get_set_same.
  assert (Happid : dict_get q "appid" = Some (QStr (ApiClient.api_key self))).
  { unfold q. rewrite dict_get_set_other by discriminate. apply dict_get_set_same. }
  assert (Hother : forall k, k <> "appid" -> k <> "units" -> dict_get q k = dict_get d k).
  { intros k Ha Hu. unfold q. rewrite !dict_get_set_other by assumption. reflexivity. }
  destruct with_units; cbn [negb].
  - exists q. split; [reflexivity |]. exists q. auto.
  - unfold dict_pop. rewrite Hunits. cbn [option_map snd].
    exists (dict_remove q "units"). split; [reflexivity |].
    exists (dict_remove q "units"). split; [reflexivity |].
    split; [apply is_dict_remove, Hq |].
    split; [rewrite dict_get_remove_other by discriminate; exact Happid |].
    split; [apply dict_get_remove_same, Hq |].
    intros k Ha Hu. rewrite dict_get_remove_other by assumption. auto.
Qed.

End DictFacts.

(** ** [_get]: how a call ends *)

Module CallFacts.
Import ApiClient Specs EngineFacts GetFacts Examples.

(** The tries [_get] makes and how it ends: the transport is called once per
    try with the request of the call; a value returned is a response, never
    [None]; an exception is one of the engine's. *)
Lemma get_calls :
  forall (World : Type) (requests_get : Transport World)
         (self : OpenWeatherMapClient) (uri : string) (kwargs : Kwargs) (w : World),
  exists out self' n,
    _get requests_get self uri kwargs w
    = Some (out, self', world_after requests_get uri kwargs n w)
    /\ self' = set_last_uri_call_tries (started uri kwargs self) (Z.of_nat n)
    /\ (max_retries self <= 0 -> n = O)
    /\ (1 <= max_retries self ->
        1 <= Z.of_nat n <= max_retries self
        /\ out = last_try_outcome (attempt requests_get uri kwargs n w))
    /\ match out with
       | Returned r => r <> None
       | Raised e => engine_exception e
       end.
Proof.
  intros World requests_get self uri kwargs w.
  destruct (get_runs requests_get uri kwargs self w)
    as (out & self' & n & Hget & Htries & Hself & Hle).
  exists out, self', n. split; [exact Hget |]. split; [exact Hself |].
  split; [| split].
  - intros Hmax. destruct n; [reflexivity |]. specialize (Hle ltac:(lia)). lia.
  - intros Hmax. unfold _get in Hget.
    pose proof (loop_progress requests_get uri kwargs _ _ _ _ _ _ _ Hget) as Hone.
    simpl in Hone. specialize (Hone ltac:(lia)).
    split; [split; [lia | apply Hle; lia] |].
    apply (loop_last requests_get uri kwargs _ _ _ _ _ _ _ Hget); simpl; lia.
  - unfold _get in Hget.
    apply (loop_ends requests_get uri kwargs _ _ _ _ _ _ _ _ Hget). discriminate.
Qed.

(** The engine's exceptions are among those of the facade; the one of a call
    that made a try is not [UnboundLocalError]. *)
Lemma engine_exception_facade e : engine_exception e -> facade_exception e.
Proof. destruct e as [[m | err uri] | | | | | | | | | | | | | |]; simpl; tauto. Qed.

Lemma last_try_outcome_bound result name :
  last_try_outcome result <> Raised (UnboundLocalError name).
Proof.
  unfold last_try_outcome, raise_for_status.
  destruct result as [r | [m | m | m]]; try discriminate.
  destruct (_ =? 200); [discriminate |]. destruct (_ =? 502); [discriminate |].
  destruct (_ && _); discriminate.
Qed.

(** X4: an exception of the transport that is neither a connection error
    nor a timeout is not caught: on whichever try it occurs, the first or a
    later one, the call ends there with that exception, and no further try is
    made. *)
Theorem other_transport_errors_end_the_call :
  forall (World : Type) (requests_get : Transport World)
         (self : OpenWeatherMapClient) (uri : string) (kwargs : Kwargs) (w : World)
         (j : nat) (msg : string),
    (1 <= j)%nat ->
    attempt requests_get uri kwargs j w = Fails (OtherError msg) ->
    exists out self' w',
      _get requests_get self uri kwargs w = Some (out, self', w')
      /\ last_uri_call_tries self' <= Z.of_nat j
      /\ (last_uri_call_tries self' = Z.of_nat j -> out = Raised (RequestException msg)).
Proof.
  intros World requests_get self uri kwargs w j msg Hj Hatt.
  destruct (get_runs requests_get uri kwargs self w)
    as (out & self' & n & Hget & Htries & _ & _).
  exists out, self', (world_after requests_get uri kwargs n w).
  split; [exact Hget |]. unfold _get in Hget.
  destruct (Z_le_gt_dec (Z.of_nat j) (last_uri_call_tries self')) as [Hmade | Hnot].
  - destruct (loop_other_error requests_get uri kwargs _ _ _ _ _ _ _ Hget j msg Hj
                ltac:(simpl; lia) Hatt) as [Hout Hlast].
    simpl in Hlast. split; [lia |]. intros _. exact Hout.
  - split; [lia |]. intros Heq. lia.
Qed.

(** [max_retries=3]: a timeout is retried, then the transport raises another
    exception on the second try, and the third try is not made. *)
Lemma other_transport_errors_end_the_call_witness :
  _get scripted (client 3) forecast_uri forecast_query
    [Fails (Timeout "timed out"); Fails (OtherError "too many redirects");
     Responds (answer 200)]
  = Some (Raised (RequestException "too many redirects"),
          set_last_uri_call_tries (started forecast_uri forecast_query (client 3)) 2,
          [Responds (answer 200)]).
Proof.
  destruct (other_transport_errors_end_the_call (list GetResult) scripted (client 3)
              forecast_uri forecast_query
              [Fails (Timeout "timed out"); Fails (OtherError "too many redirects");
               Responds (answer 200)] 2 "too many redirects")
    as (out & self' & w' & Hget & _ & Hlast); [lia | reflexivity |].
  assert (Hrun : _get scripted (client 3) forecast_uri forecast_query
                   [Fails (Timeout "timed out"); Fails (OtherError "too many redirects");
                    Responds (answer 200)]
                 = Some (Raised (RequestException "too many redirects"),
                         set_last_uri_call_tries
                           (started forecast_uri forecast_query (client 3)) 2,
                         [Responds (answer 200)])) by reflexivity.
  rewrite Hget in Hrun |- *. injection Hrun as _ Hself Hw.
  rewrite Hlast, Hself, Hw; [reflexivity |]. rewrite Hself. reflexivity.
Defined.

End CallFacts.

(** ** The records the schemas build *)

Module RecordFacts.
Import Marshmallow Schemas ApiClient Datetime Utils Specs DatetimeFacts SchemaFacts.

Create HintDb conversions.

(** *** What escapes from a field *)

Lemma Integer_escapes value e :
  Integer_deserialize value = Escapes e -> conversion_exception e.
Proof.
  unfold Integer_deserialize, fail, conversion_exception.
  destruct value as [| b | z | [q | neg |] | s | l | d | d]; try discriminate.
  - intros H. inversion H. auto.
  - destruct (int_of_str s); discriminate.
Qed.

Lemma Float_escapes value e :
  Float_deserialize value = Escapes e -> conversion_exception e.
Proof.
  unfold Float_deserialize, fail, conversion_exception.
  destruct value as [| b | z | f | s | l | d | d]; try discriminate.
  - destruct (_ <? _); [discriminate |]. intros H. inversion H. auto.
  - destruct (float_of_str s); discriminate.
Qed.

Lemma String_escapes value e :
  String_deserialize value = Escapes e -> conversion_exception e.
Proof. unfold String_deserialize, fail. destruct value; discriminate. Qed.

Lemma DateTime_escapes from_iso value e :
  DateTime_deserialize from_iso value = Escapes e -> conversion_exception e.
Proof.
  unfold DateTime_deserialize, fail. destruct (truthy value); [| discriminate].
  destruct value; try discriminate. destruct (from_iso s); discriminate.
Qed.

(** [dt_from_timestamp] raises [TypeError], [ValueError], [OverflowError]
    or [OSError]; with no time zone, also what the conversion to local time
    raises. *)
Lemma dt_from_timestamp_raises timestamp tz e :
  dt_from_timestamp timestamp (TzSome tz) = Raised e -> conversion_exception e.
Proof.
  unfold dt_from_timestamp, fromtimestamp, conversion_exception.
  destruct (_PyTime_ObjectToTimeval timestamp) as [[timet us] | e0] eqn:Hts.
  - cbv zeta. destruct (_ && _); [| intros H; inversion H; auto].
    destruct (in_year_range (civil _ 0 _));
      [destruct (in_year_range _) |]; intros H; inversion H; auto.
  - intros H. inversion H; subst e0.
    destruct timestamp as [| b | z | [q | neg |] | s | l | d | d];
      cbn [_PyTime_ObjectToTimeval] in Hts; try (inversion Hts; auto; fail).
    + destruct (_ && _); inversion Hts; auto.
    + unfold _PyTime_DoubleToDenominator in Hts. destruct (modf q) as [floatpart intpart].
      cbv zeta in Hts.
      destruct (1000000 <=? _); [| destruct (_ <? 0)];
        (destruct (_ && _); inversion Hts; auto).
Qed.

Lemma from_ts_escapes value e :
  Method_deserialize _from_ts value = Escapes e -> conversion_exception e.
Proof.
  unfold Method_deserialize, _from_ts.
  destruct (dt_from_timestamp value (TzSome utc)) as [d | e0] eqn:Hd; [discriminate |].
  apply dt_from_timestamp_raises in Hd.
  destruct Hd as [-> | [-> | [-> | ->]]]; intros H; inversion H; subst; unfold conversion_exception;
    auto.
Qed.

Lemma escapes_Integer opts : escapes_conversions_only (Integer opts).
Proof. exact Integer_escapes. Qed.

Lemma escapes_Float opts : escapes_conversions_only (Float opts).
Proof. exact Float_escapes. Qed.

Lemma escapes_String opts : escapes_conversions_only (String_ opts).
Proof. exact String_escapes. Qed.

Lemma escapes_DateTime from_iso opts : escapes_conversions_only (DateTime from_iso opts).
Proof. exact (DateTime_escapes from_iso). Qed.

Lemma escapes_from_ts opts : escapes_conversions_only (Method _from_ts opts).
Proof. exact from_ts_escapes. Qed.

Lemma escapes_each (fields : list (string * Field)) :
  (fix each (l : list (string * Field)) : Prop :=
     match l with
     | [] => True
     | (_, g) :: rest => escapes_conversions_only g /\ each rest
     end) fields
  <-> Forall (fun nf => escapes_conversions_only (snd nf)) fields.
Proof.
  induction fields as [| [n g] fields IH].
  - split; [constructor | exact (fun _ => I)].
  - split.
    + intros [Hg Hrest]. constructor; [exact Hg | apply IH, Hrest].
    + intros H. inversion H; subst. split; [assumption | apply IH; assumption].
Qed.

Lemma escapes_nested s opts :
  raises_conversions_only s -> escapes_conversions_only (nested s opts).
Proof. intros [_ H]. unfold nested. cbn [escapes_conversions_only]. apply escapes_each, H. Qed.

Lemma escapes_List container opts :
  escapes_conversions_only container -> escapes_conversions_only (List_ container opts).
Proof. exact (fun H => H). Qed.

#[local] Hint Resolve escapes_Integer escapes_Float escapes_String escapes_DateTime
  escapes_from_ts escapes_nested escapes_List : conversions.

Ltac conversions_only :=
  split; [reflexivity |];
  cbn [declared_fields schema derived app];
  repeat (apply Forall_cons; [cbn [snd]; auto with conversions |]);
  try apply Forall_nil.

Lemma CityCoordSchema_conversions : raises_conversions_only CityCoordSchema.
Proof. unfold CityCoordSchema. conversions_only. Qed.
#[local] Hint Resolve CityCoordSchema_conversions : conversions.

Lemma CitySchema_conversions : raises_conversions_only CitySchema.
Proof. unfold CitySchema. conversions_only. Qed.
#[local] Hint Resolve CitySchema_conversions : conversions.

Lemma MainDataSchema_conversions : raises_conversions_only MainDataSchema.
Proof. unfold MainDataSchema. conversions_only. Qed.

Lemma WindDataSchema_conversions : raises_conversions_only WindDataSchema.
Proof. unfold WindDataSchema. conversions_only. Qed.

Lemma WeatherDataSchema_conversions : raises_conversions_only WeatherDataSchema.
Proof. unfold WeatherDataSchema. conversions_only. Qed.

Lemma CloudDataSchema_conversions : raises_conversions_only CloudDataSchema.
Proof. unfold CloudDataSchema. conversions_only. Qed.

Lemma RainDataSchema_conversions : raises_conversions_only RainDataSchema.
Proof. unfold RainDataSchema. conversions_only. Qed.

Lemma SnowDataSchema_conversions : raises_conversions_only SnowDataSchema.
Proof. unfold SnowDataSchema. conversions_only. Qed.
#[local] Hint Resolve MainDataSchema_conversions WindDataSchema_conversions
  WeatherDataSchema_conversions CloudDataSchema_conversions RainDataSchema_conversions
  SnowDataSchema_conversions : conversions.

Lemma ForecastDataSchema_conversions : raises_conversions_only ForecastDataSchema.
Proof. unfold ForecastDataSchema. conversions_only. Qed.
#[local] Hint Resolve ForecastDataSchema_conversions : conversions.

Lemma ForecastSchema_conversions : raises_conversions_only ForecastSchema.
Proof. unfold ForecastSchema. conversions_only. Qed.

Lemma CurrentWeatherSysDataSchema_conversions :
  raises_conversions_only CurrentWeatherSysDataSchema.
Proof. unfold CurrentWeatherSysDataSchema. conversions_only. Qed.
#[local] Hint Resolve CurrentWeatherSysDataSchema_conversions : conversions.

Lemma CurrentWeatherSchema_conversions : raises_conversions_only CurrentWeatherSchema.
Proof. unfold CurrentWeatherSchema. conversions_only. Qed.
#[local] Hint Resolve CurrentWeatherSchema_conversions : conversions.

Lemma CurrentWeatherSearchSchema_conversions :
  raises_conversions_only CurrentWeatherSearchSchema.
Proof. unfold CurrentWeatherSearchSchema. conversions_only. Qed.

Section Iso8601.
Variable from_iso_datetime : string -> option datetime.

Lemma UVIndexSchema_conversions : raises_conversions_only (UVIndexSchema from_iso_datetime).
Proof. unfold UVIndexSchema. conversions_only. Qed.

Lemma AirPollutionLocationSchema_conversions :
  raises_conversions_only AirPollutionLocationSchema.
Proof. unfold AirPollutionLocationSchema. conversions_only. Qed.
#[local] Hint Resolve AirPollutionLocationSchema_conversions : conversions.

Lemma AirPollutionCarbonMonoxydeDataSchema_conversions :
  raises_conversions_only AirPollutionCarbonMonoxydeDataSchema.
Proof. unfold AirPollutionCarbonMonoxydeDataSchema. conversions_only. Qed.

Lemma AirPollutionSulfurDioxideDataSchema_conversions :
  raises_conversions_only AirPollutionSulfurDioxideDataSchema.
Proof. unfold AirPollutionSulfurDioxideDataSchema. conversions_only. Qed.

Lemma AirPollutionNitrogenDioxideItemDataSchema_conversions :
  raises_conversions_only AirPollutionNitrogenDioxideItemDataSchema.
Proof. unfold AirPollutionNitrogenDioxideItemDataSchema. conversions_only. Qed.
#[local] Hint Resolve AirPollutionCarbonMonoxydeDataSchema_conversions
  AirPollutionSulfurDioxideDataSchema_conversions
  AirPollutionNitrogenDioxideItemDataSchema_conversions : conversions.

Lemma AirPollutionNitrogenDioxideItemSchema_conversions :
  raises_conversions_only AirPollutionNitrogenDioxideItemSchema.
Proof. unfold AirPollutionNitrogenDioxideItemSchema. conversions_only. Qed.
#[local] Hint Resolve AirPollutionNitrogenDioxideItemSchema_conversions : conversions.

Lemma AirPollutionCarbonMonoxydeSchema_conversions :
  raises_conversions_only (AirPollutionCarbonMonoxydeSchema from_iso_datetime).
Proof.
  unfold AirPollutionCarbonMonoxydeSchema, AirPollutionBaseSchema. conversions_only.
Qed.

Lemma AirPollutionOzoneSchema_conversions :
  raises_conversions_only (AirPollutionOzoneSchema from_iso_datetime).
Proof. unfold AirPollutionOzoneSchema, AirPollutionBaseSchema. conversions_only. Qed.

Lemma AirPollutionSulfurDioxideSchema_conversions :
  raises_conversions_only (AirPollutionSulfurDioxideSchema from_iso_datetime).
Proof.
  unfold AirPollutionSulfurDioxideSchema, AirPollutionBaseSchema. conversions_only.
Qed.

Lemma AirPollutionNitrogenDioxideSchema_conversions :
  raises_conversions_only (AirPollutionNitrogenDioxideSchema from_iso_datetime).
Proof.
  unfold AirPollutionNitrogenDioxideSchema, AirPollutionBaseSchema. conversions_only.
Qed.

(** Every schema of the registry of services is such a schema. *)
Lemma registry_conversions service_name service_info :
  dict_get (_AVAILABLE_SERVICES from_iso_datetime) service_name = Some service_info ->
  raises_conversions_only (name (schema_info service_info)).
Proof.
  unfold _AVAILABLE_SERVICES. cbn [dict_get].
  repeat match goal with
         | |- context [String.eqb ?a service_name] =>
             destruct (String.eqb a service_name);
             [intros H; injection H as <-; cbn [schema_info service name];
              auto using CitySchema_conversions, ForecastSchema_conversions,
                CurrentWeatherSchema_conversions, CurrentWeatherSearchSchema_conversions,
                UVIndexSchema_conversions, AirPollutionCarbonMonoxydeSchema_conversions,
                AirPollutionOzoneSchema_conversions,
                AirPollutionSulfurDioxideSchema_conversions,
                AirPollutionNitrogenDioxideSchema_conversions |]
         end.
  discriminate.
Qed.

End Iso8601.

Section Unmarshalling.
Variable deserialize' : Field -> PyVal -> FieldResult.

(** An exception that escapes from the loop over the fields escaped from
    one of them. *)
Lemma unmarshal_fields_escaped fields : forall data index items errors e,
  unmarshal_fields deserialize' fields data index items errors = Escaped e ->
  exists a f raw, In (a, f) fields /\ deserialize' f raw = Escapes e.
Proof.
  induction fields as [| [attr_name field_obj] fields IH];
    intros data index items errors e H; simpl in H; [discriminate |].
  assert (Hrest : forall items errors,
             unmarshal_fields deserialize' fields data index items errors = Escaped e ->
             exists a f raw,
               In (a, f) ((attr_name, field_obj) :: fields) /\ deserialize' f raw = Escapes e).
  { intros items0 errors0 H0. destruct (IH _ _ _ _ _ H0) as (a & f & raw & Hin & He).
    exists a, f, raw. split; [right; exact Hin | exact He]. }
  destruct (raw_value data attr_name field_obj) as [field_name [raw |]]; [| eauto].
  destruct (deserialize' field_obj raw) as [value | messages err_data | e0] eqn:Hd; eauto.
  inversion H; subst. exists attr_name, field_obj, raw. split; [left; reflexivity | exact Hd].
Qed.

Lemma unmarshal_one_escaped fields data index errors e :
  unmarshal_one deserialize' fields data index errors = Escaped e ->
  exists a f raw, In (a, f) fields /\ deserialize' f raw = Escapes e.
Proof.
  unfold unmarshal_one. destruct data; try (destruct fields; discriminate).
  apply unmarshal_fields_escaped.
Qed.

Lemma unmarshal_items_escaped fields : forall data idx ret errors e,
  unmarshal_items deserialize' fields data idx ret errors = Escaped e ->
  exists a f raw, In (a, f) fields /\ deserialize' f raw = Escapes e.
Proof.
  induction data as [| d data IH]; intros idx ret errors e H; simpl in H; [discriminate |].
  destruct (unmarshal_one deserialize' fields d (Some idx) errors) as [r errors1 | e0] eqn:Hone.
  - eapply IH. exact H.
  - inversion H; subst. eapply unmarshal_one_escaped. exact Hone.
Qed.

Lemma unmarshal_escaped fields many data e :
  unmarshal deserialize' fields many data = Escaped e ->
  exists a f raw, In (a, f) fields /\ deserialize' f raw = Escapes e.
Proof.
  unfold unmarshal. destruct many.
  - destruct data; try discriminate. apply unmarshal_items_escaped.
  - apply unmarshal_one_escaped.
Qed.

(** An exception escapes from the loop as soon as it escapes from a field
    whose value is present. *)
Lemma unmarshal_fields_escapes fields : forall data index items errors a f raw e0,
  In (a, f) fields ->
  snd (raw_value data a f) = Some raw ->
  deserialize' f raw = Escapes e0 ->
  exists e, unmarshal_fields deserialize' fields data index items errors = Escaped e.
Proof.
  induction fields as [| [attr_name field_obj] fields IH];
    intros data index items errors a f raw e0 Hin Hraw He; [destruct Hin |].
  simpl. destruct Hin as [Heq | Hin].
  - inversion Heq; subst attr_name field_obj.
    destruct (raw_value data a f) as [field_name raw']. simpl in Hraw. subst raw'.
    rewrite He. eauto.
  - destruct (raw_value data attr_name field_obj) as [field_name [raw0 |]]; [| eauto].
    destruct (deserialize' field_obj raw0) as [value | messages err_data | e1]; eauto.
Qed.

(** Where the entries of the record come from. *)
Lemma unmarshal_fields_origin fields : forall data index items errors items' errors',
  unmarshal_fields deserialize' fields data index items errors
  = Built (PyDict items') errors' ->
  forall a v,
    dict_get items' a = Some v ->
    dict_get items a = Some v
    \/ exists f raw,
         In (a, f) fields
         /\ snd (raw_value data a f) = Some raw
         /\ (deserialize' f raw = Valid v
             \/ exists messages, deserialize' f raw = Invalid messages (Some v)).
Proof.
  induction fields as [| [attr_name field_obj] fields IH];
    intros data index items errors items' errors' H a v Hget; simpl in H.
  - inversion H; subst. left. exact Hget.
  - assert (Hrest : forall items0 errors0,
               unmarshal_fields deserialize' fields data index items0 errors0
               = Built (PyDict items') errors' ->
               dict_get items0 a = Some v
               \/ exists f raw,
                    In (a, f) ((attr_name, field_obj) :: fields)
                    /\ snd (raw_value data a f) = Some raw
                    /\ (deserialize' f raw = Valid v
                        \/ exists messages, deserialize' f raw = Invalid messages (Some v))).
    { intros items0 errors0 H0.
      destruct (IH _ _ _ _ _ _ H0 a v Hget) as [Hold | (f & raw & Hin & Hraw & Hd)];
        [left; exact Hold |].
      right. exists f, raw. split; [right; exact Hin | auto]. }
    destruct (raw_value data attr_name field_obj) as [field_name [raw |]] eqn:Hraw;
      [| exact (Hrest _ _ H)].
    assert (Hnew : forall value,
               dict_get (items ++ [(attr_name, value)])%list a = Some v ->
               (deserialize' field_obj raw = Valid value
                \/ exists messages, deserialize' field_obj raw = Invalid messages (Some value)) ->
               dict_get items a = Some v
               \/ exists f raw0,
                    In (a, f) ((attr_name, field_obj) :: fields)
                    /\ snd (raw_value data a f) = Some raw0
                    /\ (deserialize' f raw0 = Valid v
                        \/ exists messages, deserialize' f raw0 = Invalid messages (Some v))).
    { intros value Happ Hd. rewrite dict_get_app in Happ.
      destruct (dict_get items a) as [x |]; [left; exact Happ |].
      destruct (String.eqb attr_name a) eqn:E; [| discriminate].
      apply String.eqb_eq in E. subst attr_name. inversion Happ; subst value.
      right. exists field_obj, raw. split; [left; reflexivity |].
      rewrite Hraw. auto. }
    destruct (deserialize' field_obj raw) as [value | messages err_data | e0] eqn:Hd;
      [| | discriminate].
    + destruct (Hrest _ _ H) as [Hold | Hfound]; [| right; exact Hfound].
      apply (Hnew value Hold). left. reflexivity.
    + destruct (Hrest _ _ H) as [Hold | Hfound]; [| right; exact Hfound].
      destruct err_data as [value |]; [| left; exact Hold].
      destruct (truthy value); [| left; exact Hold].
      apply (Hnew value Hold). right. exists messages. reflexivity.
Qed.

(** With [many=True], a list of items gives a list with one record for each
    item, in the same order: the record built from the item. *)
Lemma unmarshal_items_each fields : forall data idx ret errors out errors',
  unmarshal_items deserialize' fields data idx ret errors = Built out errors' ->
  exists records,
    out = PyList (ret ++ records)%list
    /\ Forall2 (fun item record =>
                  exists index errors0 errors1,
                    unmarshal_one deserialize' fields item index errors0
                    = Built record errors1)
         data records.
Proof.
  induction data as [| d data IH]; intros idx ret errors out errors' H; simpl in H.
  - inversion H; subst. exists []. rewrite app_nil_r. split; [reflexivity | constructor].
  - destruct (unmarshal_one deserialize' fields d (Some idx) errors) as [r errors1 | e0] eqn:Hone;
      [| discriminate].
    destruct (IH _ _ _ _ _ H) as (records & -> & Hall).
    exists (r :: records). rewrite <- app_assoc. split; [reflexivity |].
    constructor; [| exact Hall]. eauto.
Qed.

End Unmarshalling.

Lemma deserialize_items_escaped container : forall value idx result errors e,
  deserialize_items container value idx result errors = Escapes e ->
  exists v, container v = Escapes e.
Proof.
  induction value as [| each value IH]; intros idx result errors e H; simpl in H.
  - destruct errors; discriminate.
  - destruct (container each) as [v | messages err_data | e0] eqn:Hc;
      [eapply IH; exact H | eapply IH; exact H |].
    inversion H; subst. eauto.
Qed.

Lemma deserialize_items_escapes container : forall value idx result errors item e0,
  In item value -> container item = Escapes e0 ->
  exists e, deserialize_items container value idx result errors = Escapes e.
Proof.
  induction value as [| each value IH]; intros idx result errors item e0 Hin He;
    [destruct Hin |].
  simpl. destruct Hin as [-> | Hin].
  - rewrite He. eauto.
  - destruct (container each) as [v | messages err_data | e1]; eauto.
Qed.

(** The exceptions that escape from a field are those its scalar fields let
    escape. *)
Lemma deserialize_escapes f :
  escapes_conversions_only f ->
  forall value e, deserialize f value = Escapes e -> conversion_exception e.
Proof.
  induction f as [_deserialize opts | nested opts IH | container opts IH]
    using Field_induction; intros Hf value e H.
  - cbn [escapes_conversions_only] in Hf.
    destruct value; cbn [deserialize] in H;
      first [exact (Hf _ _ H) | destruct (allow_none _); discriminate].
  - cbn [escapes_conversions_only] in Hf. apply escapes_each in Hf.
    assert (Hone : forall d,
               match unmarshal_one deserialize nested d None [] with
               | Built data [] => Valid data
               | Built data ((_ :: _) as errors) => Invalid (ErrDict errors) (Some data)
               | Escaped e => Escapes e
               end = Escapes e -> conversion_exception e).
    { intros d Hd.
      destruct (unmarshal_one deserialize nested d None []) as [data errors | e0] eqn:Hu;
        [destruct errors; discriminate |].
      inversion Hd; subst e0.
      destruct (unmarshal_one_escaped _ _ _ _ _ _ Hu) as (a & g & raw & Hin & Hg).
      rewrite Forall_forall in IH, Hf.
      exact (IH (a, g) Hin (Hf (a, g) Hin) raw e Hg). }
    destruct value; cbn [deserialize] in H;
      first [exact (Hone _ H) | destruct (allow_none _); discriminate].
  - cbn [escapes_conversions_only] in Hf.
    destruct value; cbn [deserialize] in H; try discriminate;
      try (destruct (allow_none _); discriminate).
    destruct (deserialize_items_escaped _ _ _ _ _ _ H) as (v & Hv).
    exact (IH Hf v e Hv).
Qed.

(** Loading with a schema that is not strict raises what escapes from its
    fields, and no [ValidationError]. *)
Lemma load_raises s many data e :
  raises_conversions_only s -> load s many data = Raised e -> conversion_exception e.
Proof.
  intros [Hstrict Hfields] H. unfold load in H. rewrite Hstrict in H.
  destruct (unmarshal deserialize (declared_fields s) many data) as [result errors | e0] eqn:Hu;
    [destruct errors; discriminate |].
  inversion H; subst e0.
  destruct (unmarshal_escaped _ _ _ _ _ Hu) as (a & f & raw & Hin & Hf).
  rewrite Forall_forall in Hfields.
  exact (deserialize_escapes f (Hfields (a, f) Hin) raw e Hf).
Qed.

Lemma deserialize_with_schema_raises info data e :
  raises_conversions_only (name info) ->
  _deserialize_with_schema info data = Raised e -> conversion_exception e.
Proof.
  intros Hs H. unfold _deserialize_with_schema in H.
  destruct (load (name info) (many info) data) as [result | e0] eqn:Hl; [discriminate |].
  pose proof (load_raises _ _ _ _ Hs Hl) as He0.
  destruct He0 as [-> | [-> | [-> | ->]]]; inversion H; subst; unfold conversion_exception; auto.
Qed.

(** Deserializing a JSON object with [many=False]: what is returned is the
    record the loop over the fields built. *)
Lemma deserialize_object s data record :
  _deserialize_with_schema {| name := s; many := false |} (PyDict data) = Returned record ->
  exists items errors,
    record = PyDict items
    /\ unmarshal_fields deserialize (declared_fields s) data None [] []
       = Built (PyDict items) errors.
Proof.
  unfold _deserialize_with_schema, load, unmarshal, unmarshal_one. cbn [name many].
  destruct (unmarshal_fields deserialize (declared_fields s) data None [] [])
    as [ret errors | e] eqn:Hrun.
  - destruct (unmarshal_fields_keeps _ _ _ _ _ _ _ _ Hrun) as (items & -> & _).
    intros H. exists items, errors. split; [| reflexivity].
    destruct errors; [| destruct (strict s)]; inversion H; reflexivity.
  - destruct e; discriminate.
Qed.

(** The record built does not depend on the index of the item nor on the
    errors stored before. *)
Lemma unmarshal_fields_data deserialize' fields :
  forall data index items errors ret errors' index2 errors2,
    unmarshal_fields deserialize' fields data index items errors = Built ret errors' ->
    exists errors2',
      unmarshal_fields deserialize' fields data index2 items errors2 = Built ret errors2'.
Proof.
  induction fields as [| [attr_name field_obj] fields IH];
    intros data index items errors ret errors' index2 errors2 H; simpl in H |- *.
  - inversion H; subst. eauto.
  - destruct (raw_value data attr_name field_obj) as [field_name [raw |]]; [| eauto].
    destruct (deserialize' field_obj raw) as [value | messages err_data | e]; eauto.
Qed.

Lemma unmarshal_one_data deserialize' fields data index errors ret errors' :
  unmarshal_one deserialize' fields data index errors = Built ret errors' ->
  exists errors2, unmarshal_one deserialize' fields data None [] = Built ret errors2.
Proof.
  unfold unmarshal_one.
  destruct data; try (destruct fields; intros H; inversion H; eauto; fail).
  intros H. eapply unmarshal_fields_data. exact H.
Qed.

(** X5: the record deserialized from a JSON object holds the declared
    fields that are present and valid, and nothing else.  Each entry is kept
    under the attribute name of a declared field and is what that field made
    of the value found under its key (the attribute name, or the [load_from]
    key when the attribute name is absent): a key no field declares is
    dropped, a field whose key is absent is absent, and a scalar that is not
    valid is left out.  Conversely the value of every valid declared field is
    in the record. *)
Theorem record_holds_the_valid_declared_fields :
  forall (s : Schema) (data : list (string * PyVal)) (record : PyVal),
    _deserialize_with_schema {| name := s; many := false |} (PyDict data)
    = Returned record ->
    exists items,
      record = PyDict items
      /\ (forall a v,
             dict_get items a = Some v ->
             exists f raw,
               In (a, f) (declared_fields s)
               /\ snd (raw_value data a f) = Some raw
               /\ (deserialize f raw = Valid v
                   \/ exists messages, deserialize f raw = Invalid messages (Some v)))
      /\ (NoDup (map fst (declared_fields s)) ->
          forall a f raw v,
            In (a, f) (declared_fields s) ->
            snd (raw_value data a f) = Some raw ->
            deserialize f raw = Valid v ->
            dict_get items a = Some v).
Proof.
  intros s data record H.
  destruct (deserialize_object s data record H) as (items & errors & -> & Hrun).
  exists items. split; [reflexivity |]. split.
  - intros a v Hget.
    destruct (unmarshal_fields_origin _ _ _ _ _ _ _ _ Hrun a v Hget) as [Hold | Hnew];
      [discriminate | exact Hnew].
  - intros Hnodup a f raw v Hin Hraw Hvalid.
    destruct (unmarshal_fields_valid deserialize _ _ _ _ _ _ _ _ _ _ _ Hrun Hnodup Hin
                Hraw Hvalid eq_refl) as (items' & Heq & Hget).
    inversion Heq; subst items'. exact Hget.
Qed.

(** The coordinates of a city, with a longitude that is no number and a key
    that is not declared: the record has the latitude only. *)
Lemma record_holds_the_valid_declared_fields_witness :
  _deserialize_with_schema {| name := CityCoordSchema; many := false |}
    (PyDict [("lat", PyInt 44); ("lon", PyStr "east"); ("zoom", PyInt 3)])
  = Returned (PyDict [("latitude", PyFloat (Finite (inject_Z 44)))])
  /\ exists items,
       PyDict [("latitude", PyFloat (Finite (inject_Z 44)))] = PyDict items
       /\ (forall a v,
              dict_get items a = Some v ->
              exists f raw,
                In (a, f) (declared_fields CityCoordSchema)
                /\ snd (raw_value [("lat", PyInt 44); ("lon", PyStr "east");
                                   ("zoom", PyInt 3)] a f) = Some raw
                /\ (deserialize f raw = Valid v
                    \/ exists messages, deserialize f raw = Invalid messages (Some v))).
Proof.
  split; [reflexivity |].
  destruct (record_holds_the_valid_declared_fields CityCoordSchema
              [("lat", PyInt 44); ("lon", PyStr "east"); ("zoom", PyInt 3)]
              (PyDict [("latitude", PyFloat (Finite (inject_Z 44)))]) eq_refl)
    as (items & Heq & Honly & _).
  exists items. split; [exact Heq | exact Honly].
Defined.

(** X6: the [date] field of the UV index schema is declared with
    [load_from='date_iso'], but the attribute name is looked up first: when
    the response has the timestamp under [date], as the provider sends it,
    that integer is what the field is given, it is no valid datetime, and
    the record has no [date], whatever [date_iso] holds and however ISO-8601
    dates are read.  The timestamp itself is kept under [dt_timestamp]. *)
Theorem uv_index_date_is_lost :
  forall (from_iso_datetime : string -> option datetime)
         (data : list (string * PyVal)) (z : Z) (record : PyVal),
    dict_get data "date" = Some (PyInt z) ->
    dict_get data "dt_timestamp" = None ->
    _deserialize_with_schema {| name := UVIndexSchema from_iso_datetime; many := false |}
      (PyDict data) = Returned record ->
    exists items,
      record = PyDict items
      /\ dict_get items "date" = None
      /\ dict_get items "dt_timestamp" = Some (PyInt z).
Proof.
  intros from_iso_datetime data z record Hdate Hts H.
  destruct (deserialize_object _ data record H) as (items & errors & -> & Hrun).
  exists items. split; [reflexivity |]. split.
  - destruct (dict_get items "date") as [v |] eqn:Hget; [| reflexivity].
    exfalso.
    destruct (unmarshal_fields_origin _ _ _ _ _ _ _ _ Hrun "date" v Hget)
      as [Hold | (f & raw & Hin & Hraw & Hd)]; [discriminate |].
    cbn [UVIndexSchema schema declared_fields] in Hin.
    repeat (destruct Hin as [Hin | Hin]; [inversion Hin; subst f; clear Hin |]);
      try destruct Hin.
    unfold raw_value in Hraw. rewrite Hdate in Hraw. cbn [snd] in Hraw.
    injection Hraw as <-.
    unfold DateTime in Hd. cbn [deserialize] in Hd. unfold DateTime_deserialize, fail in Hd.
    destruct (truthy (PyInt z)); destruct Hd as [Hd | (messages & Hd)]; discriminate.
  - destruct (unmarshal_fields_valid deserialize _ _ _ _ _ _ _ "dt_timestamp"
                (Integer (loaded_from "date")) (PyInt z) (PyInt z) Hrun)
      as (items' & Heq & Hget).
    + apply nodup_names. reflexivity.
    + cbn. auto 10.
    + unfold raw_value. rewrite Hts. cbn [opts_of Integer loaded_from load_from snd].
      exact Hdate.
    + reflexivity.
    + reflexivity.
    + inversion Heq; subst items'. exact Hget.
Qed.

(** A response as the provider sends it, with an installation that reads
    every ISO-8601 date as the epoch: the date is lost all the same. *)
Lemma uv_index_date_is_lost_witness :
  _deserialize_with_schema
    {| name := UVIndexSchema
                 (fun _ => Some {| year := 1970; month := 1; day := 1; hour := 0;
                                   minute := 0; second := 0; microsecond := 0;
                                   tzinfo := Some utc |});
       many := false |}
    (PyDict [("lat", PyFloat (Finite (3775 # 100))); ("lon", PyFloat (Finite (-12237 # 100)));
             ("date_iso", PyStr "2017-06-26T12:00:00Z"); ("date", PyInt 1498478400);
             ("value", PyFloat (Finite (1016 # 100)))])
  = Returned
      (PyDict [("latitude", PyFloat (Finite (3775 # 100)));
               ("longitude", PyFloat (Finite (-12237 # 100)));
               ("date_iso", PyStr "2017-06-26T12:00:00Z");
               ("dt_timestamp", PyInt 1498478400);
               ("value", PyFloat (Finite (1016 # 100)))])
  /\ exists items,
       PyDict [("latitude", PyFloat (Finite (3775 # 100)));
               ("longitude", PyFloat (Finite (-12237 # 100)));
               ("date_iso", PyStr "2017-06-26T12:00:00Z");
               ("dt_timestamp", PyInt 1498478400);
               ("value", PyFloat (Finite (1016 # 100)))] = PyDict items
       /\ dict_get items "date" = None
       /\ dict_get items "dt_timestamp" = Some (PyInt 1498478400).
Proof.
  split; [reflexivity |].
  apply (uv_index_date_is_lost
           (fun _ => Some {| year := 1970; month := 1; day := 1; hour := 0;
                             minute := 0; second := 0; microsecond := 0;
                             tzinfo := Some utc |})
           [("lat", PyFloat (Finite (3775 # 100))); ("lon", PyFloat (Finite (-12237 # 100)));
            ("date_iso", PyStr "2017-06-26T12:00:00Z"); ("date", PyInt 1498478400);
            ("value", PyFloat (Finite (1016 # 100)))] 1498478400);
    reflexivity.
Defined.

(** The field converted by [_from_ts] lets the exception of the converter
    escape. *)
Lemma from_ts_escapes_what_is_raised value e opts :
  value <> PyNone ->
  dt_from_timestamp value (TzSome utc) = Raised e ->
  deserialize (Method _from_ts opts) value = Escapes e.
Proof.
  intros Hvalue H.
  assert (Hm : Method_deserialize _from_ts value = Escapes e).
  { unfold Method_deserialize, _from_ts. rewrite H.
    destruct (dt_from_timestamp_raises _ _ _ H) as [-> | [-> | [-> | ->]]]; reflexivity. }
  unfold Method. destruct value; cbn [deserialize]; try exact Hm. congruence.
Qed.

(** A field from which an exception escapes fails the load. *)
Lemma load_escapes s data a f raw e0 :
  raises_conversions_only s ->
  In (a, f) (declared_fields s) ->
  snd (raw_value data a f) = Some raw ->
  deserialize f raw = Escapes e0 ->
  exists e,
    unmarshal_fields deserialize (declared_fields s) data None [] [] = Escaped e
    /\ _deserialize_with_schema {| name := s; many := false |} (PyDict data) = Raised e
    /\ conversion_exception e.
Proof.
  intros Hs Hin Hraw He0.
  destruct (unmarshal_fields_escapes deserialize _ data None [] [] _ _ _ _ Hin Hraw He0)
    as (e & Hrun).
  assert (Hload : load s false (PyDict data) = Raised e).
  { unfold load, unmarshal, unmarshal_one. rewrite Hrun. reflexivity. }
  pose proof (load_raises _ _ _ _ Hs Hload) as He.
  exists e. split; [exact Hrun |]. split; [| exact He].
  unfold _deserialize_with_schema. cbn [name many]. rewrite Hload.
  destruct He as [-> | [-> | [-> | ->]]]; reflexivity.
Qed.



(** X8: with [many=True] a list of items gives the list of their records,
    one for each item and in the same order: each is what the same schema
    gives for the item alone.  [None] gives [None], and any other value that
    is not a list gives the empty list, its error being dropped with the
    others. *)
Theorem many_gives_one_record_for_each_item :
  forall (s : Schema),
    strict s = false ->
    (forall (items : list PyVal) (out : PyVal),
        _deserialize_with_schema {| name := s; many := true |} (PyList items)
        = Returned out ->
        exists records,
          out = PyList records
          /\ Forall2 (fun item record =>
                        _deserialize_with_schema {| name := s; many := false |} item
                        = Returned record)
               items records)
    /\ _deserialize_with_schema {| name := s; many := true |} PyNone = Returned PyNone
    /\ (forall data,
           data <> PyNone -> (forall items, data <> PyList items) ->
           _deserialize_with_schema {| name := s; many := true |} data
           = Returned (PyList [])).
Proof.
  intros s Hstrict. split; [| split].
  - intros items out H.
    unfold _deserialize_with_schema, load, unmarshal in H. cbn [name many] in H.
    destruct (unmarshal_items deserialize (declared_fields s) items 0 [] [])
      as [ret errors | e] eqn:Hrun; [| destruct e; discriminate].
    destruct (unmarshal_items_each _ _ _ _ _ _ _ _ Hrun) as (records & -> & Hall).
    exists records. split.
    + rewrite Hstrict in H. destruct errors; inversion H; reflexivity.
    + clear Hrun H. induction Hall as [| item record items records Hone _ IH];
        constructor; [| exact IH].
      destruct Hone as (index & errors0 & errors1 & Hone).
      destruct (unmarshal_one_data _ _ _ _ _ _ _ Hone) as (errors2 & Hone').
      unfold _deserialize_with_schema, load, unmarshal. cbn [name many].
      rewrite Hone', Hstrict. destruct errors2; reflexivity.
  - reflexivity.
  - intros data Hnone Hlist.
    unfold _deserialize_with_schema, load, unmarshal. cbn [name many]. rewrite Hstrict.
    destruct data; try reflexivity; [congruence | exfalso; eapply Hlist; reflexivity].
Qed.

(** Two cities, one of them without a valid identifier. *)
Lemma many_gives_one_record_for_each_item_witness :
  strict CitySchema = false
  /\ _deserialize_with_schema {| name := CitySchema; many := true |}
       (PyList [PyDict [("id", PyInt 6434841); ("name", PyStr "Anglet")];
                PyDict [("id", PyStr "abc"); ("name", PyStr "Paris")]])
     = Returned (PyList [PyDict [("id", PyInt 6434841); ("name", PyStr "Anglet")];
                         PyDict [("name", PyStr "Paris")]])
  /\ _deserialize_with_schema {| name := CitySchema; many := true |} (PyInt 5)
     = Returned (PyList []).
Proof.
  split; [reflexivity |]. split; [reflexivity |].
  apply (many_gives_one_record_for_each_item CitySchema eq_refl);
    [discriminate | discriminate].
Defined.

(** A group of one field read under its own name: without that key the
    record of the group is empty. *)
Lemma group_without_its_key (field_name : string) (f : Field) (opts : FieldOpts)
    (group : list (string * PyVal)) :
  load_from (opts_of f) = None ->
  dict_get group field_name = None ->
  deserialize (Nested [(field_name, f)] opts) (PyDict group) = Valid (PyDict []).
Proof.
  intros Hfrom Hkey. cbn [deserialize unmarshal_one unmarshal_fields].
  unfold raw_value. rewrite Hkey, Hfrom. reflexivity.
Qed.

(** X9: the rain and the snow of a response.  In the current weather the
    two groups allow [None]: a null [rain] is kept as [None]; in a forecast
    item they do not, and a null [rain] is left out of the record.  In both,
    the amount is read under the name of the field, [rain_3h] or [snow_3h]:
    a group that has no such key, whatever else it holds (the key [3h], for
    one), gives an empty record. *)
Theorem rain_and_snow_are_read_under_their_own_names :
  forall (key : string) (data : list (string * PyVal)) (value record : PyVal),
    key = "rain" \/ key = "snow" ->
    dict_get data key = Some value ->
    (_deserialize_with_schema {| name := CurrentWeatherSchema; many := false |}
       (PyDict data) = Returned record ->
     exists items,
       record = PyDict items
       /\ (value = PyNone -> dict_get items key = Some PyNone)
       /\ (forall group,
              value = PyDict group -> dict_get group (key ++ "_3h") = None ->
              dict_get items key = Some (PyDict [])))
    /\ (_deserialize_with_schema {| name := ForecastDataSchema; many := false |}
          (PyDict data) = Returned record ->
        exists items,
          record = PyDict items
          /\ (value = PyNone -> dict_get items key = None)
          /\ (forall group,
                 value = PyDict group -> dict_get group (key ++ "_3h") = None ->
                 dict_get items key = Some (PyDict []))).
Proof.
  intros key data value record Hkey Hvalue.
  assert (Hfield : forall opts,
             snd (raw_value data key
                    (nested (if String.eqb key "rain" then RainDataSchema
                             else SnowDataSchema) opts)) = Some value).
  { intros opts. unfold raw_value. rewrite Hvalue. reflexivity. }
  assert (Hgroup : forall opts group,
             dict_get group (key ++ "_3h") = None ->
             deserialize (nested (if String.eqb key "rain" then RainDataSchema
                                  else SnowDataSchema) opts) (PyDict group)
             = Valid (PyDict [])).
  { intros opts group Hnone.
    destruct Hkey as [-> | ->]; cbn [String.eqb Ascii.eqb Bool.eqb];
      apply group_without_its_key; [reflexivity | exact Hnone | reflexivity | exact Hnone]. }
  split; intros H; destruct (deserialize_object _ data record H)
    as (items & errors & -> & Hrun); exists items; (split; [reflexivity |]).
  - assert (Hin : In (key, nested (if String.eqb key "rain" then RainDataSchema
                                   else SnowDataSchema) allowing_none)
                    (declared_fields CurrentWeatherSchema))
      by (destruct Hkey as [-> | ->]; cbn; auto 20).
    assert (Hget : forall v,
               deserialize (nested (if String.eqb key "rain" then RainDataSchema
                                    else SnowDataSchema) allowing_none) value = Valid v ->
               dict_get items key = Some v).
    { intros v Hv.
      destruct (unmarshal_fields_valid deserialize _ _ _ _ _ _ _ _ _ _ _ Hrun
                  ltac:(apply nodup_names; reflexivity) Hin (Hfield allowing_none) Hv
                  eq_refl) as (items' & Heq & Hget).
      inversion Heq; subst items'. exact Hget. }
    split.
    + intros ->. apply Hget. reflexivity.
    + intros group -> Hnone. apply Hget, Hgroup, Hnone.
  - assert (Hin : In (key, nested (if String.eqb key "rain" then RainDataSchema
                                   else SnowDataSchema) field_opts)
                    (declared_fields ForecastDataSchema))
      by (destruct Hkey as [-> | ->]; cbn; auto 20).
    split.
    + intros ->. destruct (dict_get items key) as [v |] eqn:Hget; [| reflexivity].
      exfalso.
      destruct (unmarshal_fields_origin _ _ _ _ _ _ _ _ Hrun key v Hget)
        as [Hold | (f & raw & Hin' & Hraw & Hd)]; [discriminate |].
      unfold raw_value in Hraw. rewrite Hvalue in Hraw. cbn [snd] in Hraw.
      injection Hraw as <-.
      assert (Hnone : allow_none (opts_of f) = false).
      { cbn [ForecastDataSchema schema declared_fields] in Hin'.
        repeat (destruct Hin' as [Hin' | Hin']; [inversion Hin'; subst; reflexivity |]).
        destruct Hin'. }
      destruct f; cbn [deserialize opts_of] in Hd, Hnone; rewrite Hnone in Hd;
        destruct Hd as [Hd | (messages & Hd)]; discriminate.
    + intros group -> Hnone.
      destruct (unmarshal_fields_valid deserialize _ _ _ _ _ _ _ _ _ _ _ Hrun
                  ltac:(apply nodup_names; reflexivity) Hin (Hfield field_opts)
                  (Hgroup field_opts group Hnone) eq_refl) as (items' & Heq & Hget).
      inversion Heq; subst items'. exact Hget.
Qed.

(** The current weather with rain as the provider names it, and a forecast
    item whose rain is null. *)
Lemma rain_and_snow_are_read_under_their_own_names_witness :
  _deserialize_with_schema {| name := CurrentWeatherSchema; many := false |}
    (PyDict [("name", PyStr "Anglet");
             ("rain", PyDict [("3h", PyFloat (Finite (5 # 10)))])])
  = Returned (PyDict [("city_name", PyStr "Anglet"); ("rain", PyDict [])])
  /\ _deserialize_with_schema {| name := ForecastDataSchema; many := false |}
       (PyDict [("dt_txt", PyStr "2017-07-14 03:00:00"); ("rain", PyNone)])
     = Returned (PyDict [("dt_txt", PyStr "2017-07-14 03:00:00")])
  /\ exists items,
       PyDict [("dt_txt", PyStr "2017-07-14 03:00:00")] = PyDict items
       /\ dict_get items "rain" = None.
Proof.
  split; [reflexivity |]. split; [reflexivity |].
  destruct (rain_and_snow_are_read_under_their_own_names "rain"
              [("dt_txt", PyStr "2017-07-14 03:00:00"); ("rain", PyNone)] PyNone
              (PyDict [("dt_txt", PyStr "2017-07-14 03:00:00")])
              (or_introl eq_refl) eq_refl) as [_ Hforecast].
  destruct (Hforecast eq_refl) as (items & Heq & Hnull & _).
  exists items. split; [exact Heq | exact (Hnull eq_refl)].
Defined.

End RecordFacts.

(** ** [_get_data]: the request and the response *)

Module RequestFacts.
Import Marshmallow ApiClient Specs EngineFacts GetFacts CallFacts FacadeFacts DictFacts.
Import Examples RecordFacts.

Lemma same_settings_refl self : same_settings self self.
Proof. repeat split. Qed.

Lemma same_settings_after self uri kwargs n :
  same_settings self (set_last_uri_call_tries (started uri kwargs self) n).
Proof. repeat split. Qed.

Lemma same_settings_base self self' :
  same_settings self self' -> base_params_ok self -> base_params_ok self'.
Proof.
  unfold base_params_ok. intros (Hkey & _ & _ & Hunits & _ & Hparams) H.
  rewrite Hparams, Hkey, Hunits. exact H.
Qed.

(** [_get_data] for a service of the registry: one request goes to the
    engine, and a response it returns is read. *)
Lemma get_data_unfold {World : Type} (requests_get : Transport World) from_iso_datetime
    self service_name extra_uri query with_units service_info query_params w :
  dict_get (_AVAILABLE_SERVICES from_iso_datetime) service_name = Some service_info ->
  built_query self query with_units = Some query_params ->
  _get_data requests_get from_iso_datetime self service_name extra_uri query with_units w
  = match _get requests_get self (request_uri self service_info extra_uri)
            {| params := Some query_params; stream := false |} w with
    | Some (Returned response, self', w') =>
        Some (read_response self' service_info response, self', w')
    | Some (Raised exc, self', w') => Some (Raised exc, self', w')
    | None => None
    end.
Proof.
  intros Hservice Hbuilt. unfold _get_data. rewrite Hservice. cbv zeta.
  unfold built_query in Hbuilt. cbv zeta in Hbuilt. rewrite Hbuilt. reflexivity.
Qed.

(** With the base parameters [__init__] sets, a query is built. *)
Lemma built_query_some self query with_units :
  base_params_ok self -> exists query_params, built_query self query with_units = Some query_params.
Proof.
  intros Hbase. unfold built_query. rewrite Hbase. cbv zeta.
  destruct with_units; cbn [negb]; [eauto |].
  unfold dict_pop, dict_update. cbn [fold_left fst snd].
  rewrite dict_get_set_same. cbn [option_map snd]. eauto.
Qed.

Lemma built_query_carries self query with_units :
  base_params_ok self ->
  is_dict (match query with Some d => d | None => [] end) ->
  exists query_params,
    built_query self query with_units = Some query_params
    /\ carries_settings self query with_units
         {| params := Some query_params; stream := false |}.
Proof. exact (query_carries_settings self query with_units). Qed.

(** What the engine does of the request of [_get_data]. *)
Lemma get_data_explicit {World : Type} (requests_get : Transport World) from_iso_datetime
    self service_name extra_uri query with_units service_info query_params w :
  dict_get (_AVAILABLE_SERVICES from_iso_datetime) service_name = Some service_info ->
  built_query self query with_units = Some query_params ->
  exists out self' n,
    _get_data requests_get from_iso_datetime self service_name extra_uri query
      with_units w
    = Some (out, self',
            world_after requests_get (request_uri self service_info extra_uri)
              {| params := Some query_params; stream := false |} n w)
    /\ self' = set_last_uri_call_tries
                 (started (request_uri self service_info extra_uri)
                    {| params := Some query_params; stream := false |} self)
                 (Z.of_nat n)
    /\ (max_retries self <= 0 -> n = O)
    /\ (1 <= max_retries self -> 1 <= Z.of_nat n <= max_retries self).
Proof.
  intros Hservice Hbuilt.
  rewrite (get_data_unfold requests_get _ _ _ _ _ _ _ _ w Hservice Hbuilt).
  destruct (get_calls World requests_get self (request_uri self service_info extra_uri)
              {| params := Some query_params; stream := false |} w)
    as (out & self' & n & Hget & Hself & Hnone & Hsome & _).
  assert (Hbounds : 1 <= max_retries self -> 1 <= Z.of_nat n <= max_retries self)
    by (intros Hmax; apply Hsome, Hmax).
  rewrite Hget. destruct out as [response | exc].
  - exists (read_response self' service_info response), self', n. auto.
  - exists (Raised exc), self', n. auto.
Qed.

(** [_get_data] always ends, and leaves the settings of the client as they
    were. *)
Lemma get_data_settings {World : Type} (requests_get : Transport World)
    from_iso_datetime self service_name extra_uri query with_units w :
  exists out self' w',
    _get_data requests_get from_iso_datetime self service_name extra_uri query
      with_units w = Some (out, self', w')
    /\ same_settings self self'.
Proof.
  destruct (dict_get (_AVAILABLE_SERVICES from_iso_datetime) service_name)
    as [service_info |] eqn:Hservice.
  - destruct (built_query self query with_units) as [query_params |] eqn:Hbuilt.
    + destruct (get_data_explicit requests_get from_iso_datetime self service_name
                  extra_uri query with_units service_info query_params w Hservice Hbuilt)
        as (out & self' & n & Hrun & Hself & _).
      rewrite Hrun. eexists. eexists. eexists. split; [reflexivity |].
      subst self'. apply same_settings_after.
    + unfold _get_data. rewrite Hservice. cbv zeta.
      unfold built_query in Hbuilt. cbv zeta in Hbuilt. rewrite Hbuilt.
      eexists. eexists. eexists. split; [reflexivity | apply same_settings_refl].
  - unfold _get_data. rewrite Hservice.
    eexists. eexists. eexists. split; [reflexivity | apply same_settings_refl].
Qed.

(** What reading a response raises. *)
Lemma read_response_raises self service_info response e :
  raises_conversions_only (name (schema_info service_info)) ->
  response <> None ->
  read_response self service_info response = Raised e ->
  facade_exception e /\ e <> UnboundLocalError "response".
Proof.
  intros Hschema Hresponse H. unfold read_response in H.
  destruct response as [response |]; [| congruence].
  assert (Hd : forall data,
             _deserialize_with_schema (schema_info service_info) data = Raised e ->
             facade_exception e /\ e <> UnboundLocalError "response").
  { intros data Hdata.
    destruct (deserialize_with_schema_raises _ _ _ Hschema Hdata) as [-> | [-> | [-> | ->]]];
      split; try exact I; discriminate. }
  destruct (body response) as [resp_data |].
  - destruct resp_data as [| b | z | f | s | l | d | d];
      try (inversion H; subst; split; [exact I | discriminate]).
    + destruct (is_infix "error" s); [| exact (Hd _ H)].
      inversion H; subst; split; [exact I | discriminate].
    + destruct (existsb is_error_text l); [| exact (Hd _ H)].
      inversion H; subst; split; [exact I | discriminate].
    + destruct (dict_get d "error"); [| exact (Hd _ H)].
      inversion H; subst; split; [exact I | discriminate].
  - inversion H; subst; split; [exact I | discriminate].
Qed.

(** What [_get_data] raises for a service of the registry. *)
Lemma get_data_raises {World : Type} (requests_get : Transport World) from_iso_datetime
    self service_name extra_uri query with_units service_info w e self' w' :
  base_params_ok self ->
  dict_get (_AVAILABLE_SERVICES from_iso_datetime) service_name = Some service_info ->
  _get_data requests_get from_iso_datetime self service_name extra_uri query with_units w
  = Some (Raised e, self', w') ->
  facade_exception e
  /\ (1 <= max_retries self -> e <> UnboundLocalError "response").
Proof.
  intros Hbase Hservice H.
  destruct (built_query_some self query with_units Hbase) as (query_params & Hbuilt).
  rewrite (get_data_unfold requests_get _ _ _ _ _ _ _ _ w Hservice Hbuilt) in H.
  destruct (get_calls World requests_get self (request_uri self service_info extra_uri)
              {| params := Some query_params; stream := false |} w)
    as (out & self1 & n & Hget & _ & _ & Hsome & Hends).
  rewrite Hget in H. destruct out as [response | exc].
  - injection H as H _ _.
    destruct (read_response_raises _ _ _ _
                (registry_conversions from_iso_datetime _ _ Hservice) Hends H).
    auto.
  - injection H as <- _ _. split; [apply engine_exception_facade, Hends |].
    intros Hmax Heq. subst exc. destruct (Hsome Hmax) as [_ Hout].
    symmetry in Hout. exact (last_try_outcome_bound _ _ Hout).
Qed.

(** The request of [_get_data], sent. *)
Lemma get_data_sends {World : Type} (requests_get : Transport World) from_iso_datetime
    self service_name extra_uri query with_units service_info query_params w :
  dict_get (_AVAILABLE_SERVICES from_iso_datetime) service_name = Some service_info ->
  built_query self query with_units = Some query_params ->
  sends requests_get (request_uri self service_info extra_uri)
    {| params := Some query_params; stream := false |} self w
    (_get_data requests_get from_iso_datetime self service_name extra_uri query
       with_units w).
Proof.
  intros Hservice Hbuilt.
  destruct (get_data_explicit requests_get from_iso_datetime self service_name
              extra_uri query with_units service_info query_params w Hservice Hbuilt)
    as (out & self' & n & Hrun & Hself & Hnone & Hsome).
  exists out, self', n. subst self'. auto.
Qed.



(** X11: a name of service that is not in the registry is refused with
    [OWMClientUnknownServiceNameError], which carries the name, before
    anything is sent or recorded; and this is the only case in which
    [_get_data] raises that exception. *)
Theorem unknown_service_is_refused :
  forall (World : Type) (requests_get : Transport World) from_iso_datetime
         (self : OpenWeatherMapClient) (service_name : string)
         (extra_uri : option string) (query : option (Dict QueryValue))
         (with_units : bool) (w : World),
    base_params_ok self ->
    (dict_get (_AVAILABLE_SERVICES from_iso_datetime) service_name = None ->
     _get_data requests_get from_iso_datetime self service_name extra_uri query
       with_units w
     = Some (Raised (OWMClientUnknownServiceNameError service_name), self, w))
    /\ (forall refused self' w',
           _get_data requests_get from_iso_datetime self service_name extra_uri query
             with_units w
           = Some (Raised (OWMClientUnknownServiceNameError refused), self', w') ->
           dict_get (_AVAILABLE_SERVICES from_iso_datetime) service_name = None
           /\ refused = service_name /\ self' = self /\ w' = w).
Proof.
  intros World requests_get from_iso_datetime self service_name extra_uri query
    with_units w Hbase.
  split.
  - intros Hnone. unfold _get_data. rewrite Hnone. reflexivity.
  - intros refused self' w' H.
    destruct (dict_get (_AVAILABLE_SERVICES from_iso_datetime) service_name)
      as [service_info |] eqn:Hservice.
    + destruct (get_data_raises requests_get from_iso_datetime self service_name
                  extra_uri query with_units service_info w _ self' w' Hbase Hservice H)
        as [[] _].
    + unfold _get_data in H. rewrite Hservice in H. inversion H; subst. auto.
Qed.

(** The name of a method is not the name of a service. *)
Lemma unknown_service_is_refused_witness :
  base_params_ok (client 5)
  /\ _get_data recording no_iso_dates (client 5) "get_forecast" None None true []
     = Some (Raised (OWMClientUnknownServiceNameError "get_forecast"), client 5, []).
Proof.
  split; [reflexivity |].
  apply (unknown_service_is_refused _ recording no_iso_dates (client 5) "get_forecast"
           None None true []); reflexivity.
Defined.



End RequestFacts.

(** ** The operations of the facade *)

Module OperationFacts.
Import Marshmallow ApiClient Specs EngineFacts GetFacts CallFacts FacadeFacts DictFacts.
Import Examples RecordFacts RequestFacts.

Lemma search_type_params_raises d search_type e :
  search_type_params d search_type = Raised e -> e = ValueError.
Proof.
  unfold search_type_params. destruct search_type as [t |]; [| discriminate].
  destruct (_ || _)%bool; [discriminate |]. intros H. inversion H. reflexivity.
Qed.

Lemma cluster_params_raises d cluster e :
  cluster_params d cluster = Raised e -> e = ValueError.
Proof.
  unfold cluster_params. destruct cluster as [c |]; [| discriminate].
  destruct (_ || _)%bool; [discriminate |]. intros H. inversion H. reflexivity.
Qed.

(** The argument checks of an operation, one after the other. *)
Ltac argument_checks :=
  cbn [perform] in *;
  unfold get_forecast_by_city_id, get_forecast_by_coord, get_forecast_by_city_name,
    get_forecast_by_zip_code, get_current_weather_by_city_id,
    get_current_weather_by_coord, get_current_weather_by_city_name,
    get_current_weather_by_zip_code, get_current_weather_within_box,
    get_current_weather_within_circle, get_current_weather_group,
    get_air_pollution_carbon_monoxyde, get_air_pollution_ozone,
    get_air_pollution_sulfur_dioxide, get_air_pollution_nitrogen_dioxide,
    get_uv_index_current, get_uv_index_forecast in *;
  cbv zeta in *.

(** X13: a client made by [__init__] has the base parameters [appid] and
    [units] of its key and units, whatever the other arguments are (no
    argument but the key is checked), and no diagnostic yet; without a key
    there is no client.  Every operation of the facade ends, returning or
    raising, and leaves all the settings of the client as they were: a client
    stays usable after any call. *)
Theorem facade_operations_keep_the_settings :
  (forall key use_ssl api_host retries unit_system,
      exists self,
        __init__ (Some key) use_ssl api_host retries unit_system = Returned self
        /\ base_params_ok self
        /\ api_key self = key /\ max_retries self = retries /\ units self = unit_system
        /\ last_uri_call self = None /\ last_uri_call_tries self = 0)
  /\ (forall use_ssl api_host retries unit_system,
         __init__ None use_ssl api_host retries unit_system
         = Raised OWMClientKeyNotDefinedError)
  /\ (forall (World : Type) (requests_get : Transport World) from_iso_datetime
             (op : Operation) (self : OpenWeatherMapClient) (h : Heap) (w : World),
         exists out h' self' w',
           perform requests_get from_iso_datetime op self h w = Some (out, h', self', w')
           /\ same_settings self self'
           /\ (base_params_ok self -> base_params_ok self')).
Proof.
  split; [| split].
  - intros key use_ssl api_host retries unit_system. eexists.
    split; [reflexivity |]. repeat split.
  - reflexivity.
  - intros World requests_get from_iso_datetime op self h w.
    assert (Hdone : forall (out : Outcome PyVal) (h' : Heap) self' (w' : World),
               same_settings self self' ->
               exists out0 h0 self0 w0,
                 Some (out, h', self', w') = Some (out0, h0, self0, w0)
                 /\ same_settings self self0
                 /\ (base_params_ok self -> base_params_ok self0)).
    { intros out h' self' w' Hsame. exists out, h', self', w'.
      split; [reflexivity |]. split; [exact Hsame | apply same_settings_base, Hsame]. }
    destruct op; argument_checks;
      repeat match goal with
             | |- context [search_type_params ?d ?t] => destruct (search_type_params d t)
             | |- context [cluster_params ?d ?c] => destruct (cluster_params d c)
             | |- context [if ?c then _ else _] => destruct c
             end;
      try (apply Hdone, same_settings_refl);
      match goal with
      | |- context [_get_data requests_get from_iso_datetime self ?n ?x ?q ?u w] =>
          destruct (get_data_settings requests_get from_iso_datetime self n x q u w)
            as (out & self' & w' & Hrun & Hsame);
          rewrite Hrun; apply Hdone, Hsame
      end.
Qed.















(** X21: the city list is not fetched as the other services are: the
    request goes to the absolute uri of the file, not to the host of the
    client, with [stream=True] and no query parameter at all, the key
    included.  The engine retries it like any request; the response it
    returns is decoded, and the decoded data is returned as it is without
    validation, or as one record per city with it. *)
Theorem city_list_is_fetched_without_the_key :
  forall (World : Type) (requests_get : Transport World) from_iso_datetime
         (gunzip_json : Response -> Outcome PyVal) (self : OpenWeatherMapClient)
         (validate_with_schema : bool) (w : World),
    let uri := "http://bulk.openweathermap.org/sample/city.list.json.gz" in
    let kwargs := {| params := None; stream := true |} in
    exists out self' n,
      get_city_list requests_get from_iso_datetime gunzip_json self validate_with_schema w
      = Some (out, self', world_after requests_get uri kwargs n w)
      /\ last_uri_call_tries self' = Z.of_nat n
      /\ last_uri_call self'
         = Some "http://bulk.openweathermap.org/sample/city.list.json.gz?"
      /\ same_settings self self'
      /\ (max_retries self <= 0 -> n = O /\ out = Raised (UnboundLocalError "response"))
      /\ (1 <= max_retries self ->
          1 <= Z.of_nat n <= max_retries self
          /\ match last_try_outcome (attempt requests_get uri kwargs n w) with
             | Raised e => out = Raised e
             | Returned None => False
             | Returned (Some r) =>
                 out = match gunzip_json r with
                       | Raised e => Raised e
                       | Returned json_data =>
                           if validate_with_schema
                           then _deserialize_with_schema
                                  {| name := Schemas.CitySchema; many := true |} json_data
                           else Returned json_data
                       end
             end).
Proof.
  intros World requests_get from_iso_datetime gunzip_json self validate_with_schema w
    uri kwargs.
  unfold get_city_list.
  change (dict_get (_AVAILABLE_SERVICES from_iso_datetime) "city_list")
    with (Some (service uri Schemas.CitySchema true "Cities' IDs list.")).
  cbn [ApiClient.uri schema_info service].
  destruct (get_calls World requests_get self uri kwargs w)
    as (out & self' & n & Hget & Hself & Hnone & Hsome & Hends).
  fold kwargs. rewrite Hget.
  assert (Hsettings : same_settings self self' /\ last_uri_call_tries self' = Z.of_nat n
                      /\ last_uri_call self'
                         = Some "http://bulk.openweathermap.org/sample/city.list.json.gz?").
  { subst self'. repeat split. }
  destruct Hsettings as (Hsame & Htries & Hlast).
  assert (Hzero : max_retries self <= 0 -> out = Raised (UnboundLocalError "response")).
  { intros Hmax. pose proof (get_without_tries World requests_get self uri kwargs w Hmax)
      as Hwithout. rewrite Hget in Hwithout. injection Hwithout as -> _ _. reflexivity. }
  assert (Hshared : forall out0,
             last_uri_call_tries self' = Z.of_nat n
             /\ last_uri_call self'
                = Some "http://bulk.openweathermap.org/sample/city.list.json.gz?"
             /\ same_settings self self'
             /\ (max_retries self <= 0 ->
                 n = O /\ out0 = Raised (UnboundLocalError "response"))
             /\ (1 <= max_retries self ->
                 1 <= Z.of_nat n <= max_retries self
                 /\ match last_try_outcome (attempt requests_get uri kwargs n w) with
                    | Raised e => out0 = Raised e
                    | Returned None => False
                    | Returned (Some r) =>
                        out0 = match gunzip_json r with
                               | Raised e => Raised e
                               | Returned json_data =>
                                   if validate_with_schema
                                   then _deserialize_with_schema
                                          {| name := Schemas.CitySchema; many := true |}
                                          json_data
                                   else Returned json_data
                               end
                    end) ->
             forall result,
               result = Some (out0, self', world_after requests_get uri kwargs n w) ->
               exists out1 self1 n1,
                 result = Some (out1, self1, world_after requests_get uri kwargs n1 w)
                 /\ last_uri_call_tries self1 = Z.of_nat n1
                 /\ last_uri_call self1
                    = Some "http://bulk.openweathermap.org/sample/city.list.json.gz?"
                 /\ same_settings self self1
                 /\ (max_retries self <= 0 ->
                     n1 = O /\ out1 = Raised (UnboundLocalError "response"))
                 /\ (1 <= max_retries self ->
                     1 <= Z.of_nat n1 <= max_retries self
                     /\ match last_try_outcome (attempt requests_get uri kwargs n1 w) with
                        | Raised e => out1 = Raised e
                        | Returned None => False
                        | Returned (Some r) =>
                            out1 = match gunzip_json r with
                                   | Raised e => Raised e
                                   | Returned json_data =>
                                       if validate_with_schema
                                       then _deserialize_with_schema
                                              {| name := Schemas.CitySchema;
                                                 many := true |} json_data
                                       else Returned json_data
                                   end
                        end)).
  { intros out0 H result ->. exists out0, self', n. split; [reflexivity | exact H]. }
  destruct out as [[response |] | exc].
  - apply (Hshared (match gunzip_json response with
                    | Raised e => Raised e
                    | Returned json_data =>
                        if validate_with_schema
                        then _deserialize_with_schema
                               {| name := Schemas.CitySchema; many := true |} json_data
                        else Returned json_data
                    end)).
    + split; [exact Htries |]. split; [exact Hlast |]. split; [exact Hsame |]. split.
      * intros Hmax. specialize (Hzero Hmax). discriminate.
      * intros Hmax. destruct (Hsome Hmax) as [Hn <-]. split; [exact Hn | reflexivity].
    + destruct (gunzip_json response); [destruct validate_with_schema |]; reflexivity.
  - exfalso. apply Hends. reflexivity.
  - apply (Hshared (Raised exc)); [| reflexivity].
    split; [exact Htries |]. split; [exact Hlast |]. split; [exact Hsame |]. split.
    + intros Hmax. split; [exact (Hnone Hmax) |].
      pose proof (Hzero Hmax) as Hz. injection Hz as ->. reflexivity.
    + intros Hmax. destruct (Hsome Hmax) as [Hn <-]. split; [exact Hn | reflexivity].
Qed.



(** Two clients with the same settings are the same once a call has set the
    two diagnostic attributes. *)
Lemma started_same_settings self1 self2 uri kwargs :
  same_settings self1 self2 -> started uri kwargs self2 = started uri kwargs self1.
Proof.
  destruct self1, self2. unfold same_settings, started. simpl.
  intros (-> & -> & -> & -> & -> & ->). reflexivity.
Qed.

Lemma get_same_settings {World : Type} (requests_get : Transport World)
    self1 self2 uri kwargs w :
  same_settings self1 self2 ->
  _get requests_get self2 uri kwargs w = _get requests_get self1 uri kwargs w.
Proof.
  intros Hsame. unfold _get. fold (started uri kwargs self1) (started uri kwargs self2).
  rewrite (started_same_settings _ _ _ _ Hsame). reflexivity.
Qed.

Lemma get_data_same_settings {World : Type} (requests_get : Transport World)
    from_iso_datetime self1 self2 service_name extra_uri query with_units w :
  same_settings self1 self2 ->
  match _get_data requests_get from_iso_datetime self1 service_name extra_uri query
          with_units w,
        _get_data requests_get from_iso_datetime self2 service_name extra_uri query
          with_units w with
  | Some (out1, self1', w1), Some (out2, self2', w2) =>
      out1 = out2 /\ w1 = w2 /\ same_settings self1' self2'
  | _, _ => False
  end.
Proof.
  intros Hsame. pose proof Hsame as (_ & _ & _ & _ & Huri & Hparams).
  unfold _get_data. rewrite Huri, Hparams.
  destruct (dict_get (_AVAILABLE_SERVICES from_iso_datetime) service_name)
    as [service_info |]; [| auto].
  cbv zeta.
  destruct (if negb with_units then _ else _) as [query_params |]; [| auto].
  rewrite (get_same_settings requests_get self1 self2 _ _ w Hsame).
  match goal with
  | |- context [_get requests_get self1 ?u ?k w] =>
      destruct (get_calls World requests_get self1 u k w)
        as (out & self' & n & Hget & _); rewrite Hget
  end.
  destruct out; repeat split.
Qed.

(** X23: a call does not depend on the calls made before it.  The two
    diagnostic attributes are set anew by every request: two clients with the
    same settings, whatever their diagnostics are, end the same operation
    with the same outcome, the same lists of the caller and the same world,
    and with the same settings. *)
Theorem calls_do_not_depend_on_earlier_ones :
  forall (World : Type) (requests_get : Transport World) from_iso_datetime
         (op : Operation) (self1 self2 : OpenWeatherMapClient) (h : Heap) (w : World),
    same_settings self1 self2 ->
    same_call (perform requests_get from_iso_datetime op self1 h w)
      (perform requests_get from_iso_datetime op self2 h w).
Proof.
  intros World requests_get from_iso_datetime op self1 self2 h w Hsame.
  unfold same_call.
  destruct op; argument_checks;
    repeat match goal with
           | |- context [search_type_params ?d ?t] => destruct (search_type_params d t)
           | |- context [cluster_params ?d ?c] => destruct (cluster_params d c)
           | |- context [if ?c then _ else _] => destruct c
           end;
    try (split; [reflexivity | split; [reflexivity | split; [reflexivity | exact Hsame]]]);
    match goal with
    | |- context [_get_data requests_get from_iso_datetime self1 ?n ?x ?q ?u w] =>
        pose proof (get_data_same_settings requests_get from_iso_datetime self1 self2
                      n x q u w Hsame) as Hdata;
        destruct (_get_data requests_get from_iso_datetime self1 n x q u w)
          as [[[out1 self1'] w1] |]; [| destruct Hdata];
        destruct (_get_data requests_get from_iso_datetime self2 n x q u w)
          as [[[out2 self2'] w2] |]; [| destruct Hdata];
        destruct Hdata as (-> & -> & Hsame');
        split; [reflexivity | split; [reflexivity | split; [reflexivity | exact Hsame']]]
    end.
Qed.

(** A client that has made a call, and one that has not. *)
Lemma calls_do_not_depend_on_earlier_ones_witness :
  same_settings (client 5)
    (set_last_uri_call_tries (started forecast_uri forecast_query (client 5)) 3)
  /\ same_call
       (perform recording no_iso_dates (UvIndexCurrent (QFloat "37.75") (QFloat "-122.37"))
          (client 5) (fun _ => []) [])
       (perform recording no_iso_dates (UvIndexCurrent (QFloat "37.75") (QFloat "-122.37"))
          (set_last_uri_call_tries (started forecast_uri forecast_query (client 5)) 3)
          (fun _ => []) []).
Proof.
  assert (Hsame : same_settings (client 5)
                    (set_last_uri_call_tries
                       (started forecast_uri forecast_query (client 5)) 3))
    by (repeat split).
  split; [exact Hsame |].
  apply calls_do_not_depend_on_earlier_ones. exact Hsame.
Defined.

End OperationFacts.

(** ** The uris *)

(*URIFACTS*)

(** ** The calendar and the conversion of timestamps *)

Module CalendarFacts.
Import Datetime Utils Specs DatetimeFacts.

(** The check of the months and days, run. *)
Lemma days_in_range_checked :
  all_from (month_day_in_range false) 365 0 = true
  /\ all_from (month_day_in_range true) 365 0 = true.
Proof. split; vm_compute; reflexivity. Qed.

Lemma day_in_range leapyear n :
  0 <= n <= 364 -> month_day_in_range leapyear n = true.
Proof.
  intros Hn. destruct days_in_range_checked as [Hf Ht].
  destruct leapyear; [apply (all_from_spec _ _ _ Ht) | apply (all_from_spec _ _ _ Hf)];
    simpl; lia.
Qed.

(** The month and the day [_ord2ymd] finds are those of a date. *)
Lemma ord2ymd_valid n :
  let '(y, m, d) := _ord2ymd n in
  1 <= m <= 12 /\ 1 <= d <= days_in_month y m.
Proof.
  rewrite ord2ymd_cycle.
  set (r := (n - 1) mod 146097).
  assert (Hr : 0 <= r < 146097) by (apply Z.mod_pos_bound; lia).
  set (q := (n - 1) / 146097). clearbody r q.
  rewrite ord2ymd_parts. replace (r + 1 - 1) with r by lia.
  rewrite (Z.mod_small r 146097), (Z.div_small r 146097) by lia. cbv zeta.
  pose proof (Z.div_mod r 36524 ltac:(lia)) as E100.
  pose proof (Z.mod_pos_bound r 36524 ltac:(lia)) as B100.
  set (n100 := r / 36524) in *. set (r1 := r mod 36524) in *.
  pose proof (Z.div_mod r1 1461 ltac:(lia)) as E4.
  pose proof (Z.mod_pos_bound r1 1461 ltac:(lia)) as B4.
  set (n4 := r1 / 1461) in *. set (r2 := r1 mod 1461) in *.
  pose proof (Z.div_mod r2 365 ltac:(lia)) as E1.
  pose proof (Z.mod_pos_bound r2 365 ltac:(lia)) as B1.
  set (n1 := r2 / 365) in *. set (doy := r2 mod 365) in *.
  clearbody n100 r1 n4 r2 n1 doy.
  destruct ((n1 =? 4) || (n100 =? 4)) eqn:Hlast.
  - unfold days_in_month. cbn [_DAYS_IN_MONTH Z.eqb Pos.eqb andb]. lia.
  - apply orb_false_elim in Hlast as [Hn1 Hn100].
    apply Z.eqb_neq in Hn1. apply Z.eqb_neq in Hn100.
    pose proof (year_checked n100 n4 n1 ltac:(lia) ltac:(lia) ltac:(lia)) as Hy.
    unfold year_ok in Hy. cbv zeta in Hy. apply andb_prop in Hy as [_ Hleap].
    apply Bool.eqb_prop in Hleap.
    set (leapyear := (n1 =? 3) && (negb (n4 =? 24) || (n100 =? 3))) in *.
    pose proof (day_in_range leapyear doy ltac:(lia)) as Hd.
    unfold month_day_in_range in Hd.
    destruct (month_day doy leapyear) as [m d].
    apply andb_prop in Hd as [Hd Hd4]. apply andb_prop in Hd as [Hd Hd3].
    apply andb_prop in Hd as [Hd1 Hd2].
    apply Z.leb_le in Hd1, Hd2, Hd3, Hd4.
    unfold days_in_month.
    replace (_is_leap (0 * 400 + 1 + n100 * 100 + n4 * 4 + n1 + 400 * q)) with leapyear.
    + lia.
    + rewrite is_leap_cycle, <- Hleap. f_equal. lia.
Qed.

(** A year has 365 days, and one more when it is a leap year. *)
Lemma days_before_next_year y :
  _days_before_year (y + 1)
  = _days_before_year y + 365 + (if _is_leap y then 1 else 0).
Proof.
  unfold _days_before_year, _is_leap. cbv zeta.
  replace (y + 1 - 1) with y by lia.
  destruct (y mod 4 =? 0) eqn:H4; destruct (y mod 100 =? 0) eqn:H100;
    destruct (y mod 400 =? 0) eqn:H400; cbn [negb orb andb];
    rewrite ?Z.eqb_eq, ?Z.eqb_neq in *;
    Z.div_mod_to_equations; lia.
Qed.

Lemma days_before_later_year y (k : nat) :
  _days_before_year y + 365 * Z.of_nat k <= _days_before_year (y + Z.of_nat k).
Proof.
  induction k as [| k IH].
  - replace (y + Z.of_nat 0) with y by lia. lia.
  - replace (y + Z.of_nat (S k)) with (y + Z.of_nat k + 1) by lia.
    rewrite days_before_next_year. destruct (_is_leap _); lia.
Qed.

(** The day of the year of a date. *)
Lemma day_of_year_bounds y m d :
  1 <= m <= 12 -> 1 <= d <= days_in_month y m ->
  1 <= _days_before_month y m + d <= 365 + (if _is_leap y then 1 else 0).
Proof.
  unfold days_in_month, _days_before_month.
  destruct (_is_leap y); intros Hm Hd;
    assert (Hcases : m = 1 \/ m = 2 \/ m = 3 \/ m = 4 \/ m = 5 \/ m = 6 \/ m = 7
                     \/ m = 8 \/ m = 9 \/ m = 10 \/ m = 11 \/ m = 12) by lia;
    repeat (destruct Hcases as [-> | Hcases]; [cbn -[Z.add] in *; lia |]);
    subst; cbn -[Z.add] in *; lia.
Qed.

(** Two dates of the same year with the same day of the year are the same
    date. *)
Lemma day_of_year_injective y m d m' d' :
  1 <= m <= 12 -> 1 <= d <= days_in_month y m ->
  1 <= m' <= 12 -> 1 <= d' <= days_in_month y m' ->
  _days_before_month y m + d = _days_before_month y m' + d' ->
  m = m' /\ d = d'.
Proof.
  unfold days_in_month, _days_before_month.
  destruct (_is_leap y); intros Hm Hd Hm' Hd' Heq;
    assert (Hcases : m = 1 \/ m = 2 \/ m = 3 \/ m = 4 \/ m = 5 \/ m = 6 \/ m = 7
                     \/ m = 8 \/ m = 9 \/ m = 10 \/ m = 11 \/ m = 12) by lia;
    assert (Hcases' : m' = 1 \/ m' = 2 \/ m' = 3 \/ m' = 4 \/ m' = 5 \/ m' = 6
                      \/ m' = 7 \/ m' = 8 \/ m' = 9 \/ m' = 10 \/ m' = 11 \/ m' = 12)
      by lia;
    repeat (destruct Hcases as [-> | Hcases]);
    try subst m;
    repeat (destruct Hcases' as [-> | Hcases']);
    try subst m'; cbn -[Z.add] in *; lia.
Qed.

(** [_ord2ymd] undoes [_ymd2ord], for every date. *)
Lemma ymd_round_trip y m d :
  1 <= m <= 12 -> 1 <= d <= days_in_month y m ->
  _ord2ymd (_ymd2ord y m d) = (y, m, d).
Proof.
  intros Hm Hd.
  destruct (ord_round_trip (_ymd2ord y m d)) as (y' & m' & d' & Hymd & Hord & _).
  pose proof (ord2ymd_valid (_ymd2ord y m d)) as Hvalid. rewrite Hymd in Hvalid.
  destruct Hvalid as [Hm' Hd'].
  pose proof (day_of_year_bounds y m d Hm Hd) as Hdoy.
  pose proof (day_of_year_bounds y' m' d' Hm' Hd') as Hdoy'.
  unfold _ymd2ord in Hord.
  assert (Hy : y' = y).
  { destruct (Z.lt_trichotomy y y') as [Hlt | [Heq | Hgt]]; [| auto |].
    - exfalso.
      pose proof (days_before_later_year (y + 1) (Z.to_nat (y' - y - 1))) as Hlater.
      rewrite Z2Nat.id in Hlater by lia.
      replace (y + 1 + (y' - y - 1)) with y' in Hlater by lia.
      rewrite days_before_next_year in Hlater. lia.
    - exfalso.
      pose proof (days_before_later_year (y' + 1) (Z.to_nat (y - y' - 1))) as Hlater.
      rewrite Z2Nat.id in Hlater by lia.
      replace (y' + 1 + (y - y' - 1)) with y in Hlater by lia.
      rewrite days_before_next_year in Hlater. lia. }
  subst y'.
  destruct (day_of_year_injective y m d m' d' Hm Hd Hm' Hd' ltac:(lia)) as [-> ->].
  exact Hymd.
Qed.

End CalendarFacts.

Module ConversionFacts.
Import Datetime Utils Specs DatetimeFacts CalendarFacts.

(** Rounding half to even moves a number by half a unit at most. *)
Lemma round_half_even_close (x : Q) :
  2 * Z.abs (round_half_even x * Z.pos (Qden x) - Qnum x) <= Z.pos (Qden x).
Proof.
  unfold round_half_even. cbv zeta.
  pose proof (Z.div_mod (Qnum x) (Z.pos (Qden x)) ltac:(lia)) as Hdiv.
  pose proof (Z.mod_pos_bound (Qnum x) (Z.pos (Qden x)) ltac:(lia)) as Hmod.
  set (n := Qnum x) in *. set (d := Z.pos (Qden x)) in *.
  set (fl := n / d) in *. set (r := n mod d) in *. clearbody fl r.
  destruct (2 * r <? d) eqn:Hlow; [apply Z.ltb_lt in Hlow; lia |].
  apply Z.ltb_ge in Hlow.
  destruct (d <? 2 * r) eqn:Hhigh; [apply Z.ltb_lt in Hhigh; lia |].
  apply Z.ltb_ge in Hhigh. destruct (Z.even fl); lia.
Qed.

(** Rounding a number below [2 ^ k] in magnitude to a binary64 moves it by
    [2 ^ (k - 54)] at most: by half a unit of the last of 53 bits. *)
Lemma round_binary64_error (x : Q) (k : Z) :
  0 <= k <= 52 ->
  Z.abs (Qnum x) < 2 ^ k * Z.pos (Qden x) ->
  (Qabs (round_binary64 x - x) <= 1 # Z.to_pos (2 ^ (54 - k)))%Q.
Proof.
  intros Hk Hx. unfold round_binary64.
  assert (HK : 0 < 2 ^ (54 - k)) by (apply Z.pow_pos_nonneg; lia).
  destruct (Qnum x =? 0) eqn:Hzero.
  - apply Z.eqb_eq in Hzero. apply Qabs_Qle_condition.
    unfold Qle, Qminus, Qplus, Qopp. cbn [Qnum Qden]. rewrite Hzero. split; lia.
  - apply Z.eqb_neq in Hzero. cbv zeta.
    pose proof (exponent_below (Z.abs (Qnum x)) (Qden x) k ltac:(lia) ltac:(lia) Hx) as He.
    set (e := exponent (Z.abs (Qnum x)) (Qden x)) in *. clearbody e.
    set (p := Z.max (e - 52) (-1074)).
    assert (Hp : p <= k - 53) by (unfold p; lia).
    pose proof (round_half_even_close (scaled (Z.abs (Qnum x)) (Qden x) p)) as Hclose.
    unfold scaled, unscaled in *.
    replace (p <? 0) with true in * by (symmetry; apply Z.ltb_lt; lia).
    cbn [Qnum Qden] in Hclose.
    set (m := round_half_even (Z.abs (Qnum x) * 2 ^ (- p) # Qden x)) in *. clearbody m.
    assert (Hpow : 2 ^ (54 - k) <= 2 * 2 ^ (- p)).
    { replace (2 * 2 ^ (- p)) with (2 ^ (1 + - p))
        by (rewrite Z.pow_add_r by lia; reflexivity).
      apply Z.pow_le_mono_r; lia. }
    assert (HP : 0 < 2 ^ (- p)) by (apply Z.pow_pos_nonneg; lia).
    set (P := 2 ^ (- p)) in *. set (K := 2 ^ (54 - k)) in *. clearbody P K.
    apply Qabs_Qle_condition.
    unfold Qle, Qminus, Qplus, Qopp. cbn [Qnum Qden].
    rewrite !Pos2Z.inj_mul, !Z2Pos.id by lia.
    set (n := Qnum x) in *. set (d := Z.pos (Qden x)) in *.
    assert (Hd : 0 < d) by (unfold d; lia). clearbody n d.
    assert (Hs : Z.abs (Z.sgn n * m * d - n * P) = Z.abs (m * d - Z.abs n * P)).
    { destruct (Z.sgn_spec n) as [[? ->] | [[? ->] | [? ->]]]; lia. }
    assert (Hb : 2 * Z.abs (Z.sgn n * m * d - n * P) <= d) by lia.
    clear Hs Hclose.
    assert (Hbound : Z.abs (Z.sgn n * m * d - n * P) * K <= P * d).
    { set (j := Z.abs (Z.sgn n * m * d - n * P)) in *.
      assert (0 <= j) by (unfold j; lia). clearbody j. nia. }
    replace (Z.sgn n * m * d + - n * P) with (Z.sgn n * m * d - n * P) by ring.
    clear Hb. set (j := Z.sgn n * m * d - n * P) in *. clearbody j.
    replace (-1 * (P * d)) with (- (P * d)) by ring. replace (1 * (P * d)) with (P * d) by ring.
    destruct (Z.abs_spec j) as [[Hj Habs] | [Hj Habs]]; rewrite Habs in Hbound; split; nia.
Qed.

(** For a number below [2 ^ 20] in magnitude, by [2 ^ -34] at most. *)
Lemma round_binary64_close (x : Q) :
  Z.abs (Qnum x) < 2 ^ 20 * Z.pos (Qden x) ->
  (Qabs (round_binary64 x - x) <= 1 # 17179869184)%Q.
Proof. intros Hx. exact (round_binary64_error x 20 ltac:(lia) Hx). Qed.

(** What [fromtimestamp] reads from a float is the float, to half a
    microsecond and the rounding of one product. *)
Lemma timeval_close (t : Q) (timet us : Z) :
  _PyTime_ObjectToTimeval (PyFloat (Finite t)) = Returned (timet, us) ->
  (Qabs ((timet * 1000000 + us # 1000000) - t)
   <= (1 # 2000000) + (1 # 17179869184000000))%Q.
Proof.
  cbn [_PyTime_ObjectToTimeval]. unfold _PyTime_DoubleToDenominator.
  pose proof (modf_spec t) as Hmodf.
  destruct (modf t) as [floatpart intpart]. destruct Hmodf as (Hfrac & Hsum & Hden).
  pose proof (round_binary64_close (floatpart * 1000000)) as Hfloat.
  pose proof (round_half_even_close (round_binary64 (floatpart * 1000000))) as Hround.
  set (z := round_binary64 (floatpart * 1000000)) in *.
  set (r := round_half_even z) in *. clearbody r.
  assert (Hexact : timet * 1000000 + us = intpart * 1000000 + r ->
                   (Qabs ((timet * 1000000 + us # 1000000) - t)
                    <= (1 # 2000000) + (1 # 17179869184000000))%Q).
  { intros ->. specialize (Hfloat ltac:(cbn [Qnum Qden Qmult]; lia)).
    apply Qabs_Qle_condition in Hfloat. destruct Hfloat as [Hlow Hhigh].
    clearbody z.
    unfold Qle, Qminus, Qplus, Qopp, Qmult in Hlow, Hhigh.
    cbn [Qnum Qden] in Hlow, Hhigh.
    rewrite ?Pos.mul_1_r, ?Hden, ?Pos2Z.inj_mul in Hlow.
    rewrite ?Pos.mul_1_r, ?Hden, ?Pos2Z.inj_mul in Hhigh.
    apply Qabs_Qle_condition.
    unfold Qle, Qminus, Qplus, Qopp. cbn [Qnum Qden]. rewrite !Pos2Z.inj_mul.
    rewrite Hsum.
    set (zn := Qnum z) in *. set (zd := Z.pos (Qden z)) in *.
    assert (Hzd : 0 < zd) by (unfold zd; lia). clearbody zn zd.
    set (fn := Qnum floatpart) in *. set (d := Z.pos (Qden t)) in *.
    assert (Hd : 0 < d) by (unfold d; lia). clearbody fn d.
    clear Hsum Hfrac Hden.
    (* the distance, in microseconds and over the denominator [d] *)
    set (A := r * d - fn * 1000000).
    set (U := r * zd - zn) in *.
    set (V := zn * d - fn * 1000000 * zd).
    assert (HV : Z.abs V * 17179869184 <= zd * d) by (unfold V; lia).
    assert (HA : A * zd = d * U + V) by (unfold A, U, V; ring).
    assert (HU : 2 * (d * Z.abs U) <= d * zd).
    { rewrite Z.mul_assoc, (Z.mul_comm 2 d), <- Z.mul_assoc.
      apply Z.mul_le_mono_nonneg_l; lia. }
    assert (Habs : Z.abs A * zd <= d * Z.abs U + Z.abs V).
    { replace (Z.abs A * zd) with (Z.abs (A * zd))
        by (rewrite Z.abs_mul; f_equal; lia).
      rewrite HA. eapply Z.le_trans; [apply Z.abs_triangle |].
      rewrite Z.abs_mul. replace (Z.abs d) with d by lia. lia. }
    assert (Hbound : (2 * 17179869184 * Z.abs A) * zd <= (d * (17179869184 + 2)) * zd).
    { set (dU := d * Z.abs U) in *. set (dz := d * zd) in *.
      replace (zd * d) with dz in HV by (unfold dz; ring).
      replace (2 * 17179869184 * Z.abs A * zd) with (2 * 17179869184 * (Z.abs A * zd))
        by ring.
      replace (d * (17179869184 + 2) * zd) with (dz * (17179869184 + 2))
        by (unfold dz; ring).
      clearbody dU dz. lia. }
    apply Z.mul_le_mono_pos_r in Hbound; [| exact Hzd].
    replace ((intpart * 1000000 + r) * d + - (intpart * d + fn) * 1000000) with A
      by (unfold A; ring).
    clearbody A. clear - Hbound Hd. split; lia. }
  cbv zeta.
  destruct (1000000 <=? r); [| destruct (r <? 0)];
    (destruct (_ && _); [| discriminate]); intros H; injection H as <- <-;
    apply Hexact; lia.
Qed.

(** The fields of [civil], by the day and the second of the day. *)
Lemma civil_fields (us offset : Z) (tz : option timezone) :
  let secs := (us + offset * 1000000) / 1000000 in
  exists y m d,
    _ord2ymd (secs / 86400 + _EPOCH_ORD) = (y, m, d)
    /\ _ymd2ord y m d = secs / 86400 + _EPOCH_ORD
    /\ (1 <= y <= 9999 <-> 1 <= secs / 86400 + _EPOCH_ORD <= 3652059)
    /\ 1 <= m <= 12 /\ 1 <= d <= days_in_month y m
    /\ civil us offset tz
       = {| year := y; month := m; day := d;
            hour := secs mod 86400 / 3600;
            minute := (secs mod 86400) mod 3600 / 60;
            second := (secs mod 86400) mod 60;
            microsecond := (us + offset * 1000000) mod 1000000;
            tzinfo := tz |}.
Proof.
  intros secs.
  destruct (ord_round_trip (secs / 86400 + _EPOCH_ORD)) as (y & m & d & Hymd & Hord & Hrange).
  pose proof (ord2ymd_valid (secs / 86400 + _EPOCH_ORD)) as Hvalid.
  rewrite Hymd in Hvalid. destruct Hvalid as [Hm Hd].
  exists y, m, d. repeat split; try tauto.
  unfold civil. cbv zeta. fold secs. rewrite Hymd. reflexivity.
Qed.

(** What [civil] computes is a date and a time of day, when its year is
    one [datetime] has. *)
Lemma civil_valid (us offset : Z) (tz : option timezone) :
  in_year_range (civil us offset tz) = true -> is_valid_datetime (civil us offset tz).
Proof.
  destruct (civil_fields us offset tz) as (y & m & d & _ & _ & _ & Hm & Hd & ->).
  unfold in_year_range, is_valid_datetime.
  cbn [year month day hour minute second microsecond].
  intros Hy. apply andb_prop in Hy as [Hy1 Hy2]. apply Z.leb_le in Hy1, Hy2.
  set (secs := (us + offset * 1000000) / 1000000).
  pose proof (Z.mod_pos_bound secs 86400 ltac:(lia)).
  pose proof (Z.mod_pos_bound (us + offset * 1000000) 1000000 ltac:(lia)).
  set (rem := secs mod 86400) in *. clearbody rem.
  repeat split; try lia; try (Z.div_mod_to_equations; lia).
Qed.

(** The instant of what [civil] computes for a time zone is the instant it
    was given: its [timestamp()] is the float nearest to it. *)
Lemma civil_timestamp (us : Z) (tz : timezone) :
  exists q,
    timestamp (civil us (utcoffset tz) (Some tz)) = Some (round_binary64 q)
    /\ (q == us # 1000000)%Q.
Proof.
  destruct (civil_fields us (utcoffset tz) (Some tz))
    as (y & m & d & _ & Hord & _ & _ & _ & ->).
  unfold timestamp, toordinal. cbn [year month day hour minute second microsecond tzinfo].
  eexists. split; [reflexivity |].
  rewrite Hord. unfold Qeq. cbn [Qnum Qden].
  set (local := us + utcoffset tz * 1000000).
  set (secs := local / 1000000).
  pose proof (Z.div_mod local 1000000 ltac:(lia)) as Hlocal. fold secs in Hlocal.
  pose proof (Z.div_mod secs 86400 ltac:(lia)) as Hsecs.
  set (rem := secs mod 86400) in *.
  pose proof (Z.mod_pos_bound secs 86400 ltac:(lia)) as Hrem. fold rem in Hrem.
  assert (Hclock : rem mod 60 + rem mod 3600 / 60 * 60 + rem / 3600 * 3600 = rem)
    by (clear; Z.div_mod_to_equations; lia).
  set (days := secs / 86400) in *. set (frac := local mod 1000000) in *.
  clearbody days frac rem. unfold local in Hlocal. lia.
Qed.

(** The year of [civil] is one [datetime] has when the seconds are within
    the range of the timestamps. *)
Lemma civil_in_year_range (us offset : Z) (tz : option timezone) :
  MIN_TIMESTAMP <= (us + offset * 1000000) / 1000000 <= MAX_TIMESTAMP ->
  in_year_range (civil us offset tz) = true.
Proof.
  intros Hsecs.
  destruct (civil_fields us offset tz) as (y & m & d & _ & _ & Hrange & _ & _ & ->).
  unfold in_year_range, MINYEAR, MAXYEAR. cbn [year].
  assert (Hy : 1 <= y <= 9999).
  { apply Hrange. unfold MIN_TIMESTAMP, MAX_TIMESTAMP, _EPOCH_ORD in *.
    set (secs := (us + offset * 1000000) / 1000000) in *. clearbody secs.
    Z.div_mod_to_equations. lia. }
  apply andb_true_intro. split; apply Z.leb_le; lia.
Qed.

(** What [fromtimestamp] returns with a time zone: the civil fields, on the
    clock of the zone, of the seconds and microseconds it read. *)
Lemma fromtimestamp_returned (value : PyVal) (tz : timezone) (d : datetime) :
  fromtimestamp value (TzSome tz) = Returned d ->
  exists timet us,
    _PyTime_ObjectToTimeval value = Returned (timet, us)
    /\ d = civil (timet * 1000000 + us) (utcoffset tz) (Some tz)
    /\ in_year_range d = true.
Proof.
  unfold fromtimestamp.
  destruct (_PyTime_ObjectToTimeval value) as [[timet us] | e]; [| discriminate].
  cbv zeta. destruct (_ && _); [| discriminate].
  destruct (in_year_range (civil _ 0 _)); [| discriminate].
  destruct (in_year_range (civil _ (utcoffset tz) _)) eqn:Hrange; [| discriminate].
  intros H. injection H as <-. exists timet, us. auto.
Qed.

(** It returns when the seconds it read are within the range of the
    timestamps, on the clock of UTC and on the clock of the zone. *)
Lemma fromtimestamp_returns (value : PyVal) (tz : timezone) (timet us : Z) :
  _PyTime_ObjectToTimeval value = Returned (timet, us) ->
  0 <= us < 1000000 ->
  MIN_TIMESTAMP <= timet <= MAX_TIMESTAMP ->
  MIN_TIMESTAMP <= timet + utcoffset tz <= MAX_TIMESTAMP ->
  fromtimestamp value (TzSome tz)
  = Returned (civil (timet * 1000000 + us) (utcoffset tz) (Some tz)).
Proof.
  intros Hvalue Hus Hutc Hzone. unfold fromtimestamp. rewrite Hvalue. cbv zeta.
  unfold MIN_TIMESTAMP, MAX_TIMESTAMP in *.
  replace ((_GMTIME_MIN <=? timet) && (timet <=? _GMTIME_MAX)) with true
    by (symmetry; apply andb_true_intro; unfold _GMTIME_MIN, _GMTIME_MAX;
        split; apply Z.leb_le; lia).
  rewrite (civil_in_year_range (timet * 1000000 + us) 0),
    (civil_in_year_range (timet * 1000000 + us) (utcoffset tz)).
  - reflexivity.
  - unfold MIN_TIMESTAMP, MAX_TIMESTAMP. Z.div_mod_to_equations. lia.
  - unfold MIN_TIMESTAMP, MAX_TIMESTAMP. Z.div_mod_to_equations. lia.
Qed.

(** The seconds read from a float are those of the float, a second apart at
    most. *)
Lemma timeval_seconds (t : Q) (timet us : Z) :
  _PyTime_ObjectToTimeval (PyFloat (Finite t)) = Returned (timet, us) ->
  (inject_Z (timet - 1) <= t)%Q /\ (t <= inject_Z (timet + 1))%Q.
Proof.
  intros H. pose proof (timeval_microseconds _ _ _ H) as Hus.
  pose proof (timeval_close t timet us H) as Hclose.
  apply Qabs_Qle_condition in Hclose. destruct Hclose as [Hlow Hhigh].
  revert Hlow Hhigh. unfold Qle, Qminus, Qplus, Qopp, inject_Z. cbn [Qnum Qden].
  rewrite !Pos2Z.inj_mul.
  set (n := Qnum t). set (d := Z.pos (Qden t)).
  assert (Hd : 0 < d) by (unfold d; lia). clearbody n d.
  intros Hlow Hhigh. split; nia.
Qed.

(** A float of the magnitude of a timestamp is read. *)
Lemma timeval_float_returns (t : Q) :
  (inject_Z (-1000000000000) <= t)%Q -> (t <= inject_Z 1000000000000)%Q ->
  exists timet us, _PyTime_ObjectToTimeval (PyFloat (Finite t)) = Returned (timet, us).
Proof.
  intros Hlow Hhigh. cbn [_PyTime_ObjectToTimeval]. unfold _PyTime_DoubleToDenominator.
  pose proof (modf_spec t) as Hmodf.
  destruct (modf t) as [floatpart intpart]. destruct Hmodf as (Hfrac & Hsum & Hden).
  assert (Hint : -1000000000001 <= intpart <= 1000000000001).
  { revert Hlow Hhigh. unfold Qle, inject_Z. cbn [Qnum Qden]. rewrite Hsum, Hden in *.
    set (d := Z.pos (Qden t)) in *. assert (0 < d) by (unfold d; lia). clearbody d.
    intros Hlow Hhigh. split; nia. }
  cbv zeta. unfold _TIME_T_MIN, _TIME_T_MAX.
  destruct (1000000 <=? _); [| destruct (_ <? 0)];
    (replace (_ && _) with true
       by (symmetry; apply andb_true_intro; split; apply Z.leb_le; lia));
    eauto.
Qed.



(** The one integer less than half a unit away is what rounding gives. *)
Lemma round_half_even_unique (z : Q) (k : Z) :
  2 * Z.abs (Qnum z - k * Z.pos (Qden z)) < Z.pos (Qden z) -> round_half_even z = k.
Proof.
  intros Hnear. pose proof (round_half_even_close z) as Hclose.
  set (r := round_half_even z) in *. clearbody r.
  set (zn := Qnum z) in *. set (zd := Z.pos (Qden z)) in *.
  assert (Hzd : 0 < zd) by (unfold zd; lia). clearbody zn zd.
  destruct (Z.lt_trichotomy r k) as [Hlt | [Heq | Hgt]]; [| exact Heq |]; exfalso; nia.
Qed.

(** A float within [2 ^ -21] second of a whole number [N] of microseconds is
    read as that number. *)
Lemma timeval_near (t : Q) (N : Z) :
  (Qabs (t - (N # 1000000)) <= 1 # 2097152)%Q ->
  -1000000000000 <= N / 1000000 <= 1000000000000 ->
  _PyTime_ObjectToTimeval (PyFloat (Finite t)) = Returned (N / 1000000, N mod 1000000).
Proof.
  intros Hnear HN. cbn [_PyTime_ObjectToTimeval]. unfold _PyTime_DoubleToDenominator.
  pose proof (modf_spec t) as Hmodf.
  destruct (modf t) as [floatpart intpart]. destruct Hmodf as (Hfrac & Hsum & Hden).
  pose proof (round_binary64_close (floatpart * 1000000)
                ltac:(cbn [Qnum Qden Qmult]; lia)) as Hfloat.
  destruct (round_binary64_bound (floatpart * 1000000) 1000000 ltac:(lia)) as [Hlow Hhigh].
  { unfold Qle, inject_Z. cbn [Qnum Qden Qmult]. lia. }
  { unfold Qle, inject_Z. cbn [Qnum Qden Qmult]. lia. }
  pose proof (round_half_even_range _ _ _ Hlow Hhigh) as Hr. clear Hlow Hhigh.
  set (z := round_binary64 (floatpart * 1000000)) in *.
  assert (Hround : round_half_even z = N - intpart * 1000000).
  { apply round_half_even_unique.
    apply Qabs_Qle_condition in Hfloat. destruct Hfloat as [Hlow Hhigh].
    apply Qabs_Qle_condition in Hnear. destruct Hnear as [Hlow' Hhigh'].
    clearbody z.
    unfold Qle, Qminus, Qplus, Qopp, Qmult in Hlow, Hhigh, Hlow', Hhigh'.
    cbn [Qnum Qden] in Hlow, Hhigh, Hlow', Hhigh'.
    rewrite ?Pos.mul_1_r, ?Hden, ?Pos2Z.inj_mul in Hlow.
    rewrite ?Pos.mul_1_r, ?Hden, ?Pos2Z.inj_mul in Hhigh.
    rewrite ?Pos2Z.inj_mul in Hlow'. rewrite ?Pos2Z.inj_mul in Hhigh'.
    rewrite Hsum in Hlow', Hhigh'.
    set (zn := Qnum z) in *. set (zd := Z.pos (Qden z)) in *.
    assert (Hzd : 0 < zd) by (unfold zd; lia). clearbody zn zd.
    set (fn := Qnum floatpart) in *. set (d := Z.pos (Qden t)) in *.
    assert (Hd : 0 < d) by (unfold d; lia). clearbody fn d.
    clear Hsum Hfrac Hden Hr.
    set (V := zn * d - fn * 1000000 * zd).
    set (W := fn * 1000000 - (N - intpart * 1000000) * d).
    assert (HV : Z.abs V * 17179869184 <= zd * d) by (unfold V; lia).
    assert (HW : Z.abs W * 2097152 <= d * 1000000) by (unfold W; lia).
    assert (Hsplit : (zn - (N - intpart * 1000000) * zd) * d = V + zd * W)
      by (unfold V, W; ring).
    set (X := zn - (N - intpart * 1000000) * zd) in *.
    assert (Habs : Z.abs X * d <= Z.abs V + zd * Z.abs W).
    { replace (Z.abs X * d) with (Z.abs (X * d)) by (rewrite Z.abs_mul; f_equal; lia).
      rewrite Hsplit. eapply Z.le_trans; [apply Z.abs_triangle |].
      rewrite Z.abs_mul. replace (Z.abs zd) with zd by lia. lia. }
    assert (HzW : zd * Z.abs W * 2097152 <= zd * d * 1000000).
    { replace (zd * Z.abs W * 2097152) with (zd * (Z.abs W * 2097152)) by ring.
      replace (zd * d * 1000000) with (zd * (d * 1000000)) by ring.
      apply Z.mul_le_mono_nonneg_l; lia. }
    assert (Hbound : (2 * Z.abs X) * d < zd * d).
    { set (aX := Z.abs X * d) in *. set (aV := Z.abs V) in *.
      set (aW := zd * Z.abs W) in *. set (zdd := zd * d) in *.
      replace (2 * Z.abs X * d) with (2 * aX) by (unfold aX; ring).
      assert (0 < zdd) by (unfold zdd; nia).
      clearbody aX aV aW zdd. lia. }
    apply Z.mul_lt_mono_pos_r in Hbound; [exact Hbound | exact Hd]. }
  rewrite Hround in *. clear Hround Hfloat.
  set (u := N - intpart * 1000000) in *.
  assert (Hint : N = intpart * 1000000 + u) by (unfold u; lia). clearbody u.
  unfold _TIME_T_MIN, _TIME_T_MAX. cbv zeta.
  destruct (1000000 <=? u) eqn:Hup;
    [apply Z.leb_le in Hup
    | apply Z.leb_gt in Hup; destruct (u <? 0) eqn:Hdown;
      [apply Z.ltb_lt in Hdown | apply Z.ltb_ge in Hdown] ].
  - assert (Hdiv : N / 1000000 = intpart + 1 /\ N mod 1000000 = u - 1000000)
      by (Z.div_mod_to_equations; lia).
    destruct Hdiv as [Hdiv Hmod]. rewrite Hdiv, Hmod in *.
    replace (_ && _) with true; [reflexivity |].
    symmetry. apply andb_true_intro. split; apply Z.leb_le; lia.
  - assert (Hdiv : N / 1000000 = intpart - 1 /\ N mod 1000000 = u + 1000000)
      by (Z.div_mod_to_equations; lia).
    destruct Hdiv as [Hdiv Hmod]. rewrite Hdiv, Hmod in *.
    replace (_ && _) with true; [reflexivity |].
    symmetry. apply andb_true_intro. split; apply Z.leb_le; lia.
  - assert (Hdiv : N / 1000000 = intpart /\ N mod 1000000 = u)
      by (Z.div_mod_to_equations; lia).
    destruct Hdiv as [Hdiv Hmod]. rewrite Hdiv, Hmod in *.
    replace (_ && _) with true; [reflexivity |].
    symmetry. apply andb_true_intro. split; apply Z.leb_le; lia.
Qed.

(** The civil fields of the instant of a datetime, on the clock of its
    zone, are its own. *)
Lemma civil_of_timestamp (d : datetime) (tz : timezone) :
  is_valid_datetime d -> tzinfo d = Some tz ->
  exists us,
    timestamp d = Some (round_binary64 (us # 1000000))
    /\ us = ((toordinal d - _EPOCH_ORD) * 86400
             + (second d + minute d * 60 + hour d * 3600 - utcoffset tz)) * 1000000
            + microsecond d
    /\ civil us (utcoffset tz) (Some tz) = d.
Proof.
  intros (Hy & Hm & Hd & Hh & Hmin & Hs & Hus) Htz.
  unfold timestamp. rewrite Htz. unfold toordinal.
  eexists. split; [reflexivity |]. split; [reflexivity |].
  destruct d as [y m day h mi s us z]. cbn [year month Values.day hour minute second
    microsecond tzinfo] in *. subst z.
  unfold civil. cbv zeta.
  set (days := _ymd2ord y m day - _EPOCH_ORD).
  set (sod := s + mi * 60 + h * 3600).
  assert (Hsod : 0 <= sod < 86400) by (unfold sod; lia).
  replace ((days * 86400 + (sod - utcoffset tz)) * 1000000 + us
           + utcoffset tz * 1000000)
    with ((days * 86400 + sod) * 1000000 + us) by lia.
  assert (Hsecs : ((days * 86400 + sod) * 1000000 + us) / 1000000 = days * 86400 + sod)
    by (Z.div_mod_to_equations; lia).
  assert (Hfrac : ((days * 86400 + sod) * 1000000 + us) mod 1000000 = us)
    by (Z.div_mod_to_equations; lia).
  rewrite Hsecs, Hfrac.
  assert (Hdays : (days * 86400 + sod) / 86400 = days) by (Z.div_mod_to_equations; lia).
  assert (Hrem : (days * 86400 + sod) mod 86400 = sod) by (Z.div_mod_to_equations; lia).
  rewrite Hdays, Hrem.
  replace (days + _EPOCH_ORD) with (_ymd2ord y m day) by (unfold days; lia).
  rewrite (ymd_round_trip y m day Hm Hd).
  f_equal; unfold sod; Z.div_mod_to_equations; lia.
Qed.

(** The days before a year, between two years. *)
Lemma days_before_year_mono (y y' : Z) :
  y <= y' -> _days_before_year y <= _days_before_year y'.
Proof. unfold _days_before_year. cbv zeta. intros H. Z.div_mod_to_equations. lia. Qed.

(** The ordinal of a date, between the first day of its year and the first
    of the next. *)
Lemma ordinal_in_year (y m d : Z) :
  1 <= m <= 12 -> 1 <= d <= days_in_month y m ->
  _days_before_year y + 1 <= _ymd2ord y m d <= _days_before_year (y + 1).
Proof.
  intros Hm Hd. pose proof (day_of_year_bounds y m d Hm Hd) as Hdoy.
  rewrite days_before_next_year. unfold _ymd2ord. lia.
Qed.



End ConversionFacts.
